(** * Podcast-Generator: the generation pipeline, embedded and checked

    A shallow embedding of the parts of the multi-agent podcast generator
    that its specification makes claims about: the word counters of
    [BaseAgent], the outline and tone parsers, the word-count convergence
    loops of the Scripter and the Editor, the retry loop of the chat
    backend, the accuracy classification of the orchestrator and the job
    registry of the controller.

    Conventions of the embedding.
    - A JavaScript string is a Rocq [string]; its characters are the
      code units 0..255, which covers every input used below.
    - A JavaScript number that holds a count is a [Z] or a [nat]; a
      quotient or a percentage is a [Q], computed exactly.  [Math.round]
      is [js_round] (round half up).
    - A regular expression literal is transcribed constructor by
      constructor into the type [re] and run by the backtracking matcher
      [rmatch], which follows the order of alternatives of the
      ECMAScript matcher (greedy and lazy quantifiers, captures,
      lookahead, anchors).
    - A call to a language model is a step of the monad [M]: the state
      records every prompt that was sent, the answer comes from a
      [backend] that may depend on the whole history. *)

From Stdlib Require Import ZArith QArith Qround Qabs Lqa List String Ascii Bool Lia.
From stdpp Require Import gmap strings.
Import ListNotations.

Set Implicit Arguments.

(** ** JavaScript strings *)

Module Js.

Definition chars := list ascii.

Definition code (c : ascii) : nat := nat_of_ascii c.

Definition chr (n : nat) : ascii := ascii_of_nat n.

Definition ch_eqb (a b : ascii) : bool := Ascii.eqb a b.

(** [\n] and the string made of it. *)
Definition LF : ascii := chr 10.
Definition nl : string := String LF EmptyString.

Definition between (lo hi : nat) (c : ascii) : bool :=
  (lo <=? code c) && (code c <=? hi).

(** [\s]: TAB, LF, VT, FF, CR, SPACE and NBSP. *)
Definition is_space (c : ascii) : bool :=
  between 9 13 c || (code c =? 32) || (code c =? 160).

(** [\d]. *)
Definition is_digit (c : ascii) : bool := between 48 57 c.

Definition is_upper (c : ascii) : bool := between 65 90 c.
Definition is_lower (c : ascii) : bool := between 97 122 c.

(** [\w]: [A-Za-z0-9_]. *)
Definition is_word (c : ascii) : bool :=
  is_upper c || is_lower c || is_digit c || (code c =? 95).

(** Line terminators among the code units 0..255: LF and CR. *)
Definition is_line_term (c : ascii) : bool :=
  (code c =? 10) || (code c =? 13).

(** [toLowerCase] on one code unit: A-Z, and the Latin-1 capitals
    0xC0..0xDE except the multiplication sign 0xD7. *)
Definition lower_ch (c : ascii) : ascii :=
  if is_upper c then chr (code c + 32)
  else if between 192 222 c && negb (code c =? 215) then chr (code c + 32)
  else c.

(** ASCII case folding, as the [i] flag does for an ASCII pattern
    character. *)
Definition fold_ch (c : ascii) : ascii :=
  if is_upper c then chr (code c + 32) else c.

Definition of_string (s : string) : chars := list_ascii_of_string s.
Definition to_string (l : chars) : string := string_of_list_ascii l.

Fixpoint starts_with (p l : chars) : bool :=
  match p, l with
  | [], _ => true
  | x :: p', y :: l' => ch_eqb x y && starts_with p' l'
  | _ :: _, [] => false
  end.

(** [l.includes(p)] on character lists. *)
Fixpoint includes_chars (p l : chars) : bool :=
  starts_with p l ||
  match l with
  | [] => false
  | _ :: l' => includes_chars p l'
  end.

Fixpoint drop_spaces (l : chars) : chars :=
  match l with
  | c :: l' => if is_space c then drop_spaces l' else l
  | [] => []
  end.

(** [l.trim()]. *)
Definition trim_chars (l : chars) : chars :=
  rev (drop_spaces (rev (drop_spaces l))).

(** [l.split(sep)] for a one-character separator. *)
Fixpoint split_on (sep : ascii) (l : chars) : list chars :=
  match l with
  | [] => [[]]
  | c :: l' =>
      match split_on sep l' with
      | piece :: rest =>
          if ch_eqb c sep then [] :: piece :: rest else (c :: piece) :: rest
      | [] => [[c]]
      end
  end.

(** [pieces.join(sep)]. *)
Fixpoint join_chars (sep : chars) (pieces : list chars) : chars :=
  match pieces with
  | [] => []
  | [p] => p
  | p :: rest => p ++ sep ++ join_chars sep rest
  end.

(** The string-level versions used by the agents. *)
Definition includes (s p : string) : bool :=
  includes_chars (of_string p) (of_string s).

Definition startsWith (s p : string) : bool :=
  starts_with (of_string p) (of_string s).

Definition trim (s : string) : string :=
  to_string (trim_chars (of_string s)).

Definition toLowerCase (s : string) : string :=
  to_string (map lower_ch (of_string s)).

Definition split_lines (s : string) : list string :=
  map to_string (split_on LF (of_string s)).

Definition join (sep : string) (l : list string) : string :=
  to_string (join_chars (of_string sep) (map of_string l)).

(** [l.length === 0] *)
Definition is_nil {A : Type} (l : list A) : bool :=
  match l with [] => true | _ :: _ => false end.

(** A string is falsy exactly when it is empty. *)
Definition truthy (s : string) : bool := negb (String.length s =? 0).

(** [lines] joined by newlines: a readable way to write a document. *)
Definition unlines (l : list string) : string := join nl l.

(** Decimal rendering of a count, as template literals do. *)
Fixpoint digits_aux (fuel n : nat) (acc : chars) : chars :=
  match fuel with
  | O => acc
  | S fuel' =>
      let d := chr (48 + n mod 10) in
      if n <? 10 then d :: acc else digits_aux fuel' (n / 10) (d :: acc)
  end.

Definition show_nat (n : nat) : string := to_string (digits_aux (S n) n []).

Definition show_Z (z : Z) : string :=
  if (z <? 0)%Z then "-" +:+ show_nat (Z.to_nat (- z)) else show_nat (Z.to_nat z).

(** [Math.round]: the nearest integer, ties towards plus infinity. *)
Definition js_round (q : Q) : Z := Qfloor (q + (1 # 2)).

End Js.

(** ** Regular expressions

    The flags of a literal are resolved when it is transcribed: [dot]
    or [any] for [.] without or with the [s] flag, [Bol true] and
    [Eol true] for [^] and [$] under the [m] flag, [liti] for literal
    text under the [i] flag.  No literal of the program puts a capture
    group under a quantifier, so captures are never reset inside a
    repetition. *)

Module Regex.
Import Js.

Inductive re : Type :=
| Eps                                              (* the empty pattern *)
| Cls (p : ascii -> bool)                          (* one character of a class *)
| Cat (r1 r2 : re)                                 (* r1 r2 *)
| Or (r1 r2 : re)                                  (* r1|r2 *)
| Rep (lo : nat) (hi : option nat) (greedy : bool) (r : re)   (* r{lo,hi} and r{lo,hi}? *)
| Grp (n : nat) (r : re)                           (* capture group number n *)
| Ahead (r : re)                                   (* (?=r) *)
| Behind (p : ascii -> bool)                       (* (?<=[class]) *)
| Bol (multiline : bool)                           (* ^ *)
| Eol (multiline : bool)                           (* $ *)
| Wordb.                                           (* \b *)

(** The matcher state: the characters already passed (last one first),
    the characters still ahead, and the captures made so far. *)
Record mstate : Type := MState {
  pre : chars;
  post : chars;
  caps : list (nat * chars)
}.

Fixpoint assoc (n : nat) (l : list (nat * chars)) : option chars :=
  match l with
  | [] => None
  | (m, v) :: l' => if n =? m then Some v else assoc n l'
  end.

Definition cap (n : nat) (st : mstate) : option chars := assoc n (caps st).

Definition pos (st : mstate) : nat := List.length (pre st).

(** The characters passed between two states of one match. *)
Definition consumed (st st' : mstate) : chars :=
  rev (firstn (pos st' - pos st) (pre st')).

Definition set_cap (n : nat) (v : chars) (st : mstate) : mstate :=
  MState (pre st) (post st) ((n, v) :: caps st).

Definition word_before (st : mstate) : bool :=
  match pre st with c :: _ => is_word c | [] => false end.

Definition word_after (st : mstate) : bool :=
  match post st with c :: _ => is_word c | [] => false end.

(** A repetition [r{lo,hi}] whose body is matched by [body]: one more
    iteration is tried before (greedy) or after (lazy) trying to stop
    with [k]; once the lower bound is met, an iteration that passes no
    character is rejected.  The fuel is the lower bound plus the number
    of characters ahead, which no run of iterations can exceed. *)
Fixpoint rep_loop (body : mstate -> (mstate -> option mstate) -> option mstate)
  (k : mstate -> option mstate) (greedy : bool)
  (fuel lo : nat) (hi : option nat) (st : mstate) {struct fuel} : option mstate :=
  match fuel with
  | O => if lo =? 0 then k st else None
  | S fuel' =>
      match hi with
      | Some O => k st
      | _ =>
          let again (_ : unit) :=
            body st (fun st' =>
              if (lo =? 0) && (List.length (post st') =? List.length (post st))
              then None
              else rep_loop body k greedy fuel' (Nat.pred lo) (option_map Nat.pred hi) st') in
          if 0 <? lo then again tt
          else if greedy then
            match again tt with
            | Some res => Some res
            | None => k st
            end
          else
            match k st with
            | Some res => Some res
            | None => again tt
            end
      end
  end.

(** The backtracking matcher, in continuation-passing style: [k] is
    what remains to be matched after [r]. *)
Fixpoint rmatch (r : re) (st : mstate) (k : mstate -> option mstate)
  {struct r} : option mstate :=
  match r with
  | Eps => k st
  | Cls p =>
      match post st with
      | c :: rest => if p c then k (MState (c :: pre st) rest (caps st)) else None
      | [] => None
      end
  | Cat r1 r2 => rmatch r1 st (fun st1 => rmatch r2 st1 k)
  | Or r1 r2 =>
      match rmatch r1 st k with
      | Some res => Some res
      | None => rmatch r2 st k
      end
  | Rep lo hi greedy r1 =>
      rep_loop (rmatch r1) k greedy (lo + List.length (post st)) lo hi st
  | Grp n r1 => rmatch r1 st (fun st' => k (set_cap n (consumed st st') st'))
  | Ahead r1 =>
      match rmatch r1 st Some with
      | Some st' => k (MState (pre st) (post st) (caps st'))
      | None => None
      end
  | Behind p =>
      match pre st with
      | c :: _ => if p c then k st else None
      | [] => None
      end
  | Bol multiline =>
      match pre st with
      | [] => k st
      | c :: _ => if multiline && is_line_term c then k st else None
      end
  | Eol multiline =>
      match post st with
      | [] => k st
      | c :: _ => if multiline && is_line_term c then k st else None
      end
  | Wordb => if xorb (word_before st) (word_after st) then k st else None
  end.

(** *** Writing patterns *)

Definition is_ch (c : ascii) : ascii -> bool := ch_eqb c.

Fixpoint mem_ch (l : chars) (c : ascii) : bool :=
  match l with
  | [] => false
  | x :: l' => ch_eqb x c || mem_ch l' c
  end.

(** [[abc]] and [[^abc]]. *)
Definition oneof (s : string) : re := Cls (mem_ch (of_string s)).
Definition noneof (s : string) : re := Cls (fun c => negb (mem_ch (of_string s) c)).

(** [.] without the [s] flag, and [.] with it (also [[\s\S]]). *)
Definition dot : re := Cls (fun c => negb (is_line_term c)).
Definition any : re := Cls (fun _ => true).

Definition space : re := Cls is_space.
Definition digit : re := Cls is_digit.

Fixpoint lit_chars (l : chars) : re :=
  match l with
  | [] => Eps
  | [c] => Cls (is_ch c)
  | c :: l' => Cat (Cls (is_ch c)) (lit_chars l')
  end.

(** Literal text. *)
Definition lit (s : string) : re := lit_chars (of_string s).

Fixpoint liti_chars (l : chars) : re :=
  match l with
  | [] => Eps
  | [c] => Cls (fun x => ch_eqb (fold_ch x) (fold_ch c))
  | c :: l' => Cat (Cls (fun x => ch_eqb (fold_ch x) (fold_ch c))) (liti_chars l')
  end.

(** Literal text under the [i] flag. *)
Definition liti (s : string) : re := liti_chars (of_string s).

Fixpoint seq (l : list re) : re :=
  match l with
  | [] => Eps
  | [r] => r
  | r :: l' => Cat r (seq l')
  end.

Definition star (r : re) : re := Rep 0 None true r.
Definition plus (r : re) : re := Rep 1 None true r.
Definition opt (r : re) : re := Rep 0 (Some 1) true r.
Definition star_lazy (r : re) : re := Rep 0 None false r.
Definition plus_lazy (r : re) : re := Rep 1 None false r.
Definition times (lo hi : nat) (r : re) : re := Rep lo (Some hi) true r.

(** *** Running patterns *)

(** One successful match: the state where it starts and the state
    where it ends. *)
Record hit : Type := Hit { h_start : mstate; h_end : mstate }.

Definition h_text (h : hit) : chars := consumed (h_start h) (h_end h).

(** Capture group [n], the empty string when the group took no part. *)
Definition h_group (n : nat) (h : hit) : chars :=
  match cap n (h_end h) with
  | Some v => v
  | None => []
  end.

(** A match that starts exactly here. *)
Definition match_here (r : re) (before ahead : chars) : option hit :=
  let st := MState before ahead [] in
  match rmatch r st Some with
  | Some res => Some (Hit st res)
  | None => None
  end.

(** The leftmost match at or after the current position: [exec]. *)
Fixpoint search (r : re) (before ahead : chars) {struct ahead} : option hit :=
  match match_here r before ahead with
  | Some h => Some h
  | None =>
      match ahead with
      | [] => None
      | c :: rest => search r (c :: before) rest
      end
  end.

(** The text skipped before a match found from [before]. *)
Definition gap (before : chars) (h : hit) : chars :=
  rev (firstn (pos (h_start h) - List.length before) (pre (h_start h))).

(** All matches of a [g] pattern from left to right, each with the
    text between it and the previous one, and the text after the last.
    After an empty match the search resumes one character further. *)
Fixpoint scan (fuel : nat) (r : re) (before ahead held : chars)
  : list (chars * hit) * chars :=
  match fuel with
  | O => ([], held ++ ahead)
  | S fuel' =>
      match search r before ahead with
      | None => ([], held ++ ahead)
      | Some h =>
          let e := h_end h in
          if pos e =? pos (h_start h) then
            match post e with
            | [] => ([(held ++ gap before h, h)], [])
            | c :: rest =>
                let (hits, tail) := scan fuel' r (c :: pre e) rest [c] in
                ((held ++ gap before h, h) :: hits, tail)
            end
          else
            let (hits, tail) := scan fuel' r (pre e) (post e) [] in
            ((held ++ gap before h, h) :: hits, tail)
      end
  end.

Definition scan_all (r : re) (l : chars) : list (chars * hit) * chars :=
  scan (S (List.length l)) r [] l [].

(** [s.match(/r/g)] and the loop [while ((m = re.exec(s)) !== null)]. *)
Definition match_all (r : re) (s : string) : list hit :=
  map snd (fst (scan_all r (of_string s))).

(** [s.match(/r/)] without the [g] flag. *)
Definition match_first (r : re) (s : string) : option hit :=
  search r [] (of_string s).

(** [s.replace(/r/g, f)] with a function of the match. *)
Definition replace_all_with (r : re) (f : hit -> chars) (s : string) : string :=
  let (hits, tail) := scan_all r (of_string s) in
  to_string (flat_map (fun gh => fst gh ++ f (snd gh)) hits ++ tail).

(** [s.replace(/r/, f)] without the [g] flag: the first match only. *)
Definition replace_first_with (r : re) (f : hit -> chars) (s : string) : string :=
  match search r [] (of_string s) with
  | None => s
  | Some h => to_string (gap [] h ++ f h ++ post (h_end h))
  end.

(** The replacement texts of the program: a fixed text, or ['$1']. *)
Definition replace_all (r : re) (by_ : string) (s : string) : string :=
  replace_all_with r (fun _ => of_string by_) s.

Definition replace_all_group1 (r : re) (s : string) : string :=
  replace_all_with r (h_group 1) s.

Definition replace_first (r : re) (by_ : string) (s : string) : string :=
  replace_first_with r (fun _ => of_string by_) s.

(** [s.split(/r/)]: a separator is looked for at each position in
    turn; a match that ends where the current piece starts is skipped. *)
Fixpoint split_aux (fuel : nat) (r : re) (before ahead piece : chars)
  : list chars :=
  match fuel with
  | O => [rev piece ++ ahead]
  | S fuel' =>
      match ahead with
      | [] => [rev piece]
      | c :: rest =>
          match match_here r before ahead with
          | Some h =>
              let e := h_end h in
              if (pos e =? pos (h_start h)) && (List.length piece =? 0)
              then split_aux fuel' r (c :: before) rest (c :: piece)
              else
                match post e with
                | [] => [rev piece; []]
                | _ :: _ => rev piece :: split_aux fuel' r (pre e) (post e) []
                end
          | None => split_aux fuel' r (c :: before) rest (c :: piece)
          end
      end
  end.

Definition split (r : re) (s : string) : list string :=
  match of_string s with
  | [] =>
      match match_here r [] [] with
      | Some _ => []
      | None => [""]
      end
  | l => map to_string (split_aux (2 * List.length l + 2) r [] l [])
  end.

End Regex.

(** ** The agent runtime: word counters (src/agents/baseAgent.js) *)

Module BaseAgent.
Import Js Regex.

Definition nonempty (s : string) : bool := negb (String.length s =? 0).

(** [countWords]: the raw word count.  Markdown headers, emphasis,
    links, code marks and list markers are stripped, then the text is
    split on whitespace. *)
Definition countWords (text : string) : nat :=
  if negb (truthy text) then 0 else
  let cleanText :=
    trim
      (replace_all (seq [Bol true; star space; plus digit; lit "."; plus space]) ""
      (replace_all (seq [Bol true; star space; oneof "-*+"; plus space]) ""
      (replace_all_group1 (seq [lit "`"; Grp 1 (plus (noneof "`")); lit "`"])
      (replace_all_group1
         (seq [lit "["; Grp 1 (plus (noneof "]")); lit "]";
               lit "("; plus (noneof ")"); lit ")"])
      (replace_all_group1
         (seq [times 1 2 (lit "*"); Grp 1 (plus (noneof "*")); times 1 2 (lit "*")])
      (replace_all (seq [times 1 6 (lit "#"); plus space]) "" text)))))) in
  List.length (filter nonempty (split (plus space) cleanText)).

(** The lookahead that ends a notes block: [(?=\n##|\n\*\*Host|\Z)].
    In a pattern without the [u] flag [\Z] is the letter Z. *)
Definition block_end : re :=
  Ahead (Or (lit (nl +:+ "##")) (Or (lit (nl +:+ "**Host")) (lit "Z"))).

(** [/Name.*?(?=...)/s], replaced once. *)
Definition drop_block (name : string) (s : string) : string :=
  replace_first (seq [lit name; star_lazy any; block_end]) "" s.

(** [/\*\*Host\s+\d+:\*\*\s*(?:\[.*?\])?\s*(.+)/i] *)
Definition host_line : re :=
  seq [lit "**"; liti "Host"; plus space; plus digit; lit ":**"; star space;
       opt (seq [lit "["; star_lazy dot; lit "]"]); star space; Grp 1 (plus dot)].

Definition spoken_text (line : string) : string :=
  match match_first host_line line with
  | Some h => trim (to_string (h_group 1 h))
  | None => ""
  end.

(** The cleaning steps of [countSpokenWords], in source order. *)
Definition cleanContent (content : string) : string :=
  drop_block "CONSTRAINTS:"
  (drop_block "Technical TTS Guidance"
  (drop_block "Expression Notes"
  (drop_block "Tone Analysis"
  (drop_block "Script Metadata"
  (drop_block "Speaking Notes"
  (replace_all (seq [lit "["; star_lazy dot; lit "]"]) ""
  (replace_all (seq [lit "["; liti "Continue"; star_lazy dot; lit "]"]) ""
  (replace_all (seq [Bol true; oneof "-*+"; plus space; star dot; Eol true]) ""
  (replace_all (seq [Bol true; lit "###"; star dot; Eol true]) ""
  (replace_all (seq [Bol true; lit "##"; star dot; Eol true]) ""
  (replace_all (seq [times 1 6 (lit "#"); plus space; star dot; Eol true]) ""
     content))))))))))).

Definition dialogueLines (content : string) : list string :=
  filter nonempty
    (map spoken_text
       (filter (fun line => includes line "**Host")
          (map trim (split_lines (cleanContent content))))).

(** [countSpokenWords]: only the text that follows a host label on a
    dialogue line counts, with bracketed content removed and
    punctuation turned into spaces. *)
Definition countSpokenWords (content : string) : nat :=
  if negb (truthy content) then 0 else
  let totalSpokenText := join " " (dialogueLines content) in
  let words :=
    filter nonempty
      (map to_string
         (split_on " "%char
            (of_string
               (trim
                  (replace_all (plus space) " "
                     (replace_all (Cls (fun c => negb (is_word c || is_space c))) " "
                        totalSpokenText)))))) in
  List.length words.

(** What [extractMarkdown] returns ([metadata], the headings and the
    list and link counts, is read by no stage and is left out). *)
Record Markdown : Type := {
  content : string;
  wordCount : nat
}.

End BaseAgent.

(** ** Effects: model calls, progress reports, warnings and errors *)

Module Runtime.
Import Js.

(** What one call to the model gives back: the text of the answer, or
    a failure with its message. *)
Inductive reply : Type :=
| Content (text : string)
| Failure (message : string).

(** A thrown error: a plain [Error] or an [AgentError] with the name of
    the agent. *)
Inductive error : Type :=
| Error (message : string)
| AgentError (message agentName : string).

Definition message_of (e : error) : string :=
  match e with
  | Error m => m
  | AgentError m _ => m
  end.

(** The four grades of a word count against its target. *)
Inductive grade : Type := excellent | good | fair | poor.

(** The warnings of the Editor's final validation. *)
Inductive warning : Type :=
| WordCountOutsideRange      (* 'Word count slightly outside target range: ...' *)
| FinalScriptShort           (* 'Final script is quite short (...), but proceeding...' *)
| MissingToneLabels          (* 'Final script missing tone labels - ...' *)
| SentencesTooLong           (* 'Final script may have sentences too long ...' *)
| NotProductionReady.        (* 'Final script may not be fully production ready' *)

(** What the Content Fetcher gives back for a source: the document
    with its title and word count, or a failure. *)
Record SourceContent : Type := {
  sc_title : string;
  sc_content : string;
  sc_source : string;
  sc_wordCount : nat
}.

Inductive fetched : Type :=
| Fetched (document : SourceContent)
| FetchFailed (message : string).

(** The world a job runs in.  [backend n p] is the answer to the
    [n]-th model call (counted from 0) when it is made with prompt
    [p], and [fetcher source] is what fetching [source] gives; [sent]
    lists the prompts of the calls made so far, [progress] the progress
    reports and [warnings] the warnings of the Editor's final
    validation, each oldest first. *)
Record World : Type := {
  backend : nat -> string -> reply;
  fetcher : string -> fetched;
  sent : list string;
  progress : list (string * nat);
  warnings : list warning
}.

Definition modelCalls (w : World) : nat := List.length (sent w).

Definition M (A : Type) : Type := World -> (error + A) * World.

Definition ret {A : Type} (a : A) : M A := fun w => (inr a, w).

Definition throw {A : Type} (e : error) : M A := fun w => (inl e, w).

Definition bind {A B : Type} (m : M A) (k : A -> M B) : M B :=
  fun w =>
    match m w with
    | (inr a, w') => k a w'
    | (inl e, w') => (inl e, w')
    end.

(** [try { m } catch (error) { handler(error) }] *)
Definition catch {A : Type} (m : M A) (handler : error -> M A) : M A :=
  fun w =>
    match m w with
    | (inr a, w') => (inr a, w')
    | (inl e, w') => handler e w'
    end.

Notation "x <-- m ;; k" := (bind m (fun x => k))
  (at level 100, m at level 99, right associativity).
Notation "m ;;; k" := (bind m (fun _ => k))
  (at level 100, right associativity).

(** [if (cond) throw new Error(message)] *)
Definition throw_if (cond : bool) (message : string) : M unit :=
  if cond then throw (Error message) else ret tt.

Definition warn (message : warning) : M unit :=
  fun w => (inr tt, {| backend := backend w; fetcher := fetcher w;
                       sent := sent w; progress := progress w;
                       warnings := warnings w ++ [message] |}).

(** [updateProgress(progressCallback, step, completed, 7)] *)
Definition updateProgress (step : string) (completed : nat) : M unit :=
  fun w => (inr tt, {| backend := backend w; fetcher := fetcher w;
                       sent := sent w;
                       progress := progress w ++ [(step, completed)];
                       warnings := warnings w |}).

Record Response : Type := { r_content : string }.

(** The world after one more model call with this prompt. *)
Definition calling (prompt : string) (w : World) : World :=
  {| backend := backend w; fetcher := fetcher w;
     sent := sent w ++ [prompt];
     progress := progress w; warnings := warnings w |}.

(** What the agent [name] gets from a reply: the answer, or an
    [AgentError] that names the agent. *)
Definition received (name : string) (r : reply) : error + Response :=
  match r with
  | Content text => inr {| r_content := text |}
  | Failure message =>
      inl (AgentError (name +:+ " execution failed: " +:+ message) name)
  end.

(** [BaseAgent.chatComplete]: one model call made by the agent [name],
    whichever backend serves it. *)
Definition chatComplete (name prompt : string) : M Response :=
  fun w => (received name (backend w (modelCalls w) prompt), calling prompt w).

(** [BaseAgent.extractMarkdown]: [response.content || response] is the
    response object itself when the content is empty, and that is not
    a string. *)
Definition extractMarkdown (name : string) (response : Response)
  : M BaseAgent.Markdown :=
  if truthy (r_content response) then
    ret {| BaseAgent.content := trim (r_content response);
           BaseAgent.wordCount := BaseAgent.countSpokenWords (r_content response) |}
  else
    throw (AgentError ("Invalid response format from " +:+ name +:+ " agent") name).

(** [await this.contentFetcher.fetchContent(source)] *)
Definition fetchContent (source : string) : M SourceContent :=
  fun w =>
    match fetcher w source with
    | Fetched document => (inr document, w)
    | FetchFailed message =>
        (inl (Error ("Failed to fetch content from " +:+ source +:+ ": " +:+ message)), w)
    end.

(** A world in which nothing has happened yet. *)
Definition fresh (b : nat -> string -> reply) (f : string -> fetched) : World :=
  {| backend := b; fetcher := f; sent := []; progress := []; warnings := [] |}.

(** The fetcher that reaches no source. *)
Definition unreachable : string -> fetched :=
  fun _ => FetchFailed "unreachable".

(** The backend that answers the calls with the given replies in turn,
    and fails once they are used up. *)
Definition scripted (l : list reply) : nat -> string -> reply :=
  fun n _ => nth n l (Failure "no reply").

(** [calculateWordAccuracy]: the signed deviation in percent, with two
    decimals.  Every caller has checked that the target is positive. *)
Definition calculateWordAccuracy (actualWords : nat) (targetWords : Z) : Q :=
  inject_Z (js_round
    (((inject_Z (Z.of_nat actualWords) - inject_Z targetWords) / inject_Z targetWords)
     * 10000)) / 100.

End Runtime.

(** ** The Scripter (ScriptAgent) *)

Module ScriptAgent.
Import Js Regex Runtime BaseAgent.

Record ScriptInput : Type := {
  section : string;
  chapterNumber : Z;
  targetWords : Z;
  style : string;
  context : string
}.

(** What [execute] returns, without the speaking notes and the fact
    count of [parseScriptMetadata], which no later stage reads. *)
Record Script : Type := {
  content : string;
  wordCount : nat;
  scriptChapter : Z;
  scriptTarget : Z;
  actualWords : nat;
  accuracy : Q
}.

Definition name : string := "ScriptAgent".

Definition maxAttempts : nat := 3.

Definition tolerance : Q := 2.

(** The directive appended to the prompt after a missed attempt. *)
Definition feedback (wordCount : nat) (targetWords : Z) : string :=
  if (Z.of_nat wordCount <? targetWords)%Z then
    nl +:+ nl +:+ "IMPORTANT: The previous attempt was " +:+ show_nat wordCount
    +:+ " words, which is " +:+ show_Z (targetWords - Z.of_nat wordCount)
    +:+ " words SHORT. Please expand the content to reach exactly "
    +:+ show_Z targetWords
    +:+ " words by adding more detail, examples, or explanations."
  else
    nl +:+ nl +:+ "IMPORTANT: The previous attempt was " +:+ show_nat wordCount
    +:+ " words, which is " +:+ show_Z (Z.of_nat wordCount - targetWords)
    +:+ " words TOO LONG. Please condense the content to reach exactly "
    +:+ show_Z targetWords
    +:+ " words by being more concise while keeping all key points.".

(** The body of [generateScriptWithWordCount]: [remaining] iterations
    of the [for] loop are still to run, the next one is number
    [attempt]; when none remains the statements after the loop run. *)
Fixpoint attempts (remaining attempt : nat) (prompt : string) (targetWords : Z)
  : M Response :=
  match remaining with
  | O =>
      finalResponse <-- chatComplete name prompt ;;
      ret finalResponse
  | S remaining' =>
      response <-- chatComplete name prompt ;;
      let wordCount := countSpokenWords (r_content response) in
      let accuracy := calculateWordAccuracy wordCount targetWords in
      if Qle_bool (Qabs accuracy) tolerance then ret response
      else
        attempts remaining' (S attempt)
          (if attempt <? maxAttempts
           then prompt +:+ feedback wordCount targetWords
           else prompt)
          targetWords
  end.

Definition generateScriptWithWordCount (prompt : string) (targetWords : Z)
  : M Response :=
  attempts maxAttempts 1 prompt targetWords.

Definition validateInput (input : ScriptInput) : M unit :=
  throw_if (negb (truthy (section input))
            || (String.length (trim (section input)) =? 0))
    "Section content is required for script generation" ;;;
  throw_if ((targetWords input =? 0)%Z || (targetWords input <? 50)%Z
            || (2000 <? targetWords input)%Z)
    "Target words must be between 50 and 2000" ;;;
  throw_if ((chapterNumber input <? 1)%Z || (20 <? chapterNumber input)%Z)
    "Chapter number must be between 1 and 20".

Section Execute.

(** The wording of the prompt plays no part in what follows. *)
Variable createScriptPrompt : ScriptInput -> string.

(** [execute]; [validateScript] only logs and is left out. *)
Definition execute (input : ScriptInput) : M Script :=
  validateInput input ;;;
  let scriptPrompt := createScriptPrompt input in
  response <-- generateScriptWithWordCount scriptPrompt (targetWords input) ;;
  script <-- extractMarkdown name response ;;
  ret {| content := BaseAgent.content script;
         wordCount := BaseAgent.wordCount script;
         scriptChapter := chapterNumber input;
         scriptTarget := targetWords input;
         actualWords := BaseAgent.wordCount script;
         accuracy := calculateWordAccuracy (BaseAgent.wordCount script)
                       (targetWords input) |}.

End Execute.

End ScriptAgent.

(** ** The Editor (EditorAgent) *)

Module EditorAgent.
Import Js Regex Runtime BaseAgent.

Record EditorInput : Type := {
  script : string;
  targetWords : Z;
  tolerance : Z;
  style : string;
  mood : string
}.

(** What [execute] returns, without the readability and quality
    scores, which no later stage reads. *)
Record FinalScript : Type := {
  content : string;
  wordCount : nat;
  originalWordCount : nat;
  accuracy : Q
}.

Definition name : string := "EditorAgent".

Definition maxAttempts : nat := 3.

Definition feedback (wordCount : nat) (targetWords : Z) : string :=
  let difference := (Z.of_nat wordCount - targetWords)%Z in
  if (0 <? difference)%Z then
    nl +:+ nl +:+ "CRITICAL: Previous attempt was " +:+ show_nat wordCount
    +:+ " words (" +:+ show_Z difference
    +:+ " words TOO LONG). You must reduce by exactly " +:+ show_Z difference
    +:+ " words while maintaining quality. Be more aggressive in condensing content."
  else
    nl +:+ nl +:+ "CRITICAL: Previous attempt was " +:+ show_nat wordCount
    +:+ " words (" +:+ show_Z (Z.abs difference)
    +:+ " words TOO SHORT). You must add exactly " +:+ show_Z (Z.abs difference)
    +:+ " words while maintaining quality. Include more detail and examples.".

(** The body of [editForWordCount], read as [ScriptAgent.attempts]. *)
Fixpoint attempts (remaining attempt : nat) (prompt : string)
  (targetWords tolerance : Z) : M Response :=
  match remaining with
  | O =>
      finalResponse <-- chatComplete name prompt ;;
      ret finalResponse
  | S remaining' =>
      response <-- chatComplete name prompt ;;
      let wordCount := countSpokenWords (r_content response) in
      let accuracy := Qabs (calculateWordAccuracy wordCount targetWords) in
      if Qle_bool accuracy (inject_Z tolerance) then ret response
      else
        attempts remaining' (S attempt)
          (if attempt <? maxAttempts
           then prompt +:+ feedback wordCount targetWords
           else prompt)
          targetWords tolerance
  end.

Definition editForWordCount (prompt : string) (targetWords tolerance : Z)
  : M Response :=
  attempts maxAttempts 1 prompt targetWords tolerance.

(** [content.split(/[.!?]+/).filter(s => s.trim().length > 0)] *)
Definition sentences (content : string) : list string :=
  filter (fun s => negb (String.length (trim s) =? 0))
    (split (plus (oneof ".!?")) content).

(** [avgWordsPerSentence > 30], where the average is rounded to one
    decimal; without any sentence the quotient is infinite, or not a
    number when there is no word either. *)
Definition sentences_too_long (content : string) : bool :=
  let words := countSpokenWords content in
  let n := List.length (sentences content) in
  if n =? 0 then 0 <? words
  else
    negb (Qle_bool
      (inject_Z (js_round (inject_Z (Z.of_nat words) / inject_Z (Z.of_nat n) * 10)) / 10)
      30).

(** [/\*\*Host [12]:\*\*\s*\[([^\]]+)\]/g] and [/\*\*\[([^\]]+)\]\*\*/g] *)
Definition new_tone_label : re :=
  seq [lit "**Host "; oneof "12"; lit ":**"; star space;
       lit "["; Grp 1 (plus (noneof "]")); lit "]"].

Definition old_tone_label : re :=
  seq [lit "**["; Grp 1 (plus (noneof "]")); lit "]**"].

Definition productionReady (content : string) : bool :=
  forallb (fun indicator : bool => indicator)
    [ includes content "**[";
      100 <? String.length content;
      negb (includes content "TODO");
      negb (includes content "[INSERT") ].

(** [validateFinalScript]: every check ends in a warning at most, and
    the function returns [true]. *)
Definition validateFinalScript (finalScript : Markdown) (input : EditorInput)
  : M bool :=
  let lenientTolerance := Z.max (tolerance input) 15 in
  let wordAccuracy :=
    Qabs (calculateWordAccuracy (BaseAgent.wordCount finalScript) (targetWords input)) in
  (if Qle_bool wordAccuracy (inject_Z lenientTolerance) then ret tt
   else warn WordCountOutsideRange) ;;;
  (if BaseAgent.wordCount finalScript <? 25 then warn FinalScriptShort else ret tt) ;;;
  let newToneLabels :=
    List.length (match_all new_tone_label (BaseAgent.content finalScript)) in
  let oldToneLabels :=
    List.length (match_all old_tone_label (BaseAgent.content finalScript)) in
  (if newToneLabels + oldToneLabels =? 0 then warn MissingToneLabels else ret tt) ;;;
  (if sentences_too_long (BaseAgent.content finalScript)
   then warn SentencesTooLong else ret tt) ;;;
  (if productionReady (BaseAgent.content finalScript) then ret tt
   else warn NotProductionReady) ;;;
  ret true.

Definition validateInput (input : EditorInput) : M unit :=
  throw_if (negb (truthy (script input))
            || (String.length (trim (script input)) =? 0))
    "Script content is required for editing" ;;;
  throw_if ((targetWords input =? 0)%Z || (targetWords input <? 50)%Z
            || (5000 <? targetWords input)%Z)
    "Target words must be between 50 and 5000" ;;;
  throw_if ((tolerance input <? 0)%Z || (10 <? tolerance input)%Z)
    "Tolerance must be between 0 and 10 percent".

Section Execute.

Variable createEditingPrompt : EditorInput -> string.

(** [execute]: the editing stage. *)
Definition execute (input : EditorInput) : M FinalScript :=
  validateInput input ;;;
  let currentWordCount := countSpokenWords (script input) in
  let editingPrompt := createEditingPrompt input in
  response <-- editForWordCount editingPrompt (targetWords input) (tolerance input) ;;
  finalScript <-- extractMarkdown name response ;;
  _ <-- validateFinalScript finalScript input ;;
  ret {| content := BaseAgent.content finalScript;
         wordCount := BaseAgent.wordCount finalScript;
         originalWordCount := currentWordCount;
         accuracy := calculateWordAccuracy (BaseAgent.wordCount finalScript)
                       (targetWords input) |}.

End Execute.

End EditorAgent.

(** ** The Outliner (OutlineAgent) *)

Module OutlineAgent.
Import Js Regex Runtime BaseAgent.

Inductive sectionType : Type := opening | chapter | closing.

Definition sectionType_eqb (a b : sectionType) : bool :=
  match a, b with
  | opening, opening | chapter, chapter | closing, closing => true
  | _, _ => false
  end.

(** A parsed section of the outline.  Only chapters carry a [number];
    the discussion points that [parseChapterContent] adds to a chapter
    are read by no later stage and are left out. *)
Record Section : Type := {
  type : sectionType;
  number : option nat;
  title : string;
  duration : string;
  content : string
}.

Record OutlineInput : Type := {
  plan : string;
  research : string;
  chapters : Z;
  targetWords : Z;
  style : string
}.

Record Outline : Type := {
  outlineContent : string;
  wordCount : nat;
  sections : list Section;
  timingBalance : grade
}.

Definition name : string := "OutlineAgent".

(** [(?=\n## |\n# |$)] *)
Definition section_end : re :=
  Ahead (Or (lit (nl +:+ "## ")) (Or (lit (nl +:+ "# ")) (Eol false))).

(** [/## Opening Hook.*?\n([\s\S]*?)(?=\n## |\n# |$)/] *)
Definition hook_re : re :=
  seq [lit "## Opening Hook"; star_lazy dot; lit nl; Grp 1 (star_lazy any); section_end].

(** [/## Closing Segment.*?\n([\s\S]*?)(?=\n## |\n# |$)/] *)
Definition closing_re : re :=
  seq [lit "## Closing Segment"; star_lazy dot; lit nl; Grp 1 (star_lazy any); section_end].

(** [/### Chapter (\d+): (.+?)\s*\(([^)]+)\)\n([\s\S]*?)
     (?=### Chapter \d+:|## Closing Segment|## Pacing Notes|$)/g] *)
Definition chapter_re : re :=
  seq [lit "### Chapter "; Grp 1 (plus digit); lit ": "; Grp 2 (plus_lazy dot);
       star space; lit "("; Grp 3 (plus (noneof ")")); lit ")"; lit nl;
       Grp 4 (star_lazy any);
       Ahead (Or (seq [lit "### Chapter "; plus digit; lit ":"])
             (Or (lit "## Closing Segment")
             (Or (lit "## Pacing Notes") (Eol false))))].

(** [parseInt] of a run of digits. *)
Definition parseInt (l : chars) : nat :=
  fold_left (fun acc c => 10 * acc + (code c - 48)) l 0.

Definition group_trim (n : nat) (h : hit) : string :=
  trim (to_string (h_group n h)).

Definition chapter_of_hit (h : hit) : Section :=
  {| type := chapter;
     number := Some (parseInt (h_group 1 h));
     title := group_trim 2 h;
     duration := group_trim 3 h;
     content := group_trim 4 h |}.

(** [parseOutlineSections]: the opening hook if there is one, every
    chapter heading of the expected shape, the closing segment if
    there is one.  A chapter count that differs from the expected one
    is logged and nothing more. *)
Definition parseOutlineSections (text : string) (expectedChapters : Z)
  : list Section :=
  (match match_first hook_re text with
   | Some h => [ {| type := opening; number := None; title := "Opening Hook";
                    duration := "30-60 seconds"; content := group_trim 1 h |} ]
   | None => []
   end)
  ++ map chapter_of_hit (match_all chapter_re text)
  ++ (match match_first closing_re text with
      | Some h => [ {| type := closing; number := None; title := "Closing Segment";
                       duration := "60-90 seconds"; content := group_trim 1 h |} ]
      | None => []
      end).

(** The buckets of [calculateTiming]: the deviation of [totalWords]
    from [targetWords] in percent against 5, 10 and 20. *)
Definition classify (totalWords targetWords : Z) : grade :=
  let deviation :=
    (Qabs (inject_Z totalWords - inject_Z targetWords) / inject_Z targetWords * 100)%Q in
  if Qle_bool deviation 5 then excellent
  else if Qle_bool deviation 10 then good
  else if Qle_bool deviation 20 then fair
  else poor.

Definition is_chapter (s : Section) : bool := sectionType_eqb (type s) chapter.

(** [calculateTiming]: 50 words for the opening, 100 for the closing,
    an equal share of the target for each chapter. *)
Definition calculateTiming (l : list Section) (targetWords : Z) : grade :=
  let chapterSections := filter is_chapter l in
  let wordsPerChapter :=
    js_round (inject_Z targetWords / inject_Z (Z.of_nat (List.length chapterSections))) in
  let estimatedWords (s : Section) : Z :=
    match type s with
    | opening => 50%Z
    | closing => 100%Z
    | chapter => wordsPerChapter
    end in
  classify (fold_left (fun acc s => acc + estimatedWords s)%Z l 0%Z) targetWords.

Definition requiredSections : list (string * list string) :=
  [ ("Episode Overview",
     ["Episode Overview"; "Overview"; "Introduction"; "Summary"; "Podcast Overview"]);
    ("Opening Hook",
     ["Opening Hook"; "Hook"; "Opening"; "Introduction Hook"; "Opener"]);
    ("Chapter Outlines",
     ["Chapter Outlines"; "Outlines"; "Chapters"; "Chapter Structure"; "Content Outline"]);
    ("Closing Segment",
     ["Closing Segment"; "Closing"; "Conclusion"; "Wrap-up"; "Summary"]) ].

Definition missingSections (text : string) : list string :=
  map fst
    (filter (fun sec : string * list string =>
               negb (existsb (fun pattern =>
                       includes (toLowerCase text) (toLowerCase pattern)) (snd sec)))
       requiredSections).

(** [validateOutline]: fails only when more than two of the four named
    sections are missing; the other checks only log. *)
Definition validateOutline (text : string) : M unit :=
  let missing := missingSections text in
  throw_if (2 <? List.length missing)
    ("Outline missing required sections: " +:+ join ", " missing).

Definition validateInput (input : OutlineInput) : M unit :=
  throw_if (negb (truthy (plan input)) || (String.length (trim (plan input)) =? 0))
    "Plan is required for outline creation" ;;;
  throw_if (negb (truthy (research input))
            || (String.length (trim (research input)) =? 0))
    "Research is required for outline creation" ;;;
  throw_if ((chapters input =? 0)%Z || (chapters input <? 1)%Z
            || (10 <? chapters input)%Z)
    "Chapters must be between 1 and 10" ;;;
  throw_if ((targetWords input =? 0)%Z || (targetWords input <? 100)%Z)
    "Target words must be at least 100".

Section Execute.

Variable createOutlinePrompt : OutlineInput -> string.

Definition execute (input : OutlineInput) : M Outline :=
  validateInput input ;;;
  let outlinePrompt := createOutlinePrompt input in
  response <-- chatComplete name outlinePrompt ;;
  outline <-- extractMarkdown name response ;;
  let parsed := parseOutlineSections (BaseAgent.content outline) (chapters input) in
  let timing := calculateTiming parsed (targetWords input) in
  validateOutline (BaseAgent.content outline) ;;;
  ret {| outlineContent := BaseAgent.content outline;
         wordCount := BaseAgent.wordCount outline;
         sections := parsed;
         timingBalance := timing |}.

End Execute.

End OutlineAgent.

(** ** The Tone Annotator (ToneAgent) *)

Module ToneAgent.
Import Js Regex Runtime BaseAgent.

Record Utterance : Type := {
  index : nat;
  speaker : string;
  tone : string;
  text : string;
  wordCount : nat;
  estimatedDuration : Z
}.

Definition name : string := "ToneAgent".

(** [/\b(Mr|Mrs|Ms|Dr|Prof|Sr|Jr|vs|etc|i\.e|e\.g)\./gi] *)
Definition abbreviation_re : re :=
  seq [Wordb;
       Grp 1 (Or (liti "Mr") (Or (liti "Mrs") (Or (liti "Ms") (Or (liti "Dr")
             (Or (liti "Prof") (Or (liti "Sr") (Or (liti "Jr") (Or (liti "vs")
             (Or (liti "etc") (Or (liti "i.e") (liti "e.g")))))))))));
       lit "."].

(** [match.replace('.', '<!DOT!>')]: the first dot of the match. *)
Fixpoint protect_first_dot (l : chars) : chars :=
  match l with
  | [] => []
  | c :: l' =>
      if ch_eqb c "."%char then of_string "<!DOT!>" ++ l'
      else c :: protect_first_dot l'
  end.

(** [chunks] of the fallback for one long sentence: the pieces between
    commas, the comma put back on every piece but the last. *)
Fixpoint comma_chunks (pieces : list string) : list string :=
  match pieces with
  | [] => []
  | [p] => [p]
  | p :: rest => (p +:+ ",") :: comma_chunks rest
  end.

(** [splitIntoSentences] *)
Definition splitIntoSentences (s : string) : list string :=
  if negb (truthy s) || (String.length (trim s) =? 0) then [] else
  let sentences :=
    filter nonempty
      (map trim
         (map (replace_all (lit "<!DOT!>") ".")
            (split (Cat (Behind (mem_ch (of_string ".!?"))) (plus space))
               (replace_all_with abbreviation_re
                  (fun h => protect_first_dot (h_text h)) s)))) in
  let chunks :=
    match sentences with
    | [longSentence] =>
        if 120 <? String.length longSentence
        then comma_chunks (split (Cat (lit ",") (plus space)) longSentence)
        else []
    | _ => []
    end in
  if (1 <? List.length chunks)
     && forallb (fun chunk => String.length chunk <? 80) chunks
  then chunks
  else
    match sentences with
    | [] => [s]
    | _ => sentences
    end.

(** [inferToneFromContent] *)
Definition inferToneFromContent (s : string) : string :=
  let lowerText := toLowerCase s in
  let has := includes lowerText in
  if has "!" || has "amazing" || has "incredible" || has "wow" then "excited"
  else if has "?" || has "wonder" || has "curious" then "curious"
  else if has "however" || has "consider" || has "think" || has "reflect"
  then "reflective"
  else if has "ha" || has "funny" || has "joke" then "humorous"
  else if has "serious" || has "important" || has "critical" then "serious"
  else if has "doubt" || has "really" || has "sure" then "skeptical"
  else "calm".

(** One utterance per sentence that is not blank.  [utteranceIndex] is
    the number of utterances pushed so far; the speaker expression is
    evaluated after [utteranceIndex++]. *)
Definition push_sentences (speakerOf : nat -> string) (toneLabel : string)
  (sentences : list string) (acc : list Utterance) : list Utterance :=
  fold_left
    (fun acc sentence =>
       if 0 <? String.length (trim sentence) then
         acc ++ [ {| index := List.length acc;
                     speaker := speakerOf (S (List.length acc));
                     tone := toneLabel;
                     text := trim sentence;
                     wordCount := countWords sentence;
                     estimatedDuration :=
                       js_round (inject_Z (Z.of_nat (countWords sentence)) / 150 * 60) |} ]
       else acc)
    sentences acc.

(** [text.replace(/\n+/g, ' ').replace(/\s+/g, ' ').trim()] *)
Definition cleanText (s : string) : string :=
  trim (replace_all (plus space) " " (replace_all (plus (lit nl)) " " s)).

(** [/## Enhanced Script Content\s*\n(.*?)(?=\n##|$)/s] *)
Definition enhanced_re : re :=
  seq [lit "## Enhanced Script Content"; star space; lit nl;
       Grp 1 (star_lazy any); Ahead (Or (lit (nl +:+ "##")) (Eol false))].

(** [/\*\*Host ([12]):\*\*\s*\[([^\]]+)\]\s+(.*?)(?=\*\*Host [12]:\*\*|$)/gs] *)
Definition hostToneRegex : re :=
  seq [lit "**Host "; Grp 1 (oneof "12"); lit ":**"; star space;
       lit "["; Grp 2 (plus (noneof "]")); lit "]"; plus space;
       Grp 3 (star_lazy any);
       Ahead (Or (seq [lit "**Host "; oneof "12"; lit ":**"]) (Eol false))].

(** [/\*\*\[([^\]]+)\]\*\*\s+(.*?)(?=\*\*\[|$)/gs] *)
Definition utteranceRegex : re :=
  seq [lit "**["; Grp 1 (plus (noneof "]")); lit "]**"; plus space;
       Grp 2 (star_lazy any); Ahead (Or (lit "**[") (Eol false))].

(** [/\*\*Host ([12]):\*\*\s+G/] where the group [G] is a dot under a
    star *)
Definition hostLineRegex : re :=
  seq [lit "**Host "; Grp 1 (oneof "12"); lit ":**"; plus space; Grp 2 (star dot)].

Definition host_of (hostNumber : chars) : nat -> string :=
  fun _ => "host" +:+ to_string hostNumber.

(** The strict strategy: host label, bracketed tone, text. *)
Definition parse_host_tone (scriptContent : string) : list Utterance :=
  fold_left
    (fun acc h =>
       let body := cleanText (to_string (h_group 3 h)) in
       if 0 <? String.length body then
         push_sentences (host_of (h_group 1 h))
           (trim (toLowerCase (to_string (h_group 2 h))))
           (splitIntoSentences body) acc
       else acc)
    (match_all hostToneRegex scriptContent) [].

(** The legacy strategy: bracketed tone only, speakers alternate. *)
Definition parse_tone_only (scriptContent : string) : list Utterance :=
  fold_left
    (fun acc h =>
       let body := cleanText (to_string (h_group 2 h)) in
       if 0 <? String.length body then
         push_sentences (fun utteranceIndex =>
                           if utteranceIndex mod 2 =? 1 then "host1" else "host2")
           (trim (toLowerCase (to_string (h_group 1 h))))
           (splitIntoSentences body) acc
       else acc)
    (match_all utteranceRegex scriptContent) [].

(** One line or paragraph with a host label: the tone is inferred. *)
Definition push_host_line (h : hit) (acc : list Utterance) : list Utterance :=
  let body := trim (to_string (h_group 2 h)) in
  if 0 <? String.length body then
    push_sentences (host_of (h_group 1 h)) (inferToneFromContent body)
      (splitIntoSentences body) acc
  else acc.

(** The line-by-line strategy. *)
Definition parse_host_lines (lines : list string) : list Utterance :=
  fold_left
    (fun acc line =>
       match match_first hostLineRegex line with
       | Some h => push_host_line h acc
       | None => acc
       end)
    lines [].

(** The paragraph strategy of [parseAlternativeFormat]. *)
Definition parse_paragraphs (s : string) : list Utterance :=
  let paragraphs :=
    map (fun p => trim (replace_all (lit nl) " " p))
      (filter (fun p => 0 <? String.length (trim p))
         (split (seq [lit nl; star space; lit nl]) s)) in
  fold_left
    (fun acc paragraph =>
       if startsWith paragraph "#"
          || (includes paragraph "**" && includes paragraph ":"
              && negb (includes paragraph "Host"))
       then acc
       else
         match match_first hostLineRegex paragraph with
         | Some h => push_host_line h acc
         | None =>
             acc ++ [ {| index := List.length acc;
                         speaker := if S (List.length acc) mod 2 =? 0
                                    then "host1" else "host2";
                         tone := inferToneFromContent paragraph;
                         text := paragraph;
                         wordCount := countWords paragraph;
                         estimatedDuration :=
                           js_round (inject_Z (Z.of_nat (countWords paragraph))
                                     / 150 * 60) |} ]
         end)
    paragraphs [].

(** [parseAlternativeFormat] *)
Definition parseAlternativeFormat (s : string) : list Utterance :=
  let byLine :=
    parse_host_lines
      (filter (fun line => 0 <? String.length (trim line)) (split_lines s)) in
  if is_nil byLine then parse_paragraphs s else byLine.

(** [contentMatch ? contentMatch[1] : content] *)
Definition scriptContentOf (s : string) : string :=
  match match_first enhanced_re s with
  | Some h => to_string (h_group 1 h)
  | None => s
  end.

(** [parseUtterances]: the strategies in turn, each tried when the
    ones before it found nothing. *)
Definition parseUtterances (s : string) : list Utterance :=
  let scriptContent := scriptContentOf s in
  let strict := parse_host_tone scriptContent in
  if negb (is_nil strict) then strict else
  let legacy := parse_tone_only scriptContent in
  if negb (is_nil legacy) then legacy else
  let byLine := parse_host_lines (split_lines scriptContent) in
  if negb (is_nil byLine) then byLine else
  parseAlternativeFormat scriptContent.

Record ToneInput : Type := {
  scripts : list string;
  mood : string;
  style : string
}.

Record ToneScript : Type := {
  content : string;
  scriptWordCount : nat;
  utterances : list Utterance
}.

(** The clean-up of one chapter script in [combineScripts]:
    [/^# Script:.*$/gm], [/^## Script Content$/gm],
    [/^### Speaking Notes[\s\S]*?(?=\n##|\n#|$)/gm] and
    [/^## Script Metadata[\s\S]*?(?=\n##|\n#|$)/gm], then [trim]. *)
Definition block_end : re :=
  Ahead (Or (lit (nl +:+ "##")) (Or (lit (nl +:+ "#")) (Eol true))).

Definition stripScript (scriptContent : string) : string :=
  trim
    (replace_all (seq [Bol true; lit "## Script Metadata"; star_lazy any; block_end]) ""
    (replace_all (seq [Bol true; lit "### Speaking Notes"; star_lazy any; block_end]) ""
    (replace_all (seq [Bol true; lit "## Script Content"; Eol true]) ""
    (replace_all (seq [Bol true; lit "# Script:"; star dot; Eol true]) ""
       scriptContent)))).

Fixpoint combine_from (index : nat) (l : list string) : string :=
  match l with
  | [] => ""
  | scriptContent :: rest =>
      nl +:+ "## Chapter " +:+ show_nat (index + 1) +:+ nl +:+ nl
      +:+ stripScript scriptContent +:+ nl +:+ nl
      +:+ combine_from (S index) rest
  end.

(** [combineScripts], for a list that [validateInput] has accepted. *)
Definition combineScripts (l : list string) : string := trim (combine_from 0 l).

(** [scripts.forEach((script, index) => ...)] of [validateInput] *)
Fixpoint check_contents (index : nat) (l : list string) : M unit :=
  match l with
  | [] => ret tt
  | c :: rest =>
      throw_if (negb (truthy c) || (String.length (trim c) =? 0))
        ("Script " +:+ show_nat (index + 1) +:+ " has no content") ;;;
      check_contents (S index) rest
  end.

Definition validateInput (input : ToneInput) : M unit :=
  throw_if (is_nil (scripts input)) "Scripts array is required for tone enhancement" ;;;
  throw_if (negb (truthy (mood input))) "Mood is required for tone enhancement" ;;;
  throw_if (negb (truthy (style input))) "Style is required for tone enhancement" ;;;
  check_contents 0 (scripts input).

(** [validateToneEnhancement]: fails when no utterance was found; the
    other checks only log. *)
Definition validateToneEnhancement (l : list Utterance) : M unit :=
  throw_if (is_nil l) "No tone-enhanced utterances found".

Section Execute.

Variable createTonePrompt : string -> string -> string -> string.

Definition execute (input : ToneInput) : M ToneScript :=
  validateInput input ;;;
  let combinedScript := combineScripts (scripts input) in
  let tonePrompt := createTonePrompt combinedScript (mood input) (style input) in
  response <-- chatComplete name tonePrompt ;;
  enhancedScript <-- extractMarkdown name response ;;
  let parsed := parseUtterances (BaseAgent.content enhancedScript) in
  validateToneEnhancement parsed ;;;
  ret {| content := BaseAgent.content enhancedScript;
         scriptWordCount := BaseAgent.wordCount enhancedScript;
         utterances := parsed |}.

End Execute.

End ToneAgent.

(** ** The Planner (PlannerAgent) *)

Module PlannerAgent.
Import Js Regex Runtime BaseAgent.

Record PlanningInput : Type := {
  topic : string;
  focus : option string;
  chapters : Z;
  durationMin : Z;
  mood : string;
  style : string;
  targetWords : Z
}.

Record PlanChapter : Type := {
  number : nat;
  title : string;
  duration : string;
  wordEstimate : string;
  keyPoints : list string;
  purpose : string;
  researchFocus : string;
  chapterContent : string
}.

(** What [execute] returns, without the [planning] summary of the
    input, which no later stage reads. *)
Record Plan : Type := {
  content : string;
  wordCount : nat;
  planChapters : list PlanChapter
}.

Definition name : string := "PlannerAgent".

(** [/### Chapter (\d+): (.+?)\n([\s\S]*?)
     (?=### Chapter \d+:|## Research Priorities|$)/g] *)
Definition chapter_re : re :=
  seq [lit "### Chapter "; Grp 1 (plus digit); lit ": "; Grp 2 (plus_lazy dot);
       lit nl; Grp 3 (star_lazy any);
       Ahead (Or (seq [lit "### Chapter "; plus digit; lit ":"])
             (Or (lit "## Research Priorities") (Eol false)))].

(** [/\*\*Key Points\*\*:\s*\n([\s\S]*?)(?=\n\*\*|$)/] *)
Definition key_points_re : re :=
  seq [lit "**Key Points**:"; star space; lit nl; Grp 1 (star_lazy any);
       Ahead (Or (lit (nl +:+ "**")) (Eol false))].

(** [/\*\*Duration\*\*:\s*([^(]+)\(([^)]+)\)/] *)
Definition duration_re : re :=
  seq [lit "**Duration**:"; star space; Grp 1 (plus (noneof "("));
       lit "("; Grp 2 (plus (noneof ")")); lit ")"].

(** [/\*\*Label\*\*:\s*([^\n]+)/] *)
Definition line_after (label : string) : re :=
  seq [lit ("**" +:+ label +:+ "**:"); star space;
       Grp 1 (plus (Cls (fun c => negb (ch_eqb c LF))))].

Definition first_group (r : re) (n : nat) (s : string) : string :=
  match match_first r s with
  | Some h => trim (to_string (h_group n h))
  | None => ""
  end.

(** [line.trim().substring(1).trim()] *)
Definition after_dash (line : string) : string :=
  trim (to_string (tl (of_string (trim line)))).

Definition chapter_of_hit (h : hit) : PlanChapter :=
  let body := to_string (h_group 3 h) in
  {| number := OutlineAgent.parseInt (h_group 1 h);
     title := trim (to_string (h_group 2 h));
     duration := first_group duration_re 1 body;
     wordEstimate := first_group duration_re 2 body;
     keyPoints :=
       match match_first key_points_re body with
       | Some k =>
           map after_dash
             (filter (fun line => startsWith (trim line) "-")
                (split_lines (to_string (h_group 1 k))))
       | None => []
       end;
     purpose := first_group (line_after "Narrative Purpose") 1 body;
     researchFocus := first_group (line_after "Research Focus") 1 body;
     chapterContent := trim body |}.

(** [parseChapterStructure]; a chapter count that differs from the
    expected one is logged and nothing more. *)
Definition parseChapterStructure (text : string) (expectedChapters : Z)
  : list PlanChapter :=
  map chapter_of_hit (match_all chapter_re text).

Definition requiredSections : list (string * list string) :=
  [ ("Overview",
     ["overview"; "episode overview"; "podcast overview"; "summary"; "introduction"]);
    ("Chapter Breakdown",
     ["chapter breakdown"; "chapters"; "episode structure"; "chapter structure";
      "breakdown"; "content structure"]);
    ("Research Priorities",
     ["research priorities"; "research"; "research focus"; "research needs";
      "sources"; "information needs"]);
    ("Style Guidelines",
     ["style guidelines"; "style"; "guidelines"; "tone guidelines"; "approach";
      "tone"; "format"]) ].

Definition missingSections (required : list (string * list string)) (text : string)
  : list string :=
  map fst
    (filter (fun sec : string * list string =>
               negb (existsb (fun pattern => includes (toLowerCase text) pattern)
                       (snd sec)))
       required).

(** [validatePlan]: fails only when more than two of the four named
    sections are missing; the other checks only log. *)
Definition validatePlan (text : string) : M unit :=
  let missing := missingSections requiredSections text in
  throw_if (2 <? List.length missing)
    ("Plan missing required sections: " +:+ join ", " missing).

Definition validateInput (input : PlanningInput) : M unit :=
  throw_if (negb (truthy (topic input)) || (String.length (trim (topic input)) =? 0))
    "Topic is required and must be a non-empty string" ;;;
  throw_if ((chapters input =? 0)%Z || (chapters input <? 1)%Z
            || (10 <? chapters input)%Z)
    "Chapters must be between 1 and 10" ;;;
  throw_if ((durationMin input =? 0)%Z || (durationMin input <? 1)%Z
            || (120 <? durationMin input)%Z)
    "Duration must be between 1 and 120 minutes" ;;;
  throw_if ((targetWords input =? 0)%Z || (targetWords input <? 50)%Z)
    "Target words must be at least 50".

Section Execute.

Variable createPlanningPrompt : PlanningInput -> string.

Definition execute (input : PlanningInput) : M Plan :=
  validateInput input ;;;
  let planningPrompt := createPlanningPrompt input in
  response <-- chatComplete name planningPrompt ;;
  plan <-- extractMarkdown name response ;;
  let chapterStructure := parseChapterStructure (BaseAgent.content plan) (chapters input) in
  validatePlan (BaseAgent.content plan) ;;;
  ret {| content := BaseAgent.content plan;
         wordCount := BaseAgent.wordCount plan;
         planChapters := chapterStructure |}.

End Execute.

End PlannerAgent.

(** ** The Researcher (ResearchAgent) *)

Module ResearchAgent.
Import Js Regex Runtime BaseAgent.

Record ResearchInput : Type := {
  topic : string;
  focus : option string;
  plan : string;
  chapters : list PlannerAgent.PlanChapter;
  source : option string
}.

(** The research artifact: the notes, their recorded word count, and
    [metadata.sourceProvided], which only the orchestrator's wrapper of
    a fetched source sets.  The findings, sources and chapter notes
    that the agent extracts from its own answer are read by no later
    stage and are left out. *)
Record Research : Type := {
  content : string;
  wordCount : nat;
  sourceProvided : bool
}.

Definition name : string := "ResearchAgent".

Definition requiredSections : list (string * list string) :=
  [ ("Executive Summary",
     ["executive summary"; "summary"; "overview"; "research summary"; "key insights"]);
    ("Key Facts & Statistics",
     ["key facts"; "statistics"; "facts"; "data"; "key data"; "findings";
      "key findings"]);
    ("Main Themes & Perspectives",
     ["main themes"; "perspectives"; "themes"; "viewpoints"; "key themes";
      "analysis"; "insights"]) ].

(** [validateResearch]: fails only when more than two of the three
    named sections are missing; the other checks only log. *)
Definition validateResearch (text : string) : M unit :=
  let missing := PlannerAgent.missingSections requiredSections text in
  throw_if (2 <? List.length missing)
    ("Research missing required sections: " +:+ join ", " missing).

Definition validateInput (input : ResearchInput) : M unit :=
  throw_if (negb (truthy (topic input)) || (String.length (trim (topic input)) =? 0))
    "Topic is required for research" ;;;
  throw_if (String.length (topic input) <? 5)
    "Topic is too short for meaningful research".

Section Execute.

Variable createResearchPrompt : ResearchInput -> string.

Definition execute (input : ResearchInput) : M Research :=
  validateInput input ;;;
  let researchPrompt := createResearchPrompt input in
  response <-- chatComplete name researchPrompt ;;
  research <-- extractMarkdown name response ;;
  validateResearch (BaseAgent.content research) ;;;
  ret {| content := BaseAgent.content research;
         wordCount := BaseAgent.wordCount research;
         sourceProvided := false |}.

End Execute.

End ResearchAgent.

(** ** The orchestrator (src/services/podcastOrchestrator.js) *)

Module Orchestrator.
Import Js Regex Runtime.

(** [config.performance] *)
Definition wordsPerMinute : Z := 150.
Definition tolerancePercent : Z := 5.

Record Request : Type := {
  id : string;
  topic : string;
  focus : option string;
  mood : string;
  style : string;
  chapters : Z;
  durationMin : Z;
  source : option string
}.

Definition planningInput (request : Request) : PlannerAgent.PlanningInput :=
  {| PlannerAgent.topic := topic request;
     PlannerAgent.focus := focus request;
     PlannerAgent.chapters := chapters request;
     PlannerAgent.durationMin := durationMin request;
     PlannerAgent.mood := mood request;
     PlannerAgent.style := style request;
     PlannerAgent.targetWords :=
       js_round (inject_Z (durationMin request) * inject_Z wordsPerMinute) |}.

(** [calculateAccuracy]: the deviation in percent against the
    tolerance, twice the tolerance and three times the tolerance. *)
Definition calculateAccuracy (target actual : Z) : grade :=
  let tolerance := inject_Z tolerancePercent in
  let difference := Qabs (inject_Z target - inject_Z actual) in
  let percentDifference := (difference / inject_Z target * 100)%Q in
  if Qle_bool percentDifference tolerance then excellent
  else if Qle_bool percentDifference (tolerance * 2) then good
  else if Qle_bool percentDifference (tolerance * 3) then fair
  else poor.

(** [createBatches]: slices of [batchSize] items.  The batch size is
    [config.performance.maxConcurrentAgents], a positive number. *)
Fixpoint batches_aux {A : Type} (fuel : nat) (items : list A) (batchSize : nat)
  : list (list A) :=
  match fuel with
  | O => []
  | S fuel' =>
      match items with
      | [] => []
      | _ :: _ =>
          firstn batchSize items :: batches_aux fuel' (skipn batchSize items) batchSize
      end
  end.

Definition createBatches {A : Type} (items : list A) (batchSize : positive)
  : list (list A) :=
  batches_aux (List.length items) items (Pos.to_nat batchSize).

(** The wrapper of a fetched source that stands for the research. *)
Definition groundedResearch (sourceContent : SourceContent) : ResearchAgent.Research :=
  {| ResearchAgent.content :=
       "# Research Based on Source Material" +:+ nl +:+ nl
       +:+ "## Source: " +:+ sc_title sourceContent +:+ nl +:+ nl
       +:+ sc_content sourceContent;
     ResearchAgent.wordCount := sc_wordCount sourceContent;
     ResearchAgent.sourceProvided := true |}.

(** [items.map(f)] for an effectful [f] that is given the index too,
    run in order. *)
Fixpoint mapM_from {A B : Type} (f : A -> nat -> M B) (index : nat) (l : list A)
  : M (list B) :=
  match l with
  | [] => ret []
  | a :: rest =>
      b <-- f a index ;;
      bs <-- mapM_from f (S index) rest ;;
      ret (b :: bs)
  end.

Section Pipeline.

(** The wording of the prompts plays no part in what follows. *)
Variable createPlanningPrompt : PlannerAgent.PlanningInput -> string.
Variable createResearchPrompt : ResearchAgent.ResearchInput -> string.
Variable createOutlinePrompt : OutlineAgent.OutlineInput -> string.
Variable createScriptPrompt : ScriptAgent.ScriptInput -> string.
Variable createTonePrompt : string -> string -> string -> string.
Variable createEditingPrompt : EditorAgent.EditorInput -> string.

Variable maxConcurrentAgents : positive.

(** Step 2 of [generatePodcast]: a source that can be fetched stands
    for the research; otherwise, and when fetching fails, the Research
    agent runs. *)
Definition researchStage (request : Request) (plan : PlannerAgent.Plan)
  : M ResearchAgent.Research :=
  fetchedSource <--
    match source request with
    | Some src =>
        if truthy src then
          catch (sourceContent <-- fetchContent src ;; ret (Some sourceContent))
                (fun _ => ret None)
        else ret None
    | None => ret None
    end ;;
  match fetchedSource with
  | Some sourceContent => ret (groundedResearch sourceContent)
  | None =>
      ResearchAgent.execute createResearchPrompt
        {| ResearchAgent.topic := topic request;
           ResearchAgent.focus := focus request;
           ResearchAgent.plan := PlannerAgent.content plan;
           ResearchAgent.chapters := PlannerAgent.planChapters plan;
           ResearchAgent.source := source request |}
  end.

(** The input of the Scripter for one section of a batch: the chapter
    number is the section's own, or its place in the batch when it has
    none or has number 0. *)
Definition scriptInput (outline : OutlineAgent.Outline) (targetWords : Z)
  (styleName : string) (section : OutlineAgent.Section) (index : nat)
  : ScriptAgent.ScriptInput :=
  {| ScriptAgent.section := OutlineAgent.content section;
     ScriptAgent.chapterNumber :=
       match OutlineAgent.number section with
       | Some (S n) => Z.of_nat (S n)
       | _ => Z.of_nat (index + 1)
       end;
     ScriptAgent.targetWords :=
       js_round (inject_Z targetWords
                 / inject_Z (Z.of_nat (List.length (OutlineAgent.sections outline))));
     ScriptAgent.style := styleName;
     ScriptAgent.context := OutlineAgent.outlineContent outline |}.

(** The batches one after the other; the calls of a batch are modelled
    in the order of their sections. *)
Fixpoint runBatches (scripter : ScriptAgent.ScriptInput -> M ScriptAgent.Script)
  (outline : OutlineAgent.Outline) (targetWords : Z) (styleName : string)
  (batches : list (list OutlineAgent.Section)) : M (list ScriptAgent.Script) :=
  match batches with
  | [] => ret []
  | batch :: rest =>
      batchResults <--
        mapM_from (fun section index =>
                     scripter (scriptInput outline targetWords styleName section index))
          0 batch ;;
      scripts <-- runBatches scripter outline targetWords styleName rest ;;
      ret (batchResults ++ scripts)
  end.

(** [generateScriptsInParallel], for any Scripter. *)
Definition generateScriptsWith
  (scripter : ScriptAgent.ScriptInput -> M ScriptAgent.Script)
  (outline : OutlineAgent.Outline) (input : PlannerAgent.PlanningInput)
  : M (list ScriptAgent.Script) :=
  throw_if (is_nil (OutlineAgent.sections outline))
    "No sections found in outline" ;;;
  runBatches scripter outline (PlannerAgent.targetWords input)
    (PlannerAgent.style input)
    (createBatches (OutlineAgent.sections outline) maxConcurrentAgents).

Definition generateScriptsInParallel :=
  generateScriptsWith (ScriptAgent.execute createScriptPrompt).

(** The artifacts of the text stages. *)
Record Artifacts : Type := {
  plan : PlannerAgent.Plan;
  research : ResearchAgent.Research;
  outline : OutlineAgent.Outline;
  scripts : list ScriptAgent.Script;
  toneScript : ToneAgent.ToneScript;
  finalScript : EditorAgent.FinalScript
}.

(** Steps 1 to 6 of [generatePodcast]; speech synthesis and audio
    assembly follow them.  Any error ends the job as an [AgentError] of
    the orchestrator. *)
Definition generatePodcast (request : Request) : M Artifacts :=
  catch
    (let input := planningInput request in
     updateProgress "planning" 1 ;;;
     plan <-- PlannerAgent.execute createPlanningPrompt input ;;
     updateProgress "research" 2 ;;;
     research <-- researchStage request plan ;;
     updateProgress "outlining" 3 ;;;
     outline <--
       OutlineAgent.execute createOutlinePrompt
         {| OutlineAgent.plan := PlannerAgent.content plan;
            OutlineAgent.research := ResearchAgent.content research;
            OutlineAgent.chapters := chapters request;
            OutlineAgent.targetWords := PlannerAgent.targetWords input;
            OutlineAgent.style := style request |} ;;
     updateProgress "scripting" 4 ;;;
     scripts <-- generateScriptsInParallel outline input ;;
     updateProgress "tone-enhancement" 5 ;;;
     toneEnhancedScript <--
       ToneAgent.execute createTonePrompt
         {| ToneAgent.scripts := map ScriptAgent.content scripts;
            ToneAgent.mood := mood request;
            ToneAgent.style := style request |} ;;
     updateProgress "editing" 6 ;;;
     finalScript <--
       EditorAgent.execute createEditingPrompt
         {| EditorAgent.script := ToneAgent.content toneEnhancedScript;
            EditorAgent.targetWords := PlannerAgent.targetWords input;
            EditorAgent.tolerance := tolerancePercent;
            EditorAgent.style := style request;
            EditorAgent.mood := mood request |} ;;
     ret {| plan := plan; research := research; outline := outline;
            scripts := scripts; toneScript := toneEnhancedScript;
            finalScript := finalScript |})
    (fun error =>
       throw (AgentError ("Podcast generation failed: " +:+ message_of error)
                "Orchestrator")).

End Pipeline.

End Orchestrator.

(** ** Submission validation (the rules of the generate route) *)

Module Routes.
Import Js.

(** [config.constraints] and the closed sets of [config]. *)
Definition maxTopicLength : nat := 500.
Definition maxFocusLength : nat := 1000.
Definition minChapters : Z := 1.
Definition maxChapters : Z := 10.
Definition minDurationMin : Z := 1.
Definition maxDurationMin : Z := 120.

Definition availableMoods : list string :=
  ["neutral"; "excited"; "calm"; "reflective"; "enthusiastic"].

Definition availableStyles : list string :=
  ["storytelling"; "conversational"; "interview"; "educational"; "narrative"].

Definition availableTones : list string :=
  ["upbeat"; "calm"; "excited"; "reflective"; "suspenseful";
   "skeptical"; "humorous"; "angry"; "sad"; "hopeful"].

Definition isIn (l : list string) (s : string) : bool :=
  existsb (String.eqb s) l.

(** [isLength({ min, max })] on a string of code units 0..255. *)
Definition isLength (lo hi : nat) (s : string) : bool :=
  (lo <=? String.length s) && (String.length s <=? hi).

(** [generateValidation], on a request whose optional fields have
    received their defaults. *)
Definition generateValidation (request : Orchestrator.Request) : bool :=
  isLength 1 maxTopicLength (Orchestrator.topic request)
  && match Orchestrator.focus request with
     | Some f => isLength 0 maxFocusLength f
     | None => true
     end
  && isIn availableMoods (Orchestrator.mood request)
  && isIn availableStyles (Orchestrator.style request)
  && (minChapters <=? Orchestrator.chapters request)%Z
  && (Orchestrator.chapters request <=? maxChapters)%Z
  && (minDurationMin <=? Orchestrator.durationMin request)%Z
  && (Orchestrator.durationMin request <=? maxDurationMin)%Z.

End Routes.

(** ** The job registry of the controller (PodcastController) *)

Module Controller.

Inductive status : Type := queued | processing | completed | failed | cancelled.

Definition status_name (s : status) : string :=
  match s with
  | queued => "queued"
  | processing => "processing"
  | completed => "completed"
  | failed => "failed"
  | cancelled => "cancelled"
  end.

Definition status_eqb (a b : status) : bool :=
  String.eqb (status_name a) (status_name b).

Definition terminal (s : status) : bool :=
  match s with
  | completed | failed | cancelled => true
  | queued | processing => false
  end.

(** One entry of [activeGenerations]. *)
Record Generation : Type := {
  topic : string;
  state : status;
  createdAt : string;
  completedAt : option string;
  error : option string;
  currentStep : option string;
  stepsCompleted : nat
}.

(** [res.status(code).json(body)]; a JSON object is the list of its
    keys and values. *)
Record HttpResponse : Type := {
  code : nat;
  body : list (string * string)
}.

Fixpoint field (key : string) (l : list (string * string)) : option string :=
  match l with
  | [] => None
  | (k, v) :: l' => if String.eqb key k then Some v else field key l'
  end.

(** [cancelGeneration]: [now] is the time of the request. *)
Definition cancelGeneration (id now : string) (activeGenerations : gmap string Generation)
  : HttpResponse * gmap string Generation :=
  match activeGenerations !! id with
  | None =>
      ({| code := 404;
          body := [("error", "Generation not found");
                   ("message", "No generation found with ID: " +:+ id)] |},
       activeGenerations)
  | Some generation =>
      if status_eqb (state generation) completed
         || status_eqb (state generation) failed
      then
        ({| code := 400;
            body := [("error", "Cannot cancel completed generation");
                     ("message", "Generation is already completed or failed")] |},
         activeGenerations)
      else
        ({| code := 200;
            body := [("id", id); ("status", "cancelled");
                     ("message", "Generation cancelled successfully")] |},
         <[ id := {| topic := topic generation;
                     state := cancelled;
                     createdAt := createdAt generation;
                     completedAt := Some now;
                     error := error generation;
                     currentStep := currentStep generation;
                     stepsCompleted := stepsCompleted generation |} ]>
           activeGenerations)
  end.

End Controller.

(** ** The chat backend (src/services/azureOpenAIService.js) *)

Module AzureOpenAIService.
Import Js.

(** What one call of [client.getChatCompletions] does: it returns a
    response whose first choice has this content (possibly none), or it
    throws an error that may carry an HTTP status. *)
Inductive outcome : Type :=
| Completed (content : string)
| Thrown (status : option nat) (message : string).

(** What a run of [getChatCompletion] does, in order. *)
Inductive event : Type :=
| Attempt (n : nat)
| Sleep (ms : Q).

Inductive result : Type :=
| Returned (content : string)
| AzureError (message : string) (lastError : string).

Definition maxRetries : nat := 3.
Definition baseDelay : Q := 1000.

(** [error.status === 400 || error.status === 401 || error.status === 403] *)
Definition dontRetry (status : option nat) : bool :=
  match status with
  | Some s => (s =? 400) || (s =? 401) || (s =? 403)
  | None => false
  end.

(** [Math.pow(2, n)] *)
Definition pow2 (n : nat) : Q := inject_Z (2 ^ Z.of_nat n).

Section Retry.

(** [client n] is what the [n]-th attempt meets, [random n] the value
    of [Math.random()] drawn after it. *)
Variable client : nat -> outcome.
Variable random : nat -> Q.

(** The attempt as the [catch] block sees it: the error, if any. *)
Definition failure (n : nat) : option (option nat * string) :=
  match client n with
  | Completed content =>
      if truthy content then None else Some (None, "No content in response")
  | Thrown status message => Some (status, message)
  end.

(** The [for] loop of [getChatCompletion] with [remaining] iterations
    to run, the next one being number [attempt]. *)
Fixpoint loop (remaining attempt : nat) (lastError : string) (trace : list event)
  : result * list event :=
  match remaining with
  | O => (AzureError "Chat completion failed after retries" lastError, trace)
  | S remaining' =>
      let trace1 := trace ++ [Attempt attempt] in
      match client attempt with
      | Completed content =>
          if truthy content then (Returned content, trace1)
          else
            if attempt <? maxRetries then
              loop remaining' (S attempt) "No content in response"
                (trace1 ++ [Sleep (baseDelay * pow2 (attempt - 1) + random attempt * 1000)])
            else loop remaining' (S attempt) "No content in response" trace1
      | Thrown status message =>
          if dontRetry status then
            (AzureError "Chat completion failed after retries" message, trace1)
          else if attempt <? maxRetries then
            loop remaining' (S attempt) message
              (trace1 ++ [Sleep (baseDelay * pow2 (attempt - 1) + random attempt * 1000)])
          else loop remaining' (S attempt) message trace1
      end
  end.

Definition getChatCompletion (isInitialized : bool) : result * list event :=
  if isInitialized then loop maxRetries 1 "" []
  else (AzureError "Azure OpenAI client not initialized" "", []).

End Retry.

Definition attempts (trace : list event) : list nat :=
  flat_map (fun e => match e with Attempt n => [n] | Sleep _ => [] end) trace.

End AzureOpenAIService.

(** ** Worked inputs *)

Module Examples.
Import Js Runtime.

(** Prompts reduced to the name of the stage that sends them. *)
Definition planningPrompt (_ : PlannerAgent.PlanningInput) : string := "PLAN".
Definition researchPrompt (_ : ResearchAgent.ResearchInput) : string := "RESEARCH".
Definition outlinePrompt (_ : OutlineAgent.OutlineInput) : string := "OUTLINE".
Definition scriptPrompt (_ : ScriptAgent.ScriptInput) : string := "SCRIPT".
Definition tonePrompt (_ _ _ : string) : string := "TONE".
Definition editingPrompt (_ : EditorAgent.EditorInput) : string := "EDIT".

Definition planText : string :=
  unlines
    [ "# Podcast Plan: The history of the bicycle"; "";
      "## Overview"; "Two centuries of cycling in five minutes."; "";
      "## Chapter Breakdown"; "";
      "### Chapter 1: Origins";
      "**Duration**: 2 minutes (250 words)";
      "**Research Focus**: The draisine of 1817"; "";
      "### Chapter 2: The safety bicycle";
      "**Duration**: 2 minutes (250 words)";
      "**Research Focus**: Chain drive and pneumatic tyres"; "";
      "### Chapter 3: Today";
      "**Duration**: 1 minute (250 words)";
      "**Research Focus**: Cities and e-bikes"; "";
      "## Research Priorities"; "Dates, inventors and sales figures."; "";
      "## Style Guidelines"; "Friendly and curious." ].

Definition researchText : string :=
  unlines
    [ "# Research Report: The history of the bicycle"; "";
      "## Executive Summary"; "The bicycle took about seventy years to reach its modern form."; "";
      "## Key Facts & Statistics";
      "- Karl Drais showed his running machine in 1817";
      "- The Rover safety bicycle appeared in 1885"; "";
      "## Main Themes & Perspectives";
      "### Theme 1: Mobility"; "Cheap personal transport changed daily life." ].

Definition outlineText : string :=
  unlines
    [ "# Podcast Outline: The history of the bicycle"; "";
      "## Episode Overview"; "A ride through two centuries."; "";
      "## Opening Hook (30-60 seconds)"; "- Who invented the bicycle?"; "";
      "## Chapter Outlines"; "";
      "### Chapter 1: Origins (2 minutes)";
      "**Narrative Purpose**: Set the scene"; "";
      "### Chapter 2: The safety bicycle (2 minutes)";
      "**Narrative Purpose**: The breakthrough"; "";
      "### Chapter 3: Today (1 minute)";
      "**Narrative Purpose**: Bring it home"; "";
      "## Closing Segment (60-90 seconds)"; "- Recap of main themes"; "";
      "## Pacing Notes"; "- **Energy Levels**: steady" ].

Definition scriptText : string :=
  unlines
    [ "# Script: Chapter"; "";
      "**Host 1:** Welcome back to the show."; "";
      "**Host 2:** Today we ride through history." ].

Definition toneText : string :=
  unlines
    [ "# Enhanced Script"; "";
      "## Enhanced Script Content"; "";
      "**Host 1:** [upbeat] Welcome back to the show."; "";
      "**Host 2:** [whispering] Today we ride through history." ].

Definition finalText : string := "TODO".

(** A backend that answers each stage by its prompt. *)
Definition stageBackend (_ : nat) (prompt : string) : reply :=
  if startsWith prompt "PLAN" then Content planText
  else if startsWith prompt "RESEARCH" then Content researchText
  else if startsWith prompt "OUTLINE" then Content outlineText
  else if startsWith prompt "SCRIPT" then Content scriptText
  else if startsWith prompt "TONE" then Content toneText
  else if startsWith prompt "EDIT" then Content finalText
  else Failure "unknown prompt".

Definition bicycle : Orchestrator.Request :=
  {| Orchestrator.id := "job-1";
     Orchestrator.topic := "The history of the bicycle";
     Orchestrator.focus := None;
     Orchestrator.mood := "neutral";
     Orchestrator.style := "conversational";
     Orchestrator.chapters := 3;
     Orchestrator.durationMin := 5;
     Orchestrator.source := None |}.

(** The same request with a topic that is a single space. *)
Definition blankTopic : Orchestrator.Request :=
  {| Orchestrator.id := "job-2";
     Orchestrator.topic := " ";
     Orchestrator.focus := None;
     Orchestrator.mood := "neutral";
     Orchestrator.style := "conversational";
     Orchestrator.chapters := 3;
     Orchestrator.durationMin := 5;
     Orchestrator.source := None |}.

(** A short topic, and a source that the fetcher below knows. *)
Definition shortTopic : Orchestrator.Request :=
  {| Orchestrator.id := "job-3";
     Orchestrator.topic := "Bike";
     Orchestrator.focus := None;
     Orchestrator.mood := "neutral";
     Orchestrator.style := "conversational";
     Orchestrator.chapters := 3;
     Orchestrator.durationMin := 5;
     Orchestrator.source := None |}.

Definition grounded : Orchestrator.Request :=
  {| Orchestrator.id := "job-4";
     Orchestrator.topic := "The history of the bicycle";
     Orchestrator.focus := None;
     Orchestrator.mood := "neutral";
     Orchestrator.style := "conversational";
     Orchestrator.chapters := 3;
     Orchestrator.durationMin := 5;
     Orchestrator.source := Some "notes/bicycle.md" |}.

Definition bicycleNotes : SourceContent :=
  {| sc_title := "Bicycle notes";
     sc_content := researchText;
     sc_source := "notes/bicycle.md";
     sc_wordCount := 1200 |}.

Definition notesFetcher (source : string) : fetched :=
  if String.eqb source "notes/bicycle.md" then Fetched bicycleNotes
  else FetchFailed "not found".

Definition bicyclePlan : PlannerAgent.Plan :=
  {| PlannerAgent.content := planText;
     PlannerAgent.wordCount := 0;
     PlannerAgent.planChapters := [] |}.

(** A backend whose answers are two words long and tell the calls
    apart. *)
Definition countingBackend (n : nat) (_ : string) : reply :=
  Content ("**Host 1:** attempt " +:+ show_nat (n + 1)).

Definition editorInput : EditorAgent.EditorInput :=
  {| EditorAgent.script := toneText;
     EditorAgent.targetWords := 750;
     EditorAgent.tolerance := 5;
     EditorAgent.style := "conversational";
     EditorAgent.mood := "neutral" |}.

Definition placeholderScript : BaseAgent.Markdown :=
  {| BaseAgent.content := "TODO"; BaseAgent.wordCount := 0 |}.

Definition bicycleOutline : OutlineAgent.Outline :=
  {| OutlineAgent.outlineContent := outlineText;
     OutlineAgent.wordCount := 0;
     OutlineAgent.sections := OutlineAgent.parseOutlineSections outlineText 3;
     OutlineAgent.timingBalance := fair |}.

(** A chat client that fails once with status 503 and then answers,
    and a constant random source. *)
Definition flakyClient (n : nat) : AzureOpenAIService.outcome :=
  if n =? 1 then AzureOpenAIService.Thrown (Some 503) "Service Unavailable"
  else AzureOpenAIService.Completed "Hello".

Definition halfRandom (_ : nat) : Q := 1 # 2.

Definition run (request : Orchestrator.Request) (w : World)
  : (error + Orchestrator.Artifacts) * World :=
  Orchestrator.generatePodcast planningPrompt researchPrompt outlinePrompt
    scriptPrompt tonePrompt editingPrompt 5 request w.

End Examples.

(** A registry with a completed job and a cancelled job, and a later
    time. *)
Module RegistryExamples.
Import Controller.

Definition finishedJob : Generation :=
  {| topic := "The history of the bicycle"; state := completed;
     createdAt := "2024-05-01T10:00:00.000Z";
     completedAt := Some "2024-05-01T10:02:00.000Z";
     error := None; currentStep := Some "audio-stitching"; stepsCompleted := 7 |}.

Definition cancelledJob : Generation :=
  {| topic := "Tides"; state := cancelled;
     createdAt := "2024-05-01T11:00:00.000Z";
     completedAt := Some "2024-05-01T11:00:30.000Z";
     error := None; currentStep := Some "scripting"; stepsCompleted := 4 |}.

Definition registry : gmap string Generation :=
  <[ "job-2" := cancelledJob ]> (<[ "job-1" := finishedJob ]> ∅).

Definition later : string := "2024-05-02T09:00:00.000Z".
End RegistryExamples.

(** ** Notions used to state the properties *)

Module Spec.
Import Js Runtime.




(** The deviation of a word count from its target, as a fraction. *)
Definition deviation (target actual : Z) : Q :=
  Qabs (inject_Z target - inject_Z actual) / inject_Z target.





(** [items.map(f)] for an effectful [f], run in order. *)
Definition mapM {A B : Type} (f : A -> M B) (l : list A) : M (list B) :=
  Orchestrator.mapM_from (fun a _ => f a) 0 l.

(** The Scripter inputs of one batch, and of all batches in order. *)
Fixpoint inputs_from (outline : OutlineAgent.Outline) (targetWords : Z)
  (styleName : string) (index : nat) (batch : list OutlineAgent.Section)
  : list ScriptAgent.ScriptInput :=
  match batch with
  | [] => []
  | section :: rest =>
      Orchestrator.scriptInput outline targetWords styleName section index
      :: inputs_from outline targetWords styleName (S index) rest
  end.

Definition scriptInputs (maxConcurrentAgents : positive)
  (outline : OutlineAgent.Outline) (input : PlannerAgent.PlanningInput)
  : list ScriptAgent.ScriptInput :=
  flat_map (inputs_from outline (PlannerAgent.targetWords input)
              (PlannerAgent.style input) 0)
    (Orchestrator.createBatches (OutlineAgent.sections outline) maxConcurrentAgents).

(** The share of the target that each Scripter call is given. *)
Definition sectionTarget (outline : OutlineAgent.Outline)
  (input : PlannerAgent.PlanningInput) : Z :=
  js_round (inject_Z (PlannerAgent.targetWords input)
            / inject_Z (Z.of_nat (List.length (OutlineAgent.sections outline)))).

(** An answer whose spoken-word count is outside the tolerance. *)
Definition misses (tolerance : Q) (targetWords : Z) (r : reply) : Prop :=
  exists text,
    r = Content text
    /\ Qle_bool (Qabs (calculateWordAccuracy (BaseAgent.countSpokenWords text) targetWords))
         tolerance = false.

(** The model calls made between two worlds. *)
Definition callsBetween (w w' : World) : nat := modelCalls w' - modelCalls w.

(** The request names no source, or an empty one, or one that the
    fetcher fails to fetch. *)
Definition noFetchedSource (w : World) (request : Orchestrator.Request) : Prop :=
  match Orchestrator.source request with
  | None => True
  | Some src => truthy src = false \/ exists message, fetcher w src = FetchFailed message
  end.

(** What a step may change in the world: it adds model calls and
    progress reports, and leaves the backend and the fetcher. *)
Record extends (w w' : World) (calls : list string)
  (reports : list (string * nat)) : Prop := {
  same_backend : backend w' = backend w;
  same_fetcher : fetcher w' = fetcher w;
  more_sent : sent w' = sent w ++ calls;
  more_progress : progress w' = progress w ++ reports
}.

End Spec.

(** * Further parts of the program

    The code around the parts above: the dispatch of an agent's model
    call between the two backends, the grouping of utterances for speech
    synthesis and the input that the orchestrator hands to it, the
    brief validation of the controller, and the error middleware of
    the HTTP layer. *)

(** ** The two backends of an agent (BaseAgent.chatComplete) *)

Module AgentBackend.
Import Js Runtime AzureOpenAIService.

(** A run of the Foundry client: [status: 'completed'] with the
    response content, or [status: 'failed'] with [lastError]. *)
Inductive run : Type :=
| RunCompleted (content : string)
| RunFailed (lastError : string).

(** What a call leaves behind: the trace of every invocation of
    [getChatCompletion] it made, oldest first. *)
Definition traces : Type := list (list event).

(** [agentId] is configured: [!!this.agentId]. *)
Definition configured (agentId : option string) : bool :=
  match agentId with
  | Some i => truthy i
  | None => false
  end.

Section Backend.

(** [clients k] is the client that the invocation number [k] of
    [getChatCompletion] meets (counted from 0), [randoms k] its random
    source. *)
Variable clients : nat -> nat -> outcome.
Variable randoms : nat -> nat -> Q.

(** One invocation of [getChatCompletion] by a service whose
    constructor has returned, after the invocations in [done]: the
    content, or the message of the [AzureError]. *)
Definition invoke (done : traces) : (string + string) * traces :=
  match getChatCompletion (clients (List.length done)) (randoms (List.length done)) true with
  | (Returned content, trace) => (inr content, done ++ [trace])
  | (AzureError message _, trace) => (inl message, done ++ [trace])
  end.

(** [chatCompleteWithOpenAI] *)
Definition chatCompleteWithOpenAI (done : traces) : (string + string) * traces :=
  invoke done.

(** [AzureAIFoundryClient.createAndProcessRun]: the run is processed
    by a completion service of its own ([processWithFallback]), built
    for the occasion; [serviceBuilt] tells whether its constructor
    returns.  Every error ends in a failed run. *)
Definition createAndProcessRun (serviceBuilt : bool) (done : traces) : run * traces :=
  if serviceBuilt then
    match invoke done with
    | (inr response, done') => (RunCompleted response, done')
    | (inl message, done') => (RunFailed message, done')
    end
  else (RunFailed "Failed to initialize Azure OpenAI client", done).

(** [chatCompleteWithFoundry]: the [try] block, then the [catch] block
    that calls the direct backend once more. *)
Definition chatCompleteWithFoundry (isAvailable serviceBuilt : bool)
  : (string + string) * traces :=
  let attempt :=
    if negb isAvailable then chatCompleteWithOpenAI []
    else
      match createAndProcessRun serviceBuilt [] with
      | (RunFailed _, done) => chatCompleteWithOpenAI done
      | (RunCompleted content, done) => (inr content, done)
      end in
  match attempt with
  | (inr content, done) => (inr content, done)
  | (inl _, done) => chatCompleteWithOpenAI done
  end.

(** [BaseAgent.chatComplete] of the agent [name]. *)
Definition chatComplete (name : string) (useFoundryAgent : bool)
  (agentId : option string) (isAvailable serviceBuilt : bool)
  : (error + Response) * traces :=
  let (result, done) :=
    if useFoundryAgent && configured agentId
    then chatCompleteWithFoundry isAvailable serviceBuilt
    else chatCompleteWithOpenAI [] in
  (match result with
   | inr content => inr {| r_content := content |}
   | inl message => inl (AgentError (name +:+ " execution failed: " +:+ message) name)
   end, done).

(** The trace of the invocation number [k], whatever comes of it. *)
Definition trace_of (k : nat) : list event :=
  snd (getChatCompletion (clients k) (randoms k) true).

(** The invocation number [k] ends in an [AzureError]. *)
Definition failed (k : nat) : Prop :=
  exists message lastError,
    fst (getChatCompletion (clients k) (randoms k) true) = AzureError message lastError.

End Backend.

End AgentBackend.

(** ** Speech synthesis (TTSAgent) *)

Module TTSAgent.
Import Js Runtime.

(** [items.slice(start, end)] for counts [start] and [end]. *)
Definition slice {A : Type} (start stop : nat) (items : list A) : list A :=
  firstn (stop - start) (skipn start items).

(** [Math.ceil(n / d)] for counts [n] and [d]. *)
Definition ceil_div (n d : nat) : nat := (n + d - 1) / d.

(** The [for] loop of [groupUtterancesByChapters] with [remaining]
    iterations to run, the next one for [i]. *)
Fixpoint chapter_groups {A : Type} (remaining i utterancesPerChapter : nat)
  (utterances : list A) : list (list A) :=
  match remaining with
  | O => []
  | S remaining' =>
      let start := i * utterancesPerChapter in
      let stop := Nat.min (start + utterancesPerChapter) (List.length utterances) in
      let chapterUtterances := slice start stop utterances in
      (if 0 <? List.length chapterUtterances then [chapterUtterances] else [])
      ++ chapter_groups remaining' (S i) utterancesPerChapter utterances
  end.

(** [groupUtterancesByChapters], for a whole number of chapters: the
    groups that are not empty, then empty groups until there are as
    many groups as chapters. *)
Definition groupUtterancesByChapters {A : Type} (utterances : list A) (chapters : nat)
  : list (list A) :=
  let utterancesPerChapter := ceil_div (List.length utterances) chapters in
  let groups := chapter_groups chapters 0 utterancesPerChapter utterances in
  if (List.length groups <? chapters) && (0 <? List.length utterances)
  then groups ++ repeat [] (chapters - List.length groups)
  else groups.

(** What [generateUtteranceAudio] keeps of an utterance, and what
    [generateChapterAudio] returns.  The durations, which are sums of
    floating-point estimates, are left out. *)
Record Segment : Type := {
  seg_index : nat;
  seg_tone : string;
  seg_text : string;
  seg_wordCount : nat
}.

Record ChapterAudio : Type := {
  chapter : nat;
  utterances : nat;
  wordCount : nat;
  segments : list Segment;
  host1 : nat;
  host2 : nat
}.

(** [text.substring(0, 50) + '...'] *)
Definition preview (text : string) : string :=
  to_string (firstn 50 (of_string text)) +:+ "...".

Definition generateUtteranceAudio (utterance : ToneAgent.Utterance) : Segment :=
  {| seg_index := ToneAgent.index utterance;
     seg_tone := ToneAgent.tone utterance;
     seg_text := preview (ToneAgent.text utterance);
     seg_wordCount := ToneAgent.wordCount utterance |}.

Definition spoken_by (speaker : string) (l : list ToneAgent.Utterance) : nat :=
  List.length (filter (fun u => String.eqb (ToneAgent.speaker u) speaker) l).

(** [generateChapterAudio]: a chapter without utterances is an
    error. *)
Definition generateChapterAudio (l : list ToneAgent.Utterance) (chapterNumber : nat)
  : error + ChapterAudio :=
  if is_nil l then
    inl (Error ("No utterances provided for chapter " +:+ show_nat chapterNumber))
  else
    inr {| chapter := chapterNumber;
           utterances := List.length l;
           wordCount := fold_left (fun sum u => sum + ToneAgent.wordCount u) l 0;
           segments := map generateUtteranceAudio l;
           host1 := spoken_by "host1" l;
           host2 := spoken_by "host2" l |}.

Record TTSInput : Type := {
  script : string;
  inputUtterances : list ToneAgent.Utterance;
  chapters : Z
}.

(** [validateInput], for an input without a [voice]: the throwing
    checks of [validateTextForTTS] repeat the check of the script, its
    other checks only log. *)
Definition validateInput (input : TTSInput) : error + unit :=
  if negb (truthy (script input)) || (String.length (trim (script input)) =? 0)
  then inl (Error "Script content is required for TTS generation")
  else if (chapters input =? 0)%Z || (chapters input <? 1)%Z || (20 <? chapters input)%Z
  then inl (Error "Chapters must be between 1 and 20")
  else inr tt.

(** One audio file of an utterance, and the audio of a chapter once
    its utterances are joined. *)
Record UtteranceFile : Type := {
  filePath : string;
  utteranceIndex : nat;
  fileSpeaker : string
}.

Record ChapterFile : Type := {
  chapterPath : string;
  audio : ChapterAudio;
  utteranceFiles : list UtteranceFile
}.

(** What [execute] returns, without the durations. *)
Record Audio : Type := {
  audioFiles : list string;
  totalFiles : nat;
  totalUtterances : nat;
  speakerHost1 : nat;
  speakerHost2 : nat;
  chaptersGenerated : nat;
  audioDetails : list ChapterFile
}.

Section Execute.

(** The speech service, the file system and the audio tool are outside
    the program: [Outside] is their state, and the two operations that reach
    them are given. *)
Variable Outside : Type.

Definition T (A : Type) : Type := Outside -> (error + A) * Outside.

Variable generateUtteranceAudioFiles :
  list ToneAgent.Utterance -> nat -> T (list UtteranceFile).
Variable concatenateUtteranceAudio : list UtteranceFile -> nat -> T string.

(** The loop of [execute] over the groups, the next one being number
    [i]. *)
Fixpoint chapters_loop (groups : list (list ToneAgent.Utterance)) (i : nat)
  : T (list ChapterFile) :=
  match groups with
  | [] => fun s => (inr [], s)
  | chapterUtterances :: rest =>
      fun s =>
        match generateChapterAudio chapterUtterances (i + 1) with
        | inl e => (inl e, s)
        | inr chapterAudio =>
            match generateUtteranceAudioFiles chapterUtterances (i + 1) s with
            | (inl e, s1) => (inl e, s1)
            | (inr files, s1) =>
                match concatenateUtteranceAudio files (i + 1) s1 with
                | (inl e, s2) => (inl e, s2)
                | (inr chapterAudioPath, s2) =>
                    match chapters_loop rest (S i) s2 with
                    | (inl e, s3) => (inl e, s3)
                    | (inr more, s3) =>
                        (inr ({| chapterPath := chapterAudioPath;
                                 audio := chapterAudio;
                                 utteranceFiles := files |} :: more), s3)
                    end
                end
            end
        end
  end.

(** [execute], when the utterances are given with the script. *)
Definition execute (input : TTSInput) : T Audio :=
  fun s =>
    match validateInput input with
    | inl e => (inl e, s)
    | inr _ =>
        let processedUtterances := inputUtterances input in
        let chapterGroups :=
          groupUtterancesByChapters processedUtterances (Z.to_nat (chapters input)) in
        match chapters_loop chapterGroups 0 s with
        | (inl e, s') => (inl e, s')
        | (inr files, s') =>
            (inr {| audioFiles := map chapterPath files;
                    totalFiles := List.length files;
                    totalUtterances := List.length processedUtterances;
                    speakerHost1 := spoken_by "host1" processedUtterances;
                    speakerHost2 := spoken_by "host2" processedUtterances;
                    chaptersGenerated := List.length chapterGroups;
                    audioDetails := files |}, s')
        end
    end.

End Execute.

End TTSAgent.

(** ** Brief validation of the controller (PodcastController.validateBrief) *)

Module ControllerBrief.
Import Js.

Record Estimates : Type := {
  targetWords : Z;
  wordsPerChapter : Z;
  estimatedDuration : string;
  processingTime : string
}.

Record BriefValidation : Type := {
  valid : bool;
  warnings : list string;
  recommendations : list string;
  estimates : Estimates
}.

(** [validateBrief], for a brief that has passed the rules of the
    route; [durationMin] and [chapters] are whole numbers. *)
Definition validateBrief (topic : string) (durationMin chapters : Z) : BriefValidation :=
  let targetWords :=
    js_round (inject_Z durationMin * inject_Z Orchestrator.wordsPerMinute) in
  let wordsPerChapter := js_round (inject_Z targetWords / inject_Z chapters) in
  {| valid := true;
     warnings :=
       (if String.length topic <? 10
        then ["Topic is very short. Consider adding more detail for better results."]
        else [])
       ++ (if (durationMin <? 2)%Z
           then ["Very short duration may limit content depth."] else [])
       ++ (if (durationMin * 2 <? chapters)%Z
           then ["Many chapters for short duration may result in superficial coverage."]
           else []);
     recommendations :=
       (if 200 <? String.length topic
        then ["Topic is quite long. Consider focusing on key aspects."] else [])
       ++ (if (60 <? durationMin)%Z
           then ["Long podcasts may benefit from more chapters for better structure."]
           else []);
     estimates :=
       {| targetWords := targetWords;
          wordsPerChapter := wordsPerChapter;
          estimatedDuration :=
            show_Z (js_round (inject_Z targetWords / inject_Z Orchestrator.wordsPerMinute))
            +:+ "min";
          processingTime := show_Z (js_round (inject_Z durationMin * 12)) +:+ "s" |} |}.

End ControllerBrief.

(** ** The error middleware (src/middleware/errorHandler.js, validation.js) *)

Module ErrorHandler.
Import Js.

(** One entry of the [details] of a validation error. *)
Record Detail : Type := {
  field : option string;
  d_message : string;
  value : string;
  location : string
}.

(** An error as the middleware reads it.  [status], [statusCode],
    [code], [details], [retryAfter] and [stack] may be absent;
    [responseStatus] is [err.response?.status]. *)
Record Err : Type := {
  name : string;
  status : option nat;
  statusCode : option nat;
  message : string;
  code : option string;
  responseStatus : option nat;
  details : option (list Detail);
  retryAfter : option nat;
  stack : option string
}.

(** The error classes of the program. *)
Definition ValidationError (message : string) (details : list Detail)
  (stack : option string) : Err :=
  {| name := "ValidationError"; status := Some 400; statusCode := None;
     message := message; code := Some "VALIDATION_ERROR"; responseStatus := None;
     details := Some details; retryAfter := None; stack := stack |}.

Definition AgentError (message : string) (stack : option string) : Err :=
  {| name := "AgentError"; status := Some 422; statusCode := None;
     message := message; code := Some "AGENT_PROCESSING_ERROR"; responseStatus := None;
     details := None; retryAfter := None; stack := stack |}.

Definition AzureError (message : string) (stack : option string) : Err :=
  {| name := "AzureError"; status := Some 502; statusCode := None;
     message := message; code := Some "AZURE_SERVICE_ERROR"; responseStatus := None;
     details := None; retryAfter := None; stack := stack |}.

(** A number is falsy when it is absent or 0, a string when it is
    absent or empty. *)
Definition number_or (n : option nat) (fallback : nat) : nat :=
  match n with
  | Some (S k) => S k
  | _ => fallback
  end.

Definition string_or (s : option string) (fallback : string) : string :=
  match s with
  | Some t => if truthy t then t else fallback
  | None => fallback
  end.

Inductive level : Type := LogError | LogWarn.

Section Handler.

(** The request, which the handler only copies into its log entry. *)
Variable Request : Type.

Record Context : Type := {
  c_name : string;
  c_message : string;
  c_stack : option string;
  c_code : option string;
  c_request : Request;
  c_timestamp : string
}.

Record ErrorBody : Type := {
  e_code : string;
  e_message : string;
  e_status : nat;
  e_timestamp : string;
  e_details : option (list Detail);
  e_stack : option string;
  e_context : option Context;
  e_retryAfter : option nat;
  e_retryable : bool
}.

(** [res.status(status).json({ error })], and the log entry made on
    the way. *)
Record Handled : Type := {
  httpStatus : nat;
  body : ErrorBody;
  logged : option level
}.

(** The [switch] on [err.name]. *)
Definition by_name (n : string) (current : nat * string * string)
  : nat * string * string :=
  if String.eqb n "ValidationError" then
    (400, "VALIDATION_ERROR", "Request validation failed")
  else if String.eqb n "CastError" then (400, "INVALID_ID", "Invalid ID format")
  else if String.eqb n "JsonWebTokenError" then
    (401, "INVALID_TOKEN", "Invalid authentication token")
  else if String.eqb n "TokenExpiredError" then
    (401, "TOKEN_EXPIRED", "Authentication token expired")
  else if String.eqb n "MulterError" then (400, "FILE_UPLOAD_ERROR", "File upload failed")
  else if String.eqb n "TimeoutError" then
    (504, "REQUEST_TIMEOUT", "Request timeout - operation took too long")
  else if String.eqb n "AzureError" then
    (502, "AZURE_SERVICE_ERROR", "Azure service temporarily unavailable")
  else if String.eqb n "AgentError" then
    (422, "AGENT_PROCESSING_ERROR", "AI agent processing failed")
  else current.

(** The [switch] on [err.response.status], entered when that status
    is truthy. *)
Definition by_response (responseStatus : option nat) (current : nat * string * string)
  : nat * string * string :=
  match responseStatus with
  | Some (S k) =>
      let '(_, code, message) := current in
      let s := S k in
      if s =? 401 then (s, "AZURE_AUTH_ERROR", "Azure authentication failed")
      else if s =? 403 then (s, "AZURE_PERMISSION_ERROR", "Insufficient Azure permissions")
      else if s =? 429 then (s, "AZURE_RATE_LIMIT", "Azure service rate limit exceeded")
      else if s =? 500 then (s, "AZURE_INTERNAL_ERROR", "Azure service internal error")
      else (s, code, message)
  | _ => current
  end.

(** [errorHandler]; [contextTime] and [responseTime] are the two
    readings of the clock. *)
Definition errorHandler (isDevelopment : bool) (contextTime responseTime : string)
  (err : Err) (req : Request) : Handled :=
  let defaults :=
    (number_or (status err) (number_or (statusCode err) 500),
     string_or (code err) "INTERNAL_ERROR",
     if truthy (message err) then message err else "Internal Server Error") in
  let errorContext :=
    {| c_name := name err; c_message := message err; c_stack := stack err;
       c_code := code err; c_request := req; c_timestamp := contextTime |} in
  let '(status, code, message) := by_response (responseStatus err) (by_name (name err) defaults) in
  let development := isDevelopment && (500 <=? status) in
  let retry := (status =? 429) || (status =? 503) || (status =? 504) in
  {| httpStatus := status;
     body :=
       {| e_code := code;
          e_message := message;
          e_status := status;
          e_timestamp := responseTime;
          e_details := details err;
          e_stack := if development then stack err else None;
          e_context := if development then Some errorContext else None;
          e_retryAfter := if retry then Some (number_or (retryAfter err) 60) else None;
          e_retryable := retry |};
     logged :=
       if 500 <=? status then Some LogError
       else if 400 <=? status then Some LogWarn
       else None |}.

End Handler.

(** One error of [validationResult(req)]. *)
Record Issue : Type := {
  path : option string;
  param : option string;
  msg : string;
  issueValue : string;
  issueLocation : string
}.

(** [error.path || error.param] *)
Definition issue_field (i : Issue) : option string :=
  match path i with
  | Some p => if truthy p then Some p else param i
  | None => param i
  end.

Definition formatted (i : Issue) : Detail :=
  {| field := issue_field i;
     d_message := msg i;
     value := issueValue i;
     location := issueLocation i |}.

(** [validateRequest]: the error handed to [next], if any. *)
Definition validateRequest (errors : list Issue) (stack : option string) : option Err :=
  if is_nil errors then None
  else Some (ValidationError "Request validation failed" (map formatted errors) stack).

End ErrorHandler.

(** ** The audio stage of a job (step 7 of generatePodcast) *)

Module AudioStage.
Import Js Runtime.

(** The input that the orchestrator hands to speech synthesis.  The
    final script has no [chapters] of its own, so
    [finalScript.chapters || chapters] is the number of chapters of
    the brief; the directory for the files is left out. *)
Definition ttsInput (request : Orchestrator.Request) (artifacts : Orchestrator.Artifacts)
  : TTSAgent.TTSInput :=
  {| TTSAgent.script := EditorAgent.content (Orchestrator.finalScript artifacts);
     TTSAgent.inputUtterances :=
       ToneAgent.utterances (Orchestrator.toneScript artifacts);
     TTSAgent.chapters := Orchestrator.chapters request |}.

End AudioStage.

(** ** Notions used to state the further properties *)

Module Laws.
Import Js Runtime.

(** An answer whose spoken-word count is within the tolerance. *)
Definition hits (tolerance : Q) (targetWords : Z) (r : reply) : Prop :=
  exists text,
    r = Content text
    /\ Qle_bool (Qabs (calculateWordAccuracy (BaseAgent.countSpokenWords text) targetWords))
         tolerance = true.

(** A computation that leaves the backend, the fetcher and the
    progress reports as they are, and makes at most [hi] model calls,
    and at least [lo] when it returns a value. *)
Definition stage {A : Type} (m : M A) (lo hi : nat) : Prop :=
  forall w r w',
    m w = (r, w') ->
    backend w' = backend w
    /\ fetcher w' = fetcher w
    /\ progress w' = progress w
    /\ modelCalls w <= modelCalls w'
    /\ modelCalls w' <= modelCalls w + hi
    /\ (forall a, r = inr a -> modelCalls w + lo <= modelCalls w').

(** What the two [switch] statements of the error handler keep: a
    positive status, a code and a message that are not empty. *)
Definition sound (current : nat * string * string) : Prop :=
  let '(status, code, message) := current in
  1 <= status /\ code <> "" /\ message <> "".

(** The progress reports of a job, in the order of its steps. *)
Definition steps : list (string * nat) :=
  [("planning", 1); ("research", 2); ("outlining", 3); ("scripting", 4);
   ("tone-enhancement", 5); ("editing", 6)].


End Laws.

(** ** Further concrete inputs *)

Module Cases.
Import Js Runtime.

(** A brief of one hour, which the route accepts. *)
Definition hourBrief : Orchestrator.Request :=
  {| Orchestrator.id := "job-5";
     Orchestrator.topic := "The history of the bicycle";
     Orchestrator.focus := None;
     Orchestrator.mood := "neutral";
     Orchestrator.style := "conversational";
     Orchestrator.chapters := 3;
     Orchestrator.durationMin := 60;
     Orchestrator.source := None |}.

(** A brief of one minute: 150 words for all the sections of the
    outline. *)
Definition minuteBrief : Orchestrator.Request :=
  {| Orchestrator.id := "job-6";
     Orchestrator.topic := "The history of the bicycle";
     Orchestrator.focus := None;
     Orchestrator.mood := "neutral";
     Orchestrator.style := "conversational";
     Orchestrator.chapters := 3;
     Orchestrator.durationMin := 1;
     Orchestrator.source := None |}.

(** A brief whose source no fetcher of the examples knows. *)
Definition lostSource : Orchestrator.Request :=
  {| Orchestrator.id := "job-7";
     Orchestrator.topic := "The history of the bicycle";
     Orchestrator.focus := None;
     Orchestrator.mood := "neutral";
     Orchestrator.style := "conversational";
     Orchestrator.chapters := 3;
     Orchestrator.durationMin := 5;
     Orchestrator.source := Some "notes/missing.md" |}.


(** Two utterances, to be spread over three chapters. *)
Definition welcome : ToneAgent.Utterance :=
  {| ToneAgent.index := 0;
     ToneAgent.speaker := "host1";
     ToneAgent.tone := "upbeat";
     ToneAgent.text := "Welcome back to the show.";
     ToneAgent.wordCount := 5;
     ToneAgent.estimatedDuration := 2 |}.

Definition today : ToneAgent.Utterance :=
  {| ToneAgent.index := 1;
     ToneAgent.speaker := "host2";
     ToneAgent.tone := "calm";
     ToneAgent.text := "Today we ride through history.";
     ToneAgent.wordCount := 5;
     ToneAgent.estimatedDuration := 2 |}.

Definition threeChapters : TTSAgent.TTSInput :=
  {| TTSAgent.script := Examples.toneText;
     TTSAgent.inputUtterances := [welcome; today];
     TTSAgent.chapters := 3 |}.

(** The same two utterances for two chapters. *)
Definition twoChapters : TTSAgent.TTSInput :=
  {| TTSAgent.script := Examples.toneText;
     TTSAgent.inputUtterances := [welcome; today];
     TTSAgent.chapters := 2 |}.

(** A speech service and an audio tool that never fail. *)
Definition speak (l : list ToneAgent.Utterance) (chapterNumber : nat)
  : TTSAgent.T unit (list TTSAgent.UtteranceFile) :=
  fun s =>
    (inr (map (fun u =>
                 {| TTSAgent.filePath :=
                      "chapter_" +:+ show_nat chapterNumber +:+ "_utterance_"
                      +:+ show_nat (ToneAgent.index u) +:+ ".mp3";
                    TTSAgent.utteranceIndex := ToneAgent.index u;
                    TTSAgent.fileSpeaker := ToneAgent.speaker u |}) l), s).

Definition joined (_ : list TTSAgent.UtteranceFile) (chapterNumber : nat)
  : TTSAgent.T unit string :=
  fun s => (inr ("chapter_" +:+ show_nat chapterNumber +:+ ".mp3"), s).

(** One error of the validator of a route. *)
Definition topicMissing : ErrorHandler.Issue :=
  {| ErrorHandler.path := Some "topic";
     ErrorHandler.param := None;
     ErrorHandler.msg := "Topic is required and must be 1-500 characters";
     ErrorHandler.issueValue := " ";
     ErrorHandler.issueLocation := "body" |}.

End Cases.

(** * Properties *)

(** ** The matcher *)

Module RegexFacts.
Import Js Regex Spec.












End RegexFacts.

(** ** The Tone Annotator's parser *)

Module ToneFacts.
Import Js Regex Spec ToneAgent RegexFacts.















End ToneFacts.

Module ToneClaims.
Import Js Regex Spec ToneAgent RegexFacts ToneFacts.



End ToneClaims.

(** ** The fan-out over the sections of the outline *)

Module ScriptingFacts.
Import Js Runtime Spec Orchestrator.

Lemma mapM_from_index {A B : Type} (f : A -> M B) (l : list A) :
  forall i j w, mapM_from (fun a _ => f a) i l w = mapM_from (fun a _ => f a) j l w.
Proof.
  induction l as [| a l IH]; intros i j w; cbn [mapM_from]; [reflexivity |].
  unfold bind. destruct (f a w) as [[e | b] w1]; [reflexivity |].
  rewrite (IH (S i) (S j) w1). reflexivity.
Qed.

Lemma mapM_from_inputs (scripter : ScriptAgent.ScriptInput -> M ScriptAgent.Script)
  outline targetWords styleName (batch : list OutlineAgent.Section) :
  forall index w,
    mapM_from (fun section i => scripter (scriptInput outline targetWords styleName section i))
      index batch w
    = mapM scripter (inputs_from outline targetWords styleName index batch) w.
Proof.
  unfold mapM.
  induction batch as [| section batch IH]; intros index w;
    cbn [mapM_from inputs_from]; [reflexivity |].
  unfold bind.
  destruct (scripter (scriptInput outline targetWords styleName section index) w)
    as [[e | b] w1]; [reflexivity |].
  rewrite (IH (S index) w1).
  rewrite (mapM_from_index scripter _ 0 1 w1). reflexivity.
Qed.

Lemma mapM_app {A B : Type} (f : A -> M B) (l1 l2 : list A) :
  forall w,
    mapM f (l1 ++ l2) w
    = (b1 <-- mapM f l1 ;; b2 <-- mapM f l2 ;; ret (b1 ++ b2)) w.
Proof.
  unfold mapM.
  induction l1 as [| a l1 IH]; intros w; cbn [mapM_from app].
  - unfold bind, ret. destruct (mapM_from (fun a _ => f a) 0 l2 w) as [[e | b] w1]; reflexivity.
  - unfold bind. destruct (f a w) as [[e | b] w1]; [reflexivity |].
    rewrite (mapM_from_index f (l1 ++ l2) 1 0 w1), IH.
    rewrite (mapM_from_index f l1 1 0 w1).
    unfold bind, ret.
    destruct (mapM_from (fun a _ => f a) 0 l1 w1) as [[e | b1] w2]; [reflexivity |].
    destruct (mapM_from (fun a _ => f a) 0 l2 w2) as [[e | b2] w3]; reflexivity.
Qed.

(** The batches run one after the other are one run over the inputs
    of all the batches. *)
Lemma runBatches_mapM (scripter : ScriptAgent.ScriptInput -> M ScriptAgent.Script)
  outline targetWords styleName (batches : list (list OutlineAgent.Section)) :
  forall w,
    runBatches scripter outline targetWords styleName batches w
    = mapM scripter
        (flat_map (inputs_from outline targetWords styleName 0) batches) w.
Proof.
  induction batches as [| batch batches IH]; intros w; cbn [runBatches flat_map].
  - reflexivity.
  - rewrite mapM_app. unfold bind at 1 3.
    rewrite mapM_from_inputs.
    destruct (mapM scripter (inputs_from outline targetWords styleName 0 batch) w)
      as [[e | b1] w1]; [reflexivity |].
    unfold bind. rewrite IH. reflexivity.
Qed.

Lemma mapM_length {A B : Type} (f : A -> M B) (l : list A) :
  forall w bs w', mapM f l w = (inr bs, w') -> List.length bs = List.length l.
Proof.
  unfold mapM. generalize 0.
  induction l as [| a l IH]; intros i w bs w' H; cbn [mapM_from] in H.
  - injection H as <- <-. reflexivity.
  - unfold bind in H. destruct (f a w) as [[e | b] w1]; [discriminate |].
    destruct (mapM_from (fun a _ => f a) (S i) l w1) as [[e | bs1] w2] eqn:E; [discriminate |].
    injection H as <- <-. cbn. f_equal. eapply IH; exact E.
Qed.

Lemma mapM_Forall2 {A B : Type} (f : A -> M B) (R : A -> B -> Prop) :
  (forall a w b w', f a w = (inr b, w') -> R a b) ->
  forall l w bs w', mapM f l w = (inr bs, w') -> Forall2 R l bs.
Proof.
  intros Hf l. unfold mapM. generalize 0.
  induction l as [| a l IH]; intros i w bs w' H; cbn [mapM_from] in H.
  - injection H as <- <-. constructor.
  - unfold bind in H. destruct (f a w) as [[e | b] w1] eqn:Ea; [discriminate |].
    destruct (mapM_from (fun a _ => f a) (S i) l w1) as [[e | bs1] w2] eqn:E; [discriminate |].
    injection H as <- <-. constructor; [eapply Hf; exact Ea | eapply IH; exact E].
Qed.

Lemma batches_concat {A : Type} (size : nat) :
  0 < size ->
  forall fuel (items : list A),
    List.length items <= fuel -> concat (batches_aux fuel items size) = items.
Proof.
  intros Hsize fuel. induction fuel as [| fuel IH]; intros items Hlen.
  - destruct items; [reflexivity | cbn in Hlen; lia].
  - destruct items as [| a items]; [reflexivity |].
    cbn [batches_aux concat]. rewrite IH.
    + apply firstn_skipn.
    + rewrite length_skipn. cbn [List.length] in *. lia.
Qed.

Lemma createBatches_concat {A : Type} (items : list A) (size : positive) :
  concat (createBatches items size) = items.
Proof. apply batches_concat; lia. Qed.

Lemma inputs_from_sections outline targetWords styleName batch :
  forall index,
    map ScriptAgent.section (inputs_from outline targetWords styleName index batch)
    = map OutlineAgent.content batch.
Proof.
  induction batch as [| s batch IH]; intros index; cbn; [reflexivity |].
  f_equal. apply IH.
Qed.

Lemma inputs_sections outline targetWords styleName batches :
  map ScriptAgent.section
    (flat_map (inputs_from outline targetWords styleName 0) batches)
  = map OutlineAgent.content (concat batches).
Proof.
  induction batches as [| b batches IH]; cbn [flat_map concat]; [reflexivity |].
  rewrite !map_app, inputs_from_sections, IH. reflexivity.
Qed.

Lemma inputs_from_target outline targetWords styleName batch :
  forall index,
    Forall (fun i => ScriptAgent.targetWords i
                     = js_round (inject_Z targetWords
                         / inject_Z (Z.of_nat (List.length (OutlineAgent.sections outline)))))
      (inputs_from outline targetWords styleName index batch).
Proof.
  induction batch as [| s batch IH]; intros index; cbn; constructor; auto.
Qed.

Lemma scriptInputs_target maxC outline input :
  Forall (fun i => ScriptAgent.targetWords i = sectionTarget outline input)
    (scriptInputs maxC outline input).
Proof.
  unfold scriptInputs, sectionTarget.
  induction (createBatches (OutlineAgent.sections outline) maxC) as [| b l IH];
    cbn [flat_map]; [constructor |].
  apply List.Forall_app. split; [apply inputs_from_target | exact IH].
Qed.

Lemma scriptInputs_sections maxC outline input :
  map ScriptAgent.section (scriptInputs maxC outline input)
  = map OutlineAgent.content (OutlineAgent.sections outline).
Proof.
  unfold scriptInputs. rewrite inputs_sections, createBatches_concat. reflexivity.
Qed.

Lemma scriptInputs_length maxC outline input :
  List.length (scriptInputs maxC outline input)
  = List.length (OutlineAgent.sections outline).
Proof.
  rewrite <- (length_map ScriptAgent.section), scriptInputs_sections, length_map.
  reflexivity.
Qed.


End ScriptingFacts.

(** ** Stages of the pipeline *)

Module StageFacts.
Import Js Runtime Spec Orchestrator.

Lemma extends_refl w : extends w w [] [].
Proof. split; try reflexivity; rewrite app_nil_r; reflexivity. Qed.

Lemma extends_trans w1 w2 w3 c1 c2 r1 r2 :
  extends w1 w2 c1 r1 -> extends w2 w3 c2 r2 -> extends w1 w3 (c1 ++ c2) (r1 ++ r2).
Proof.
  intros [A1 B1 C1 D1] [A2 B2 C2 D2]. split.
  - congruence.
  - congruence.
  - rewrite C2, C1, app_assoc. reflexivity.
  - rewrite D2, D1, app_assoc. reflexivity.
Qed.

Lemma throw_if_cases (cond : bool) (message : string) (w : World) :
  (cond = true /\ throw_if cond message w = (inl (Error message), w))
  \/ (cond = false /\ throw_if cond message w = (inr tt, w)).
Proof. destruct cond; [left | right]; split; reflexivity. Qed.

Lemma chatComplete_extends name prompt w r w' :
  chatComplete name prompt w = (r, w') -> extends w w' [prompt] [].
Proof.
  unfold chatComplete. intros H. injection H as <- <-.
  split; cbn; try reflexivity. rewrite app_nil_r. reflexivity.
Qed.

Lemma extractMarkdown_world name response w r w' :
  extractMarkdown name response w = (r, w') -> w' = w.
Proof.
  unfold extractMarkdown. destruct (truthy (r_content response));
    intros H; injection H as <- <-; reflexivity.
Qed.

Lemma updateProgress_extends step completed w :
  exists w', updateProgress step completed w = (inr tt, w')
             /\ extends w w' [] [(step, completed)].
Proof.
  eexists. split; [reflexivity |].
  split; cbn; try reflexivity. rewrite app_nil_r. reflexivity.
Qed.

(** The Planner fails without a call, fails after its one call, or
    succeeds after its one call; it accepts no blank topic. *)
Lemma planner_outcomes prompt (input : PlannerAgent.PlanningInput) w :
  (exists e, PlannerAgent.execute prompt input w = (inl e, w))
  \/ (exists e w', PlannerAgent.execute prompt input w = (inl e, w')
                   /\ extends w w' [prompt input] [])
  \/ (exists plan w', PlannerAgent.execute prompt input w = (inr plan, w')
                      /\ extends w w' [prompt input] []
                      /\ String.length (trim (PlannerAgent.topic input)) <> 0).
Proof.
  unfold PlannerAgent.execute, PlannerAgent.validateInput, PlannerAgent.validatePlan, bind.
  destruct (throw_if_cases
              (negb (truthy (PlannerAgent.topic input))
               || (String.length (trim (PlannerAgent.topic input)) =? 0))
              "Topic is required and must be a non-empty string" w)
    as [[Hc ->] | [Hc ->]]; [left; eexists; reflexivity |].
  apply orb_false_iff in Hc as [_ Hblank]. apply Nat.eqb_neq in Hblank.
  do 3 (cbv beta iota;
        match goal with |- context [throw_if ?c ?m w] =>
          destruct (throw_if_cases c m w) as [[_ ->] | [_ ->]]; [left; eexists; reflexivity |] end).
  cbv beta iota.
  destruct (chatComplete PlannerAgent.name (prompt input) w) as [[e | r] w1] eqn:Ec;
    pose proof (chatComplete_extends Ec) as Hext.
  { right; left. eexists; eexists. split; [reflexivity | exact Hext]. }
  destruct (extractMarkdown PlannerAgent.name r w1) as [[e | m] w2] eqn:Em;
    pose proof (extractMarkdown_world _ _ _ Em) as ->.
  { right; left. eexists; eexists. split; [reflexivity | exact Hext]. }
  cbv beta iota.
  match goal with |- context [throw_if ?c ?m w1] =>
    destruct (throw_if_cases c m w1) as [[_ ->] | [_ ->]] end.
  - right; left. eexists; eexists. split; [reflexivity | exact Hext].
  - right; right. unfold ret. eexists; eexists. split; [reflexivity |]. split; assumption.
Qed.

(** The Research agent turns down a topic of fewer than five
    characters before it calls the model. *)
Lemma research_rejects prompt (input : ResearchAgent.ResearchInput) w :
  String.length (ResearchAgent.topic input) < 5 ->
  exists message,
    ResearchAgent.execute prompt input w = (inl (Error message), w)
    /\ (String.length (trim (ResearchAgent.topic input)) <> 0 ->
        message = "Topic is too short for meaningful research").
Proof.
  intros Hshort. unfold ResearchAgent.execute, ResearchAgent.validateInput, bind.
  match goal with |- context [throw_if ?c ?m w] =>
    destruct (throw_if_cases c m w) as [[Hc ->] | [Hc ->]] end.
  - eexists. split; [reflexivity |]. intros Hne.
    apply orb_true_iff in Hc as [Hc | Hc].
    + unfold truthy in Hc. rewrite negb_involutive in Hc. apply Nat.eqb_eq in Hc.
      exfalso. apply Hne.
      destruct (ResearchAgent.topic input); [reflexivity | discriminate].
    + apply Nat.eqb_eq in Hc. contradiction.
  - cbv beta iota. apply Nat.ltb_lt in Hshort. rewrite Hshort. cbn.
    eexists. split; [reflexivity |]. reflexivity.
Qed.

End StageFacts.

Module PipelineClaims.
Import Js Runtime Spec Orchestrator StageFacts ScriptingFacts.

Section Claims.

Variable createPlanningPrompt : PlannerAgent.PlanningInput -> string.
Variable createResearchPrompt : ResearchAgent.ResearchInput -> string.
Variable createOutlinePrompt : OutlineAgent.OutlineInput -> string.
Variable createScriptPrompt : ScriptAgent.ScriptInput -> string.
Variable createTonePrompt : string -> string -> string -> string.
Variable createEditingPrompt : EditorAgent.EditorInput -> string.
Variable maxConcurrentAgents : positive.

(** Without a fetched source the research stage is the Research
    agent. *)
Lemma researchStage_agent (request : Request) (plan : PlannerAgent.Plan) (w : World) :
  noFetchedSource w request ->
  researchStage createResearchPrompt request plan w
  = ResearchAgent.execute createResearchPrompt
      {| ResearchAgent.topic := topic request;
         ResearchAgent.focus := focus request;
         ResearchAgent.plan := PlannerAgent.content plan;
         ResearchAgent.chapters := PlannerAgent.planChapters plan;
         ResearchAgent.source := source request |} w.
Proof.
  unfold noFetchedSource, researchStage. intros H.
  destruct (source request) as [src |]; [| reflexivity].
  destruct H as [H | [message H]].
  - rewrite H. reflexivity.
  - destruct (truthy src); [| reflexivity].
    unfold bind at 1. unfold catch, fetchContent, bind. rewrite H. reflexivity.
Qed.

(** A source that is fetched stands for the research, whatever its
    length: no model call is made. *)
Lemma researchStage_grounded (request : Request) (plan : PlannerAgent.Plan) (w : World)
  (src : string) (document : SourceContent) :
  source request = Some src ->
  truthy src = true ->
  fetcher w src = Fetched document ->
  researchStage createResearchPrompt request plan w
  = (inr (groundedResearch document), w).
Proof.
  intros Hsrc Htruthy Hfetch. unfold researchStage. rewrite Hsrc, Htruthy.
  unfold bind at 1. unfold catch, fetchContent, bind. rewrite Hfetch. reflexivity.
Qed.

(** C5.  When the brief names a source and the fetcher returns it
    with at least 50 words, the research stage makes no model call and
    its result is the fetched title and body, verbatim, under the fixed
    preamble. *)
Theorem research_from_source (request : Request) (plan : PlannerAgent.Plan) (w : World)
  (src : string) (document : SourceContent) :
  source request = Some src ->
  truthy src = true ->
  fetcher w src = Fetched document ->
  50 <= sc_wordCount document ->
  exists research w',
    researchStage createResearchPrompt request plan w = (inr research, w')
    /\ callsBetween w w' = 0
    /\ sent w' = sent w
    /\ ResearchAgent.content research
       = "# Research Based on Source Material" +:+ nl +:+ nl
         +:+ "## Source: " +:+ sc_title document +:+ nl +:+ nl
         +:+ sc_content document.
Proof.
  intros Hsrc Htruthy Hfetch _.
  exists (groundedResearch document), w. split.
  - apply researchStage_grounded with (src := src); assumption.
  - unfold callsBetween. rewrite Nat.sub_diag. repeat split.
Qed.

(** C10, as amended.  Submission validation accepts a topic of one to
    four characters, and a job with such a topic and no fetched source
    never gets past the research stage: either the planning stage has
    failed, or the Research agent rejects the topic as too short before
    it makes a model call, so that the Planner's call is the only
    one. *)
Theorem short_topic_stops_at_research (request : Request) (w : World) :
  1 <= String.length (topic request) <= 4 ->
  noFetchedSource w request ->
  Routes.isLength 1 Routes.maxTopicLength (topic request) = true
  /\ exists e w',
       generatePodcast createPlanningPrompt createResearchPrompt createOutlinePrompt
         createScriptPrompt createTonePrompt createEditingPrompt maxConcurrentAgents
         request w = (inl e, w')
       /\ ((progress w' = progress w ++ [("planning", 1)]
            /\ callsBetween w w' <= 1)
           \/ (progress w' = progress w ++ [("planning", 1); ("research", 2)]
               /\ callsBetween w w' = 1
               /\ message_of e
                  = "Podcast generation failed: Topic is too short for meaningful research")).
Proof.
  intros [Hlo Hhi] Hsource. split.
  { unfold Routes.isLength, Routes.maxTopicLength.
    apply andb_true_iff. split; apply Nat.leb_le; lia. }
  unfold generatePodcast, catch. unfold bind at 1.
  destruct (updateProgress_extends "planning" 1 w) as [w0 [-> E0]].
  unfold bind at 1.
  destruct (planner_outcomes createPlanningPrompt (planningInput request) w0)
    as [[e ->] | [[e [w1 [-> E1]]] | [plan [w1 [-> [E1 Htopic]]]]]].
  - eexists; eexists. split; [reflexivity |]. left.
    destruct E0 as [_ _ S0 P0]. split; [exact P0 |].
    unfold callsBetween, modelCalls. rewrite S0, app_nil_r. lia.
  - eexists; eexists. split; [reflexivity |]. left.
    pose proof (extends_trans E0 E1) as [_ _ S P]. split.
    + rewrite P. reflexivity.
    + unfold callsBetween, modelCalls. rewrite S, length_app. cbn. lia.
  - unfold bind at 1.
    destruct (updateProgress_extends "research" 2 w1) as [w2 [-> E2]].
    pose proof (extends_trans (extends_trans E0 E1) E2) as [_ F S P].
    unfold bind at 1. rewrite researchStage_agent.
    2:{ unfold noFetchedSource in *. rewrite F.
        destruct (source request); [exact Hsource | exact I]. }
    match goal with |- context [ResearchAgent.execute ?p ?i w2] =>
      destruct (@research_rejects p i w2) as [message [-> Hmessage]] end.
    { cbn. lia. }
    eexists; eexists. split; [reflexivity |]. right. split; [| split].
    + rewrite P. reflexivity.
    + unfold callsBetween, modelCalls. rewrite S, length_app. cbn. lia.
    + cbn [message_of]. rewrite Hmessage; [reflexivity |]. exact Htopic.
Qed.



End Claims.


(** C10 as stated fails: a topic that is a single space passes
    submission validation, and the job fails in the planning stage; the
    research stage is never entered. *)
Lemma blank_topic_fails_at_planning :
  Routes.generateValidation Examples.blankTopic = true
  /\ String.length (topic Examples.blankTopic) = 1
  /\ source Examples.blankTopic = None
  /\ (let outcome := Examples.run Examples.blankTopic
                       (fresh Examples.stageBackend unreachable) in
      fst outcome
      = inl (AgentError
               "Podcast generation failed: Topic is required and must be a non-empty string"
               "Orchestrator")
      /\ progress (snd outcome) = [("planning", 1)]
      /\ ~ In ("research", 2) (progress (snd outcome))).
Proof.
  split; [reflexivity |]. split; [reflexivity |]. split; [reflexivity |].
  cbv zeta. split; [vm_compute; reflexivity |].
  assert (E : progress (snd (Examples.run Examples.blankTopic
                               (fresh Examples.stageBackend unreachable)))
              = [("planning", 1)]) by (vm_compute; reflexivity).
  rewrite E. split; [reflexivity |].
  intros [H | H]; [discriminate H | exact H].
Qed.

(** C9, on the code.  [extractMarkdown] records the spoken-word count
    for every agent.  For the plan, the research notes and the outline
    of the example job, which hold no dialogue line, the recorded count
    is 0, while their raw word counts are 73, 52 and 68. *)
Theorem planning_artifacts_record_spoken_words :
  exists artifacts,
    fst (Examples.run Examples.bicycle (fresh Examples.stageBackend unreachable))
    = inr artifacts
    /\ PlannerAgent.wordCount (plan artifacts) = 0
    /\ BaseAgent.countWords (PlannerAgent.content (plan artifacts)) = 73
    /\ ResearchAgent.wordCount (research artifacts) = 0
    /\ BaseAgent.countWords (ResearchAgent.content (research artifacts)) = 52
    /\ OutlineAgent.wordCount (outline artifacts) = 0
    /\ BaseAgent.countWords (OutlineAgent.outlineContent (outline artifacts)) = 68.
Proof.
  eexists. split; [vm_compute; reflexivity |].
  vm_compute. repeat split.
Qed.

(** The count that [extractMarkdown] records is the spoken-word count
    of the answer, whichever agent calls it. *)
Lemma extractMarkdown_counts_spoken (name : string) (response : Response)
  (w : World) (markdown : BaseAgent.Markdown) (w' : World) :
  extractMarkdown name response w = (inr markdown, w') ->
  BaseAgent.wordCount markdown = BaseAgent.countSpokenWords (r_content response).
Proof.
  unfold extractMarkdown. destruct (truthy (r_content response)); [| discriminate].
  intros H. injection H as <- _. reflexivity.
Qed.

End PipelineClaims.

(** ** The Editor's final validation *)

Module EditorFacts.
Import Js Runtime Spec EditorAgent.

Lemma warn_step (ok : bool) (x : warning) (w : World) :
  exists w', (if ok then ret tt else warn x) w = (inr tt, w')
             /\ sent w' = sent w
             /\ (forall y, In y (warnings w) -> In y (warnings w'))
             /\ (ok = false -> In x (warnings w')).
Proof.
  destruct ok; eexists; (split; [reflexivity |]); cbn.
  - split; [reflexivity |]. split; [auto | discriminate].
  - split; [reflexivity |]. split; intros; apply in_or_app; [left | right; left]; auto.
Qed.

Lemma warn_step' (bad : bool) (x : warning) (w : World) :
  exists w', (if bad then warn x else ret tt) w = (inr tt, w')
             /\ sent w' = sent w
             /\ (forall y, In y (warnings w) -> In y (warnings w')).
Proof.
  destruct (warn_step (negb bad) x w) as [w' [H [Hs [Hw _]]]].
  exists w'. destruct bad; cbn in H; auto.
Qed.

(** The final validation returns [true] on every script; a script that
    is not production ready leaves a warning. *)
Lemma validateFinalScript_returns (finalScript : BaseAgent.Markdown)
  (input : EditorInput) (w : World) :
  exists w',
    validateFinalScript finalScript input w = (inr true, w')
    /\ sent w' = sent w
    /\ (productionReady (BaseAgent.content finalScript) = false ->
        In NotProductionReady (warnings w')).
Proof.
  unfold validateFinalScript. cbv zeta. unfold bind at 1.
  match goal with |- context [(if ?c then ret tt else warn ?x) w] =>
    destruct (warn_step c x w) as [w1 [-> [S1 _]]] end.
  unfold bind at 1.
  match goal with |- context [(if ?c then warn ?x else ret tt) w1] =>
    destruct (warn_step' c x w1) as [w2 [-> [S2 _]]] end.
  unfold bind at 1.
  match goal with |- context [(if ?c then warn ?x else ret tt) w2] =>
    destruct (warn_step' c x w2) as [w3 [-> [S3 _]]] end.
  unfold bind at 1.
  match goal with |- context [(if ?c then warn ?x else ret tt) w3] =>
    destruct (warn_step' c x w3) as [w4 [-> [S4 _]]] end.
  unfold bind at 1.
  match goal with |- context [(if ?c then ret tt else warn ?x) w4] =>
    destruct (warn_step c x w4) as [w5 [-> [S5 [_ W5]]]] end.
  exists w5. split; [reflexivity |]. split; [congruence | exact W5].
Qed.

Lemma not_production_ready (text : string) :
  String.length text < 100 \/ includes text "TODO" = true
  \/ includes text "[INSERT" = true ->
  productionReady text = false.
Proof.
  unfold productionReady. cbn [forallb]. intros [H | [H | H]].
  - assert (E : (100 <? String.length text) = false) by (apply Nat.ltb_ge; lia).
    rewrite E. destruct (includes text "**["); reflexivity.
  - rewrite H. destruct (includes text "**["), (100 <? String.length text); reflexivity.
  - rewrite H. destruct (includes text "**["), (100 <? String.length text),
      (negb (includes text "TODO")); reflexivity.
Qed.

(** C6, as amended.  A final script shorter than 100 characters, or
    one that contains TODO or [INSERT, is reported with the warning
    that it may not be production ready; the validation returns [true]
    all the same and makes no model call, so the script is not
    rejected. *)
Theorem placeholder_script_only_warned (finalScript : BaseAgent.Markdown)
  (input : EditorInput) (w : World) :
  String.length (BaseAgent.content finalScript) < 100
  \/ includes (BaseAgent.content finalScript) "TODO" = true
  \/ includes (BaseAgent.content finalScript) "[INSERT" = true ->
  exists w',
    validateFinalScript finalScript input w = (inr true, w')
    /\ In NotProductionReady (warnings w')
    /\ sent w' = sent w.
Proof.
  intros H. destruct (validateFinalScript_returns finalScript input w) as [w' [E [S W]]].
  exists w'. split; [exact E |]. split; [| exact S].
  apply W, not_production_ready, H.
Qed.

(** C6 as stated fails: the editing stage succeeds with a final script
    that is the four characters TODO. *)
Lemma editing_succeeds_on_placeholder :
  exists final w',
    execute Examples.editingPrompt Examples.editorInput
      (fresh Examples.stageBackend unreachable) = (inr final, w')
    /\ content final = "TODO"
    /\ String.length (content final) < 100
    /\ includes (content final) "TODO" = true.
Proof.
  eexists; eexists. split; [vm_compute; reflexivity |].
  cbn. split; [reflexivity |]. split; [lia | reflexivity].
Qed.

End EditorFacts.

(** ** The word-count convergence loops *)

Module LoopFacts.
Import Js Runtime Spec.

Lemma modelCalls_calling (prompt : string) (w : World) :
  modelCalls (calling prompt w) = S (modelCalls w).
Proof. unfold modelCalls, calling. cbn. rewrite length_app. cbn. lia. Qed.

Lemma chatComplete_result (name prompt : string) (w : World) :
  (finalResponse <-- chatComplete name prompt ;; ret finalResponse) w
  = (received name (backend w (modelCalls w) prompt), calling prompt w).
Proof.
  unfold bind, chatComplete, ret.
  destruct (received name (backend w (modelCalls w) prompt)); reflexivity.
Qed.

(** When every attempt of the Scripter's loop misses the tolerance,
    the statements after the loop make one more call and return its
    answer as it comes. *)
Lemma script_attempts_all_miss (remaining : nat) :
  forall attempt prompt targetWords w,
    (forall k p, k < remaining ->
       misses ScriptAgent.tolerance targetWords (backend w (modelCalls w + k) p)) ->
    exists lastPrompt w',
      ScriptAgent.attempts remaining attempt prompt targetWords w
      = (received ScriptAgent.name (backend w (modelCalls w + remaining) lastPrompt), w')
      /\ modelCalls w' = modelCalls w + S remaining.
Proof.
  induction remaining as [| remaining IH]; intros attempt prompt targetWords w H;
    cbn [ScriptAgent.attempts].
  - exists prompt, (calling prompt w). rewrite chatComplete_result, Nat.add_0_r.
    split; [reflexivity |]. rewrite modelCalls_calling. lia.
  - destruct (H 0 prompt) as [text [Hreply Hmiss]]; [lia |].
    rewrite Nat.add_0_r in Hreply.
    unfold bind at 1. unfold chatComplete. rewrite Hreply. cbn [received r_content].
    rewrite Hmiss.
    match goal with |- context [ScriptAgent.attempts remaining ?a ?p targetWords ?w1] =>
      destruct (IH a p targetWords w1) as [lastPrompt [w' [E C]]] end.
    { intros k p Hk. rewrite modelCalls_calling. cbn [backend calling].
      replace (S (modelCalls w) + k) with (modelCalls w + S k) by lia.
      apply H. lia. }
    exists lastPrompt, w'. rewrite E, C, modelCalls_calling. cbn [backend calling].
    split; [| lia].
    replace (S (modelCalls w) + remaining) with (modelCalls w + S remaining) by lia.
    reflexivity.
Qed.

Lemma edit_attempts_all_miss (remaining : nat) :
  forall attempt prompt targetWords tolerance w,
    (forall k p, k < remaining ->
       misses (inject_Z tolerance) targetWords (backend w (modelCalls w + k) p)) ->
    exists lastPrompt w',
      EditorAgent.attempts remaining attempt prompt targetWords tolerance w
      = (received EditorAgent.name (backend w (modelCalls w + remaining) lastPrompt), w')
      /\ modelCalls w' = modelCalls w + S remaining.
Proof.
  induction remaining as [| remaining IH]; intros attempt prompt targetWords tolerance w H;
    cbn [EditorAgent.attempts].
  - exists prompt, (calling prompt w). rewrite chatComplete_result, Nat.add_0_r.
    split; [reflexivity |]. rewrite modelCalls_calling. lia.
  - destruct (H 0 prompt) as [text [Hreply Hmiss]]; [lia |].
    rewrite Nat.add_0_r in Hreply.
    unfold bind at 1. unfold chatComplete. rewrite Hreply. cbn [received r_content].
    rewrite Hmiss.
    match goal with |- context [EditorAgent.attempts remaining ?a ?p targetWords tolerance ?w1] =>
      destruct (IH a p targetWords tolerance w1) as [lastPrompt [w' [E C]]] end.
    { intros k p Hk. rewrite modelCalls_calling. cbn [backend calling].
      replace (S (modelCalls w) + k) with (modelCalls w + S k) by lia.
      apply H. lia. }
    exists lastPrompt, w'. rewrite E, C, modelCalls_calling. cbn [backend calling].
    split; [| lia].
    replace (S (modelCalls w) + remaining) with (modelCalls w + S remaining) by lia.
    reflexivity.
Qed.

(** Whenever the three attempts miss, both loops make a fourth model
    call and return what it gives. *)
Lemma three_misses_then_fourth_call (prompt : string) (targetWords tolerance : Z)
  (w : World) :
  ((forall k p, k < 3 ->
      misses ScriptAgent.tolerance targetWords (backend w (modelCalls w + k) p)) ->
   exists lastPrompt w',
     ScriptAgent.generateScriptWithWordCount prompt targetWords w
     = (received ScriptAgent.name (backend w (modelCalls w + 3) lastPrompt), w')
     /\ modelCalls w' = modelCalls w + 4)
  /\ ((forall k p, k < 3 ->
         misses (inject_Z tolerance) targetWords (backend w (modelCalls w + k) p)) ->
      exists lastPrompt w',
        EditorAgent.editForWordCount prompt targetWords tolerance w
        = (received EditorAgent.name (backend w (modelCalls w + 3) lastPrompt), w')
        /\ modelCalls w' = modelCalls w + 4).
Proof.
  split; intros H.
  - apply (@script_attempts_all_miss 3 1 prompt targetWords w H).
  - apply (@edit_attempts_all_miss 3 1 prompt targetWords tolerance w H).
Qed.

(** Each loop makes at most four model calls. *)
Lemma script_attempts_calls (remaining attempt : nat) :
  forall prompt targetWords w r w',
    ScriptAgent.attempts remaining attempt prompt targetWords w = (r, w') ->
    callsBetween w w' <= S remaining /\ modelCalls w <= modelCalls w'.
Proof.
  revert attempt. induction remaining as [| remaining IH];
    intros attempt prompt targetWords w r w' H; cbn [ScriptAgent.attempts] in H;
    unfold bind, ret in H.
  - destruct (chatComplete ScriptAgent.name prompt w) as [[e | a] w1] eqn:E;
      apply StageFacts.chatComplete_extends in E as [_ _ S _];
      injection H as <- <-; unfold callsBetween, modelCalls;
      rewrite S, length_app; cbn; lia.
  - destruct (chatComplete ScriptAgent.name prompt w) as [[e | a] w1] eqn:E;
      apply StageFacts.chatComplete_extends in E as [_ _ S _].
    + injection H as <- <-. unfold callsBetween, modelCalls.
      rewrite S, length_app; cbn; lia.
    + destruct (Qle_bool _ _).
      * injection H as <- <-. unfold callsBetween, modelCalls.
        rewrite S, length_app; cbn; lia.
      * apply IH in H. unfold callsBetween, modelCalls in *.
        apply (f_equal (@List.length string)) in S. rewrite length_app in S.
        cbn in S. lia.
Qed.

Lemma edit_attempts_calls (remaining attempt : nat) :
  forall prompt targetWords tolerance w r w',
    EditorAgent.attempts remaining attempt prompt targetWords tolerance w = (r, w') ->
    callsBetween w w' <= S remaining /\ modelCalls w <= modelCalls w'.
Proof.
  revert attempt. induction remaining as [| remaining IH];
    intros attempt prompt targetWords tolerance w r w' H; cbn [EditorAgent.attempts] in H;
    unfold bind, ret in H.
  - destruct (chatComplete EditorAgent.name prompt w) as [[e | a] w1] eqn:E;
      apply StageFacts.chatComplete_extends in E as [_ _ S _];
      injection H as <- <-; unfold callsBetween, modelCalls;
      rewrite S, length_app; cbn; lia.
  - destruct (chatComplete EditorAgent.name prompt w) as [[e | a] w1] eqn:E;
      apply StageFacts.chatComplete_extends in E as [_ _ S _].
    + injection H as <- <-. unfold callsBetween, modelCalls.
      rewrite S, length_app; cbn; lia.
    + destruct (Qle_bool _ _).
      * injection H as <- <-. unfold callsBetween, modelCalls.
        rewrite S, length_app; cbn; lia.
      * apply IH in H. unfold callsBetween, modelCalls in *.
        apply (f_equal (@List.length string)) in S. rewrite length_app in S.
        cbn in S. lia.
Qed.

(** C2, on the code.  When the three attempts of a loop all miss the
    tolerance, the statements after the loop call the model a fourth
    time and return that fourth answer, which was never measured; the
    third answer is dropped.  Here every answer has two spoken words
    for a target of 150 words at 2%, respectively of 750 words at
    5%. *)
Theorem fourth_call_after_three_misses :
  (forall k p, k < 3 ->
     misses ScriptAgent.tolerance 150 (Examples.countingBackend k p)
     /\ misses 5 750 (Examples.countingBackend k p))
  /\ (let outcome := ScriptAgent.generateScriptWithWordCount "SCRIPT" 150
                       (fresh Examples.countingBackend unreachable) in
      fst outcome = inr {| r_content := "**Host 1:** attempt 4" |}
      /\ modelCalls (snd outcome) = 4)
  /\ (let outcome := EditorAgent.editForWordCount "EDIT" 750 5
                       (fresh Examples.countingBackend unreachable) in
      fst outcome = inr {| r_content := "**Host 1:** attempt 4" |}
      /\ modelCalls (snd outcome) = 4).
Proof.
  split.
  - intros k p Hk. destruct k as [| [| [| k]]]; [| | | lia];
      (split; eexists; (split; [reflexivity | vm_compute; reflexivity])).
  - split; cbv zeta; split; vm_compute; reflexivity.
Qed.

End LoopFacts.

(** ** The accuracy classification *)

Module AccuracyFacts.
Import Js Runtime Spec Orchestrator.

Lemma Qle_bool_false_iff (x y : Q) : Qle_bool x y = false <-> (y < x)%Q.
Proof.
  split; intros H.
  - apply Qnot_le_lt. intros Hle. apply Qle_bool_iff in Hle. congruence.
  - destruct (Qle_bool x y) eqn:E; [| reflexivity].
    apply Qle_bool_iff in E. exfalso. apply (Qlt_not_le _ _ H E).
Qed.

Lemma calculateAccuracy_cases (target actual : Z) :
  let d := (deviation target actual * 100)%Q in
  (d <= 5 /\ calculateAccuracy target actual = excellent)%Q
  \/ (5 < d /\ d <= 10 /\ calculateAccuracy target actual = good)%Q
  \/ (10 < d /\ d <= 15 /\ calculateAccuracy target actual = fair)%Q
  \/ (15 < d /\ calculateAccuracy target actual = poor)%Q.
Proof.
  unfold calculateAccuracy, deviation, tolerancePercent. cbv zeta.
  set (p := (Qabs (inject_Z target - inject_Z actual) / inject_Z target * 100)%Q).
  change (inject_Z 5) with (5%Q).
  destruct (Qle_bool p 5) eqn:E1.
  { left. split; [| reflexivity]. apply Qle_bool_iff in E1. exact E1. }
  apply Qle_bool_false_iff in E1.
  destruct (Qle_bool p (5 * 2)) eqn:E2.
  { right; left. apply Qle_bool_iff in E2. split; [exact E1 |]. split; [lra | reflexivity]. }
  apply Qle_bool_false_iff in E2.
  destruct (Qle_bool p (5 * 3)) eqn:E3.
  { right; right; left. apply Qle_bool_iff in E3. split; [lra |]. split; [lra | reflexivity]. }
  apply Qle_bool_false_iff in E3.
  right; right; right. split; [lra | reflexivity].
Qed.

(** C4, as amended.  For a positive target the accuracy recorded in
    the metadata of a completed job is excellent when the deviation
    d = |target - actual| / target is at most 5%, good when
    5% < d <= 10%, fair when 10% < d <= 15% (three times the tolerance
    of 5%), and poor otherwise. *)
Theorem calculateAccuracy_grades (target actual : Z) :
  (0 < target)%Z ->
  let d := deviation target actual in
  (calculateAccuracy target actual = excellent <-> d <= 5 # 100)%Q
  /\ (calculateAccuracy target actual = good <-> 5 # 100 < d /\ d <= 10 # 100)%Q
  /\ (calculateAccuracy target actual = fair <-> 10 # 100 < d /\ d <= 15 # 100)%Q
  /\ (calculateAccuracy target actual = poor <-> 15 # 100 < d)%Q.
Proof.
  intros _. cbv zeta.
  pose proof (calculateAccuracy_cases target actual) as H. cbv zeta in H.
  set (d := deviation target actual) in *.
  destruct H as [[H ->] | [[H1 [H2 ->]] | [[H1 [H2 ->]] | [H ->]]]];
    repeat split; intros; try discriminate; try reflexivity; try lra;
    repeat match goal with H : _ /\ _ |- _ => destruct H end; lra.
Qed.

(** C4 as stated fails: at a deviation of 18%, between 10% and 20%,
    the grade is poor and not fair. *)
Lemma eighteen_percent_is_poor :
  (deviation 100 82 == 18 # 100)%Q
  /\ (10 # 100 < deviation 100 82)%Q
  /\ (deviation 100 82 <= 20 # 100)%Q
  /\ calculateAccuracy 100 82 = poor
  /\ calculateAccuracy 100 82 <> fair.
Proof.
  vm_compute. repeat split; discriminate.
Qed.

End AccuracyFacts.

(** ** The job registry *)

Module RegistryFacts.
Import Controller RegistryExamples.

(** C8 as stated fails.  Cancelling a completed job answers with an
    error that does not report the state; cancelling a cancelled job
    stamps a new completion time on it. *)
Lemma cancel_counterexample :
  (let (response, after) := cancelGeneration "job-1" later registry in
   registry !! "job-1" = Some finishedJob
   /\ terminal (state finishedJob) = true
   /\ field "status" (body response) <> Some (status_name (state finishedJob)))
  /\
  (let (response, after) := cancelGeneration "job-2" later registry in
   registry !! "job-2" = Some cancelledJob
   /\ terminal (state cancelledJob) = true
   /\ (completedAt <$> after !! "job-2") <> Some (completedAt cancelledJob)).
Proof.
  split.
  - vm_compute. repeat split; congruence.
  - vm_compute. repeat split; congruence.
Qed.

(** C8, as amended.  Cancelling a job that is completed or failed
    changes nothing in the registry and is answered with status 400 and
    the error [Cannot cancel completed generation], not with the state
    of the job.  Cancelling a job that is already cancelled leaves it
    cancelled, leaves every other job as it is, and is answered with
    status 200 and the state [cancelled]. *)
Theorem cancel_on_terminal (id now : string) (gens : gmap string Generation)
  (g : Generation) :
  gens !! id = Some g ->
  terminal (state g) = true ->
  (state g <> cancelled ->
     cancelGeneration id now gens =
       ({| code := 400;
           body := [("error", "Cannot cancel completed generation");
                    ("message", "Generation is already completed or failed")] |},
        gens))
  /\ (state g = cancelled ->
        let (response, after) := cancelGeneration id now gens in
        code response = 200
        /\ field "status" (body response) = Some (status_name (state g))
        /\ (state <$> after !! id) = Some (state g)
        /\ forall other, other <> id -> after !! other = gens !! other).
Proof.
  intros Hg Hterm. unfold cancelGeneration. rewrite Hg. split.
  - intros Hnc. destruct (state g); try discriminate; try reflexivity. congruence.
  - intros Hc. rewrite Hc. cbn. split; [reflexivity |]. split; [reflexivity |]. split.
    + rewrite lookup_insert_eq. reflexivity.
    + intros other Hne. rewrite lookup_insert_ne by congruence. reflexivity.
Qed.
End RegistryFacts.

(** ** The retry loop of the chat backend *)

Module RetryFacts.
Import Js AzureOpenAIService.

Section Facts.
Variable client : nat -> outcome.
Variable random : nat -> Q.
Hypothesis random_range : forall n, (0 <= random n /\ random n < 1)%Q.

Ltac step n :=
  let c := fresh "c" in let s := fresh "s" in let m := fresh "m" in
  let E := fresh "E" in let T := fresh "T" in let D := fresh "D" in
  destruct (client n) as [c | s m] eqn:E;
  [ destruct (truthy c) eqn:T | destruct (dontRetry s) eqn:D ].

Ltac use_client :=
  repeat match goal with
  | H1 : client ?n = _, H2 : client ?n = _ |- _ =>
      rewrite H1 in H2; first [discriminate H2 | injection H2 as ? ?; subst]
  end.

(** C7.  A chat completion is attempted at most three times, the
    attempts being numbered 1, 2, 3.  Every attempt after the first
    comes right after the previous attempt and a pause; the pause
    after attempt [n] lasts 1000 * 2^(n-1) milliseconds plus 1000 times
    a random value in [0, 1), and attempt [n + 1] follows it.  A
    failure with status 400, 401 or 403 is not retried; any other
    failure of an attempt before the third is retried. *)
Theorem retry_policy (isInitialized : bool) :
  let (outcome, trace) := getChatCompletion client random isInitialized in
  (exists k, k <= 3 /\ attempts trace = List.seq 1 k)
  /\ (forall i n d,
        nth_error trace i = Some (Attempt n) ->
        nth_error trace (S i) = Some (Sleep d) ->
        (exists r, (0 <= r /\ r < 1 /\ d == 1000 * pow2 (n - 1) + r * 1000)%Q)
        /\ nth_error trace (S (S i)) = Some (Attempt (S n)))
  /\ (forall i n,
        nth_error trace i = Some (Attempt (S (S n))) ->
        exists j d,
          i = S (S j)
          /\ nth_error trace j = Some (Attempt (S n))
          /\ nth_error trace (S j) = Some (Sleep d))
  /\ (forall n s m,
        In n (attempts trace) -> client n = Thrown s m -> dontRetry s = true ->
        ~ In (S n) (attempts trace))
  /\ (forall n s m,
        In n (attempts trace) -> n < 3 -> failure client n = Some (s, m) ->
        dontRetry s = false -> In (S n) (attempts trace)).
Proof.
  destruct isInitialized.
  2:{ cbn. split; [exists 0; split; [lia | reflexivity] |].
      split; [intros [| i] n d H; discriminate H |].
      split; [intros [| i] n H; discriminate H |].
      split; intros n s m H; destruct H. }
  unfold getChatCompletion, maxRetries, failure. cbn [loop].
  step 1; cbn [Nat.ltb Nat.leb Nat.sub app]; cbv beta iota;
  try (step 2; cbn [Nat.ltb Nat.leb Nat.sub app]; cbv beta iota;
       try (step 3; cbn [Nat.ltb Nat.leb Nat.sub app]; cbv beta iota)).
  all: (split; [ first [ exists 1; split; [lia | reflexivity]
                       | exists 2; split; [lia | reflexivity]
                       | exists 3; split; [lia | reflexivity] ] | ]).
  all: (split; [ intros i n d H1 H2;
                 do 6 (try destruct i as [| i]); cbn in H1, H2; try discriminate;
                 injection H1 as <-; injection H2 as <-;
                 (split; [ eexists; split; [ apply random_range
                                           | split; [ apply random_range
                                                    | apply Qeq_refl ] ]
                         | reflexivity ]) | ]).
  all: (split; [ intros i n H1;
                 do 6 (try destruct i as [| i]); cbn in H1; try discriminate;
                 injection H1 as <-;
                 eexists; eexists; (split; [reflexivity | split; reflexivity]) | ]).
  all: (split; [ intros n s' m' Hin Hc Hd; cbn in Hin |- *;
                 intuition (subst; use_client; try congruence; try lia)
               | intros n s' m' Hin Hlt Hf Hd; cbn in Hin |- *;
                 intuition (subst; try lia);
                 repeat match goal with
                 | H : client ?n = _, H' : context [client ?n] |- _ => rewrite H in H'
                 | H : truthy ?c = _, H' : context [truthy ?c] |- _ => rewrite H in H'
                 end;
                 try discriminate;
                 try (injection Hf as ? ?; subst; congruence) ]).
Qed.
End Facts.
End RetryFacts.

(** ** The theorems at concrete inputs *)

Module Witnesses.
Import Js Runtime Spec.


Lemma calculateAccuracy_grades_witness :
  (0 < 750)%Z
  /\ (Orchestrator.calculateAccuracy 750 760 = excellent
      <-> (deviation 750 760 <= 5 # 100)%Q).
Proof.
  assert (H : (0 < 750)%Z) by lia.
  split; [exact H |].
  exact (proj1 (@AccuracyFacts.calculateAccuracy_grades 750 760 H)).
Defined.

Lemma research_from_source_witness :
  Orchestrator.source Examples.grounded = Some "notes/bicycle.md"
  /\ truthy "notes/bicycle.md" = true
  /\ fetcher (fresh Examples.stageBackend Examples.notesFetcher) "notes/bicycle.md"
     = Fetched Examples.bicycleNotes
  /\ 50 <= sc_wordCount Examples.bicycleNotes
  /\ exists research w',
       Orchestrator.researchStage Examples.researchPrompt Examples.grounded
         Examples.bicyclePlan (fresh Examples.stageBackend Examples.notesFetcher)
       = (inr research, w')
       /\ callsBetween (fresh Examples.stageBackend Examples.notesFetcher) w' = 0.
Proof.
  assert (H1 : Orchestrator.source Examples.grounded = Some "notes/bicycle.md")
    by reflexivity.
  assert (H2 : truthy "notes/bicycle.md" = true) by reflexivity.
  assert (H3 : fetcher (fresh Examples.stageBackend Examples.notesFetcher)
                 "notes/bicycle.md" = Fetched Examples.bicycleNotes) by reflexivity.
  assert (H4 : 50 <= sc_wordCount Examples.bicycleNotes) by (cbn; lia).
  split; [exact H1 |]. split; [exact H2 |]. split; [exact H3 |]. split; [exact H4 |].
  destruct (@PipelineClaims.research_from_source Examples.researchPrompt
              Examples.grounded Examples.bicyclePlan
              (fresh Examples.stageBackend Examples.notesFetcher)
              "notes/bicycle.md" Examples.bicycleNotes H1 H2 H3 H4)
    as [research [w' [E [C _]]]].
  exists research, w'. split; [exact E | exact C].
Defined.

Lemma placeholder_script_only_warned_witness :
  String.length (BaseAgent.content Examples.placeholderScript) < 100
  /\ exists w',
       EditorAgent.validateFinalScript Examples.placeholderScript Examples.editorInput
         (fresh Examples.stageBackend unreachable) = (inr true, w')
       /\ In NotProductionReady (warnings w').
Proof.
  assert (H : String.length (BaseAgent.content Examples.placeholderScript) < 100)
    by (cbn; lia).
  split; [exact H |].
  destruct (@EditorFacts.placeholder_script_only_warned Examples.placeholderScript
              Examples.editorInput (fresh Examples.stageBackend unreachable)
              (or_introl H))
    as [w' [E [W _]]].
  exists w'. split; [exact E | exact W].
Defined.

Lemma retry_policy_witness :
  (forall n, (0 <= Examples.halfRandom n /\ Examples.halfRandom n < 1)%Q)
  /\ exists k, k <= 3
       /\ AzureOpenAIService.attempts
            (snd (AzureOpenAIService.getChatCompletion Examples.flakyClient
                    Examples.halfRandom true))
          = List.seq 1 k.
Proof.
  assert (H : forall n, (0 <= Examples.halfRandom n /\ Examples.halfRandom n < 1)%Q).
  { intros n. unfold Examples.halfRandom. split; [discriminate | reflexivity]. }
  split; [exact H |].
  pose proof (@RetryFacts.retry_policy Examples.flakyClient Examples.halfRandom H true) as P.
  destruct (AzureOpenAIService.getChatCompletion Examples.flakyClient
              Examples.halfRandom true) as [outcome trace].
  exact (proj1 P).
Defined.

Lemma cancel_on_terminal_witness :
  RegistryExamples.registry !! "job-1" = Some RegistryExamples.finishedJob
  /\ Controller.terminal (Controller.state RegistryExamples.finishedJob) = true
  /\ (Controller.state RegistryExamples.finishedJob <> Controller.cancelled ->
      snd (Controller.cancelGeneration "job-1" RegistryExamples.later
             RegistryExamples.registry)
      = RegistryExamples.registry).
Proof.
  assert (H1 : RegistryExamples.registry !! "job-1" = Some RegistryExamples.finishedJob)
    by (vm_compute; reflexivity).
  assert (H2 : Controller.terminal (Controller.state RegistryExamples.finishedJob) = true)
    by reflexivity.
  split; [exact H1 |]. split; [exact H2 |].
  intros Hnc.
  rewrite (proj1 (@RegistryFacts.cancel_on_terminal "job-1" RegistryExamples.later
                    RegistryExamples.registry RegistryExamples.finishedJob H1 H2) Hnc).
  reflexivity.
Defined.

Lemma short_topic_stops_at_research_witness :
  1 <= String.length (Orchestrator.topic Examples.shortTopic) <= 4
  /\ noFetchedSource (fresh Examples.stageBackend unreachable) Examples.shortTopic
  /\ exists e w',
       Examples.run Examples.shortTopic (fresh Examples.stageBackend unreachable)
       = (inl e, w')
       /\ ((progress w' = [("planning", 1)]
            /\ callsBetween (fresh Examples.stageBackend unreachable) w' <= 1)
           \/ (progress w' = [("planning", 1); ("research", 2)]
               /\ callsBetween (fresh Examples.stageBackend unreachable) w' = 1
               /\ message_of e
                  = "Podcast generation failed: Topic is too short for meaningful research")).
Proof.
  assert (H1 : 1 <= String.length (Orchestrator.topic Examples.shortTopic) <= 4)
    by (cbn; lia).
  assert (H2 : noFetchedSource (fresh Examples.stageBackend unreachable)
                 Examples.shortTopic) by exact I.
  split; [exact H1 |]. split; [exact H2 |].
  exact (proj2
    (@PipelineClaims.short_topic_stops_at_research Examples.planningPrompt
       Examples.researchPrompt Examples.outlinePrompt Examples.scriptPrompt
       Examples.tonePrompt Examples.editingPrompt 5 Examples.shortTopic
       (fresh Examples.stageBackend unreachable) H1 H2)).
Defined.

End Witnesses.

(** * Further properties *)

(** ** Rounding of whole numbers *)

Module RoundingFacts.
Import Js.

Lemma js_round_Z (z : Z) : js_round (inject_Z z) = z.
Proof.
  unfold js_round, Qfloor. cbn.
  change (Z.pos (1 * 2)) with 2%Z.
  symmetry. apply (Z.div_unique _ _ _ 1); lia.
Qed.

Lemma js_round_eq (q : Q) (z : Z) : (q == inject_Z z)%Q -> js_round q = z.
Proof.
  intros H. unfold js_round. rewrite H. apply js_round_Z.
Qed.

Lemma js_round_mult (a b : Z) : js_round (inject_Z a * inject_Z b) = (a * b)%Z.
Proof. apply js_round_eq. rewrite inject_Z_mult. reflexivity. Qed.

Lemma js_round_quot (a b : Z) : (b <> 0)%Z -> js_round (inject_Z (a * b) / inject_Z b) = a.
Proof.
  intros Hb. apply js_round_eq. rewrite inject_Z_mult. field.
  intros H. apply Hb. apply (inject_Z_injective b 0). exact H.
Qed.

End RoundingFacts.

(** ** What a stage does to the world *)

Module StageLaws.
Import Js Runtime Spec Laws Orchestrator StageFacts ScriptingFacts.

Lemma stage_ret {A : Type} (a : A) : stage (ret a) 0 0.
Proof.
  intros w r w' H. injection H as <- <-. repeat split; try lia.
Qed.

Lemma stage_throw {A : Type} (e : error) : stage (@throw A e) 0 0.
Proof.
  intros w r w' H. injection H as <- <-. repeat split; try lia; try (intros a Ha; discriminate).
Qed.

Lemma stage_weaken {A : Type} (m : M A) (lo hi lo' hi' : nat) :
  stage m lo hi -> lo' <= lo -> hi <= hi' -> stage m lo' hi'.
Proof.
  intros H Hlo Hhi w r w' E. destruct (H w r w' E) as (B & F & P & C1 & C2 & C3).
  repeat split; try assumption; try lia. intros a Ha. specialize (C3 a Ha). lia.
Qed.

Lemma stage_bind {A B : Type} (m : M A) (k : A -> M B) (lo1 hi1 lo2 hi2 : nat) :
  stage m lo1 hi1 -> (forall a, stage (k a) lo2 hi2) ->
  stage (bind m k) (lo1 + lo2) (hi1 + hi2).
Proof.
  intros Hm Hk w r w' E. unfold bind in E.
  destruct (m w) as [[e | a] w1] eqn:Em;
    destruct (Hm _ _ _ Em) as (B1 & F1 & P1 & C1 & C2 & C3).
  - injection E as <- <-. repeat split; try assumption; try lia;
      try (intros a Ha; discriminate).
  - destruct (Hk a _ _ _ E) as (B2 & F2 & P2 & D1 & D2 & D3).
    specialize (C3 a eq_refl).
    repeat split; try congruence; try lia.
    intros b Hb. specialize (D3 b Hb). lia.
Qed.

Lemma stage_catch {A : Type} (m : M A) (handler : error -> M A) (lo hi hi2 : nat) :
  stage m lo hi -> (forall e, stage (handler e) lo hi2) ->
  stage (catch m handler) lo (hi + hi2).
Proof.
  intros Hm Hh w r w' E. unfold catch in E.
  destruct (m w) as [[e | a] w1] eqn:Em;
    destruct (Hm _ _ _ Em) as (B1 & F1 & P1 & C1 & C2 & C3).
  - destruct (Hh e _ _ _ E) as (B2 & F2 & P2 & D1 & D2 & D3).
    repeat split; try congruence; try lia.
    intros b Hb. specialize (D3 b Hb). lia.
  - injection E as <- <-. repeat split; try assumption; try lia;
      try (intros b Hb; injection Hb as <-; apply C3; reflexivity).
Qed.

Lemma stage_throw_if (cond : bool) (message : string) : stage (throw_if cond message) 0 0.
Proof. destruct cond; [apply stage_throw | apply stage_ret]. Qed.

Lemma stage_warn (x : warning) : stage (warn x) 0 0.
Proof.
  intros w r w' H. injection H as <- <-. unfold modelCalls. cbn. repeat split; try lia.
Qed.

Lemma stage_chatComplete (name prompt : string) : stage (chatComplete name prompt) 1 1.
Proof.
  intros w r w' H. unfold chatComplete in H. injection H as <- <-.
  rewrite LoopFacts.modelCalls_calling. cbn. repeat split; try lia.
Qed.

Lemma stage_extractMarkdown (name : string) (response : Response) :
  stage (extractMarkdown name response) 0 0.
Proof.
  unfold extractMarkdown. destruct (truthy _); [apply stage_ret | apply stage_throw].
Qed.

Lemma stage_fetchContent (source : string) : stage (fetchContent source) 0 0.
Proof.
  intros w r w' H. unfold fetchContent in H.
  destruct (fetcher w source); injection H as <- <-; repeat split; try lia;
    try (intros a Ha; discriminate).
Qed.

Lemma stage_ext {A : Type} (m m' : M A) (lo hi : nat) :
  (forall w, m w = m' w) -> stage m' lo hi -> stage m lo hi.
Proof. intros E H w r w' Hm. rewrite E in Hm. exact (H _ _ _ Hm). Qed.

(** Builds the bounds of a sequence of steps. *)
Ltac stage_with known :=
  repeat first
    [ known
    | apply stage_ret
    | apply stage_throw
    | apply stage_throw_if
    | apply stage_warn
    | apply stage_chatComplete
    | apply stage_extractMarkdown
    | apply stage_fetchContent
    | eapply stage_bind; [| intros ? ]
    | match goal with |- stage (if ?c then _ else _) _ _ => destruct c end
    | match goal with |- stage (match ?x with _ => _ end) _ _ => destruct x end ].

Ltac stage_steps := stage_with fail.

Lemma stage_planner prompt input : stage (PlannerAgent.execute prompt input) 1 1.
Proof.
  unfold PlannerAgent.execute, PlannerAgent.validateInput, PlannerAgent.validatePlan.
  eapply stage_weaken; [stage_steps | cbn; lia | cbn; lia].
Qed.

Lemma stage_research prompt input : stage (ResearchAgent.execute prompt input) 1 1.
Proof.
  unfold ResearchAgent.execute, ResearchAgent.validateInput, ResearchAgent.validateResearch.
  eapply stage_weaken; [stage_steps | cbn; lia | cbn; lia].
Qed.

Lemma stage_outline prompt input : stage (OutlineAgent.execute prompt input) 1 1.
Proof.
  unfold OutlineAgent.execute, OutlineAgent.validateInput, OutlineAgent.validateOutline.
  eapply stage_weaken; [stage_steps | cbn; lia | cbn; lia].
Qed.

Lemma stage_script_attempts (remaining : nat) :
  forall attempt prompt targetWords,
    stage (ScriptAgent.attempts remaining attempt prompt targetWords) 1 (S remaining).
Proof.
  induction remaining as [| remaining IH]; intros attempt prompt targetWords;
    cbn [ScriptAgent.attempts].
  - eapply stage_weaken; [stage_steps | cbn; lia | cbn; lia].
  - eapply stage_weaken;
      [ eapply stage_bind with (lo2 := 0) (hi2 := S remaining);
        [apply stage_chatComplete | intros response] | cbn; lia | cbn; lia ].
    destruct (Qle_bool _ _).
    + eapply stage_weaken; [apply stage_ret | lia | lia].
    + eapply stage_weaken; [apply IH | lia | lia].
Qed.

Lemma stage_edit_attempts (remaining : nat) :
  forall attempt prompt targetWords tolerance,
    stage (EditorAgent.attempts remaining attempt prompt targetWords tolerance) 1 (S remaining).
Proof.
  induction remaining as [| remaining IH]; intros attempt prompt targetWords tolerance;
    cbn [EditorAgent.attempts].
  - eapply stage_weaken; [stage_steps | cbn; lia | cbn; lia].
  - eapply stage_weaken;
      [ eapply stage_bind with (lo2 := 0) (hi2 := S remaining);
        [apply stage_chatComplete | intros response] | cbn; lia | cbn; lia ].
    destruct (Qle_bool _ _).
    + eapply stage_weaken; [apply stage_ret | lia | lia].
    + eapply stage_weaken; [apply IH | lia | lia].
Qed.

Lemma stage_scripter prompt input : stage (ScriptAgent.execute prompt input) 1 4.
Proof.
  unfold ScriptAgent.execute, ScriptAgent.validateInput,
    ScriptAgent.generateScriptWithWordCount, ScriptAgent.maxAttempts.
  eapply stage_weaken;
    [ stage_with ltac:(apply stage_script_attempts)
    | cbn; lia | cbn; lia ].
Qed.

Lemma stage_validateFinalScript finalScript input :
  stage (EditorAgent.validateFinalScript finalScript input) 0 0.
Proof.
  unfold EditorAgent.validateFinalScript.
  eapply stage_weaken; [stage_steps | cbn; lia | cbn; lia].
Qed.

Lemma stage_editor prompt input : stage (EditorAgent.execute prompt input) 1 4.
Proof.
  unfold EditorAgent.execute, EditorAgent.validateInput, EditorAgent.editForWordCount,
    EditorAgent.maxAttempts.
  eapply stage_weaken;
    [ stage_with ltac:(first [ apply stage_edit_attempts
                             | apply stage_validateFinalScript ])
    | cbn; lia | cbn; lia ].
Qed.

Lemma stage_check_contents (l : list string) :
  forall index, stage (ToneAgent.check_contents index l) 0 0.
Proof.
  induction l as [| c l IH]; intros index; cbn [ToneAgent.check_contents].
  - apply stage_ret.
  - eapply stage_weaken;
      [ eapply stage_bind; [apply stage_throw_if | intros _; apply IH] | cbn; lia | cbn; lia ].
Qed.

Lemma stage_tone prompt input : stage (ToneAgent.execute prompt input) 1 1.
Proof.
  unfold ToneAgent.execute, ToneAgent.validateInput, ToneAgent.validateToneEnhancement.
  eapply stage_weaken;
    [ stage_with ltac:(apply stage_check_contents)
    | cbn; lia | cbn; lia ].
Qed.

Lemma stage_mapM_from {A B : Type} (f : A -> nat -> M B) (lo hi : nat) :
  (forall a i, stage (f a i) lo hi) ->
  forall l i, stage (mapM_from f i l) (lo * List.length l) (hi * List.length l).
Proof.
  intros Hf l. induction l as [| a l IH]; intros i; cbn [mapM_from List.length].
  - rewrite !Nat.mul_0_r. apply stage_ret.
  - eapply stage_weaken;
      [ eapply stage_bind; [apply Hf | intros b];
        eapply stage_bind; [apply IH | intros bs; apply stage_ret]
      | lia | lia ].
Qed.

Lemma stage_generateScriptsWith maxC scripter outline input (lo hi : nat) :
  (forall i, stage (scripter i) lo hi) ->
  stage (generateScriptsWith maxC scripter outline input)
    (lo * List.length (OutlineAgent.sections outline))
    (hi * List.length (OutlineAgent.sections outline)).
Proof.
  intros Hs. unfold generateScriptsWith.
  eapply stage_weaken;
    [ eapply stage_bind; [apply stage_throw_if | intros _];
      eapply stage_ext; [intros w; apply runBatches_mapM |];
      unfold mapM; apply stage_mapM_from; intros a i; apply Hs
    | |].
  - change (flat_map _ (createBatches (OutlineAgent.sections outline) maxC))
      with (scriptInputs maxC outline input).
    rewrite scriptInputs_length. lia.
  - change (flat_map _ (createBatches (OutlineAgent.sections outline) maxC))
      with (scriptInputs maxC outline input).
    rewrite scriptInputs_length. lia.
Qed.

Lemma stage_researchStage prompt request plan :
  stage (researchStage prompt request plan) 0 1.
Proof.
  unfold researchStage.
  eapply stage_weaken;
    [ eapply stage_bind with (lo1 := 0) (hi1 := 0) (lo2 := 0) (hi2 := 1) | lia | lia ].
  - destruct (source request) as [src |]; [| apply stage_ret].
    destruct (truthy src); [| apply stage_ret].
    apply (@stage_catch _ _ _ 0 0 0).
    + eapply stage_weaken; [stage_steps | cbn; lia | cbn; lia].
    + intros e. apply stage_ret.
  - intros [sourceContent |].
    + eapply stage_weaken; [apply stage_ret | lia | lia].
    + eapply stage_weaken; [apply stage_research | lia | lia].
Qed.

End StageLaws.

(** ** A job from its first step to its last *)

Module PipelineLaws.
Import Js Runtime Spec Laws Orchestrator StageFacts ScriptingFacts StageLaws RoundingFacts.

(** A progress report adds one entry and nothing else. *)
Lemma updateProgress_world step completed w :
  exists w', updateProgress step completed w = (inr tt, w')
             /\ backend w' = backend w /\ fetcher w' = fetcher w
             /\ modelCalls w' = modelCalls w
             /\ progress w' = progress w ++ [(step, completed)].
Proof. eexists. split; [reflexivity |]. repeat split. Qed.

Lemma stage_scripts prompt maxC outline input :
  stage (generateScriptsInParallel prompt maxC outline input)
    (List.length (OutlineAgent.sections outline))
    (4 * List.length (OutlineAgent.sections outline)).
Proof.
  unfold generateScriptsInParallel.
  eapply stage_weaken;
    [ apply stage_generateScriptsWith with (lo := 1) (hi := 4); intros i; apply stage_scripter
    | lia | lia ].
Qed.

(** What the input guards of the agents let through. *)
Lemma planner_accepts prompt input w plan w' :
  PlannerAgent.execute prompt input w = (inr plan, w') ->
  String.length (trim (PlannerAgent.topic input)) <> 0
  /\ (1 <= PlannerAgent.chapters input <= 10)%Z
  /\ (1 <= PlannerAgent.durationMin input <= 120)%Z
  /\ (50 <= PlannerAgent.targetWords input)%Z.
Proof.
  unfold PlannerAgent.execute, PlannerAgent.validateInput, bind.
  repeat match goal with
         | |- context [throw_if ?c ?m w] =>
             destruct (throw_if_cases c m w) as [[_ ->] | [? ->]]; [discriminate |];
             cbv beta iota
         end.
  intros _.
  repeat match goal with
         | H : _ || _ = false |- _ => apply orb_false_iff in H; destruct H
         end.
  repeat match goal with
         | H : (_ =? _) = false |- _ => apply Nat.eqb_neq in H
         | H : (_ <? _)%Z = false |- _ => apply Z.ltb_ge in H
         end.
  repeat split; assumption.
Qed.

Lemma scripter_accepts prompt input w script w' :
  ScriptAgent.execute prompt input w = (inr script, w') ->
  String.length (trim (ScriptAgent.section input)) <> 0
  /\ (50 <= ScriptAgent.targetWords input <= 2000)%Z
  /\ (1 <= ScriptAgent.chapterNumber input <= 20)%Z.
Proof.
  unfold ScriptAgent.execute, ScriptAgent.validateInput, bind.
  repeat match goal with
         | |- context [throw_if ?c ?m w] =>
             destruct (throw_if_cases c m w) as [[_ ->] | [? ->]]; [discriminate |];
             cbv beta iota
         end.
  intros _.
  repeat match goal with
         | H : _ || _ = false |- _ => apply orb_false_iff in H; destruct H
         end.
  repeat match goal with
         | H : (_ =? _) = false |- _ => apply Nat.eqb_neq in H
         | H : (_ <? _)%Z = false |- _ => apply Z.ltb_ge in H
         end.
  repeat split; assumption.
Qed.

Lemma editor_accepts prompt input w final w' :
  EditorAgent.execute prompt input w = (inr final, w') ->
  String.length (trim (EditorAgent.script input)) <> 0
  /\ (50 <= EditorAgent.targetWords input <= 5000)%Z
  /\ (0 <= EditorAgent.tolerance input <= 10)%Z.
Proof.
  unfold EditorAgent.execute, EditorAgent.validateInput, bind.
  repeat match goal with
         | |- context [throw_if ?c ?m w] =>
             destruct (throw_if_cases c m w) as [[_ ->] | [? ->]]; [discriminate |];
             cbv beta iota
         end.
  intros _.
  repeat match goal with
         | H : _ || _ = false |- _ => apply orb_false_iff in H; destruct H
         end.
  repeat match goal with
         | H : (_ =? _) = false |- _ => apply Nat.eqb_neq in H
         | H : (_ <? _)%Z = false |- _ => apply Z.ltb_ge in H
         end.
  repeat split; assumption.
Qed.

Lemma tone_accepts prompt input w tone w' :
  ToneAgent.execute prompt input w = (inr tone, w') ->
  ToneAgent.scripts input <> [] /\ ToneAgent.utterances tone <> [].
Proof.
  unfold ToneAgent.execute, ToneAgent.validateInput, ToneAgent.validateToneEnhancement, bind.
  destruct (ToneAgent.scripts input) as [| c l] eqn:El; [discriminate |].
  cbn [is_nil throw_if ret].
  destruct (throw_if _ _ w) as [[e | u] w1]; [discriminate |].
  destruct (throw_if _ _ w1) as [[e | u1] w2]; [discriminate |].
  destruct (ToneAgent.check_contents 0 (c :: l) w2) as [[e | u2] w3]; [discriminate |].
  destruct (chatComplete _ _ w3) as [[e | r] w4]; [discriminate |].
  destruct (extractMarkdown _ r w4) as [[e | m] w5]; [discriminate |].
  destruct (ToneAgent.parseUtterances (BaseAgent.content m)) as [| u3 us] eqn:Eu;
    [discriminate |].
  cbn [is_nil throw_if ret]. unfold ret. intros H. injection H as <- _.
  cbn. split; discriminate.
Qed.

Lemma mapM_Forall {A B : Type} (f : A -> M B) (P : A -> Prop) :
  (forall a w b w', f a w = (inr b, w') -> P a) ->
  forall l w bs w', mapM f l w = (inr bs, w') -> Forall P l.
Proof.
  intros Hf l w bs w' H.
  pose proof (@mapM_Forall2 _ _ f (fun a _ => P a) Hf l w bs w' H) as H2.
  clear H. induction H2 as [| a b l bs Hab _ IH]; constructor; [exact Hab | exact IH].
Qed.

(** A run of the scripting stage is a run of the Scripter over the
    inputs of all the sections. *)
Lemma scripts_run prompt maxC outline input w :
  OutlineAgent.sections outline <> [] ->
  generateScriptsInParallel prompt maxC outline input w
  = mapM (ScriptAgent.execute prompt) (scriptInputs maxC outline input) w.
Proof.
  intros Hne. unfold generateScriptsInParallel, generateScriptsWith, bind.
  destruct (OutlineAgent.sections outline) as [| s l] eqn:E; [contradiction |].
  cbn [is_nil throw_if ret]. rewrite runBatches_mapM.
  unfold scriptInputs. rewrite E. reflexivity.
Qed.

Lemma scripts_accepts prompt maxC outline input w scripts w' :
  generateScriptsInParallel prompt maxC outline input w = (inr scripts, w') ->
  OutlineAgent.sections outline <> []
  /\ List.length scripts = List.length (OutlineAgent.sections outline)
  /\ (50 <= sectionTarget outline input <= 2000)%Z
  /\ Forall (fun s => String.length (trim (OutlineAgent.content s)) <> 0)
       (OutlineAgent.sections outline).
Proof.
  intros H.
  assert (Hne : OutlineAgent.sections outline <> []).
  { intros E. unfold generateScriptsInParallel, generateScriptsWith, bind in H.
    rewrite E in H. discriminate. }
  split; [exact Hne |].
  rewrite scripts_run in H by exact Hne.
  split; [rewrite (mapM_length _ _ _ H); apply scriptInputs_length |].
  pose proof (@mapM_Forall _ _ (ScriptAgent.execute prompt)
                (fun i => String.length (trim (ScriptAgent.section i)) <> 0
                          /\ (50 <= ScriptAgent.targetWords i <= 2000)%Z)
                (fun a w0 b w0' E => let '(conj A (conj B _)) := scripter_accepts _ _ _ E in
                                     conj A B)
                _ _ _ _ H) as Hall.
  split.
  - pose proof (scriptInputs_target maxC outline input) as Ht.
    pose proof (scriptInputs_length maxC outline input) as Hl.
    destruct (scriptInputs maxC outline input) as [| i l].
    + destruct (OutlineAgent.sections outline); [contradiction | discriminate].
    + inversion Hall as [| ? ? [_ Hi] _]; subst. inversion Ht as [| ? ? Hti _]; subst.
      rewrite <- Hti. exact Hi.
  - assert (Hs : forall c, In c (map ScriptAgent.section (scriptInputs maxC outline input)) ->
                            String.length (trim c) <> 0).
    { intros c Hc. apply in_map_iff in Hc as [i [<- Hi]].
      rewrite List.Forall_forall in Hall. apply (Hall i Hi). }
    rewrite scriptInputs_sections in Hs.
    apply List.Forall_forall. intros s Hin. apply Hs. apply in_map. exact Hin.
Qed.

Section Pipeline.

Variable createPlanningPrompt : PlannerAgent.PlanningInput -> string.
Variable createResearchPrompt : ResearchAgent.ResearchInput -> string.
Variable createOutlinePrompt : OutlineAgent.OutlineInput -> string.
Variable createScriptPrompt : ScriptAgent.ScriptInput -> string.
Variable createTonePrompt : string -> string -> string -> string.
Variable createEditingPrompt : EditorAgent.EditorInput -> string.
Variable maxConcurrentAgents : positive.

Lemma generatePodcast_inr request w artifacts w' :
  generatePodcast createPlanningPrompt createResearchPrompt createOutlinePrompt
    createScriptPrompt createTonePrompt createEditingPrompt maxConcurrentAgents
    request w = (inr artifacts, w') ->
  exists w0 w1 w2 w3 w4 w5 w6 w7 w8 w9 w10,
    updateProgress "planning" 1 w = (inr tt, w0)
    /\ PlannerAgent.execute createPlanningPrompt (planningInput request) w0
       = (inr (plan artifacts), w1)
    /\ updateProgress "research" 2 w1 = (inr tt, w2)
    /\ researchStage createResearchPrompt request (plan artifacts) w2
       = (inr (research artifacts), w3)
    /\ updateProgress "outlining" 3 w3 = (inr tt, w4)
    /\ OutlineAgent.execute createOutlinePrompt
         {| OutlineAgent.plan := PlannerAgent.content (plan artifacts);
            OutlineAgent.research := ResearchAgent.content (research artifacts);
            OutlineAgent.chapters := chapters request;
            OutlineAgent.targetWords := PlannerAgent.targetWords (planningInput request);
            OutlineAgent.style := style request |} w4
       = (inr (outline artifacts), w5)
    /\ updateProgress "scripting" 4 w5 = (inr tt, w6)
    /\ generateScriptsInParallel createScriptPrompt maxConcurrentAgents
         (outline artifacts) (planningInput request) w6
       = (inr (scripts artifacts), w7)
    /\ updateProgress "tone-enhancement" 5 w7 = (inr tt, w8)
    /\ ToneAgent.execute createTonePrompt
         {| ToneAgent.scripts := map ScriptAgent.content (scripts artifacts);
            ToneAgent.mood := mood request;
            ToneAgent.style := style request |} w8
       = (inr (toneScript artifacts), w9)
    /\ updateProgress "editing" 6 w9 = (inr tt, w10)
    /\ EditorAgent.execute createEditingPrompt
         {| EditorAgent.script := ToneAgent.content (toneScript artifacts);
            EditorAgent.targetWords := PlannerAgent.targetWords (planningInput request);
            EditorAgent.tolerance := tolerancePercent;
            EditorAgent.style := style request;
            EditorAgent.mood := mood request |} w10
       = (inr (finalScript artifacts), w').
Proof.
  unfold generatePodcast, catch. cbv zeta. intros H.
  match type of H with (match ?b with _ => _ end) = _ => destruct b as [[e | a] wf] eqn:Eb end;
    [discriminate |].
  injection H as -> ->.
  unfold bind in Eb.
  repeat match type of Eb with
         | (let (s, w') := ?m in _) = _ =>
             destruct m as [[? | ?x] ?w1] eqn:?E; [discriminate |]
         end.
  unfold ret in Eb. injection Eb as <- <-. cbn [plan research outline scripts toneScript finalScript].
  repeat match goal with x : unit |- _ => destruct x end.
  do 11 eexists. repeat (split; [first [eassumption | reflexivity] |]). eassumption.
Qed.

(** The world after the steps so far, for a job that is under way. *)
Ltac report Eb :=
  match type of Eb with
  | (let (s, w') := updateProgress ?st ?n ?w in _) = _ =>
      let u := fresh "u" in let U := fresh "U" in
      destruct (updateProgress_world st n w) as (u & U & ? & ? & ? & ?);
      rewrite U in Eb
  end.

Ltac run_stage Eb lem :=
  match type of Eb with
  | (let (s, w') := ?m ?w in _) = _ =>
      let E := fresh "E" in
      destruct (m w) as [[? | ?x] ?v] eqn:E;
      apply lem in E; destruct E as (? & ? & ? & ? & ? & ?)
  end.

Ltac reported :=
  repeat match goal with
         | H : progress ?a = _ |- context [progress ?a] => rewrite H
         end;
  rewrite <- ?app_assoc; reflexivity.

(** X4.  The progress reports of the text stages of a job (steps 1 to
    6 of [generatePodcast]) follow the order of the steps (planning,
    research, outlining, scripting, tone enhancement, editing),
    whatever the outcome: when these stages end, the job has reported
    the first [k] of them for some [k] from 1 to 6 and nothing else,
    and a job that gets through them has reported all six. *)
Theorem progress_follows_steps (request : Request) (w : World)
  (r : error + Artifacts) (w' : World) :
  generatePodcast createPlanningPrompt createResearchPrompt createOutlinePrompt
    createScriptPrompt createTonePrompt createEditingPrompt maxConcurrentAgents
    request w = (r, w') ->
  exists k,
    1 <= k <= 6
    /\ progress w' = progress w ++ firstn k steps
    /\ (forall artifacts, r = inr artifacts -> k = 6).
Proof.
  unfold generatePodcast, catch. cbv zeta. intros H.
  match type of H with (match ?b with _ => _ end) = _ => destruct b as [r0 wf] eqn:Eb end.
  assert (Hk : exists k, 1 <= k <= 6
                 /\ progress wf = progress w ++ firstn k steps
                 /\ (forall artifacts, r0 = inr artifacts -> k = 6)).
  { clear H. unfold bind in Eb.
    report Eb.
    run_stage Eb stage_planner;
      [ injection Eb as <- <-; exists 1; split; [lia |]; split; [reported | discriminate] |].
    report Eb.
    run_stage Eb stage_researchStage;
      [ injection Eb as <- <-; exists 2; split; [lia |]; split; [reported | discriminate] |].
    report Eb.
    run_stage Eb stage_outline;
      [ injection Eb as <- <-; exists 3; split; [lia |]; split; [reported | discriminate] |].
    report Eb.
    run_stage Eb stage_scripts;
      [ injection Eb as <- <-; exists 4; split; [lia |]; split; [reported | discriminate] |].
    report Eb.
    run_stage Eb stage_tone;
      [ injection Eb as <- <-; exists 5; split; [lia |]; split; [reported | discriminate] |].
    report Eb.
    run_stage Eb stage_editor;
      [ injection Eb as <- <-; exists 6; split; [lia |]; split; [reported | discriminate] |].
    unfold ret in Eb. injection Eb as <- <-.
    exists 6. split; [lia |]. split; [reported | reflexivity]. }
  destruct Hk as (k & Hk & Hp & Hr). exists k. split; [exact Hk |].
  destruct r0 as [e | a]; injection H as <- <-; (split; [exact Hp |]).
  - discriminate.
  - intros artifacts Ha. eapply Hr. reflexivity.
Qed.

Lemma updateProgress_calls step completed w r w' :
  updateProgress step completed w = (r, w') -> modelCalls w' = modelCalls w.
Proof. intros H. injection H as <- <-. reflexivity. Qed.

(** X5.  A job whose text stages (steps 1 to 6) succeed has one
    script for each section of its outline and, with [n] sections,
    its agents have asked for at least [4 + n] and at most
    [8 + 4 * n] completions: one for the plan, at most one for the
    research, one for the outline, one to four for each script, one
    for the tones and one to four for the editing. *)
Theorem finished_job_model_calls (request : Request) (w : World)
  (artifacts : Artifacts) (w' : World) :
  generatePodcast createPlanningPrompt createResearchPrompt createOutlinePrompt
    createScriptPrompt createTonePrompt createEditingPrompt maxConcurrentAgents
    request w = (inr artifacts, w') ->
  List.length (scripts artifacts) = List.length (OutlineAgent.sections (outline artifacts))
  /\ 4 + List.length (OutlineAgent.sections (outline artifacts)) <= callsBetween w w'
  /\ callsBetween w w' <= 8 + 4 * List.length (OutlineAgent.sections (outline artifacts)).
Proof.
  intros H.
  destruct (generatePodcast_inr _ _ H)
    as (w0 & w1 & w2 & w3 & w4 & w5 & w6 & w7 & w8 & w9 & w10
        & U0 & E1 & U2 & E3 & U4 & E5 & U6 & E7 & U8 & E9 & U10 & E11).
  apply updateProgress_calls in U0, U2, U4, U6, U8, U10.
  destruct (scripts_accepts _ _ _ _ _ E7) as (_ & Hlen & _).
  destruct (stage_planner _ _ _ E1) as (_ & _ & _ & _ & P2 & P3).
  destruct (stage_researchStage _ _ _ _ E3) as (_ & _ & _ & R1 & R2 & _).
  destruct (stage_outline _ _ _ E5) as (_ & _ & _ & _ & O2 & O3).
  destruct (stage_scripts _ _ _ _ _ E7) as (_ & _ & _ & _ & S2 & S3).
  destruct (stage_tone _ _ _ E9) as (_ & _ & _ & _ & T2 & T3).
  destruct (stage_editor _ _ _ E11) as (_ & _ & _ & _ & D2 & D3).
  specialize (P3 _ eq_refl). specialize (O3 _ eq_refl). specialize (S3 _ eq_refl).
  specialize (T3 _ eq_refl). specialize (D3 _ eq_refl).
  split; [exact Hlen |]. unfold callsBetween. lia.
Qed.

(** X6.  What a job whose text stages (steps 1 to 6) succeed tells
    about its brief: the topic is not blank, there are 1 to 10
    chapters, and the duration is between 1 and 33 minutes, since the
    Editor turns down a target above 5000 words; the outline has at
    least one section, none of them blank, the share of each lies
    between 50 and 2000 words, and the tone script has at least one
    utterance. *)
Theorem finished_job_brief (request : Request) (w : World)
  (artifacts : Artifacts) (w' : World) :
  generatePodcast createPlanningPrompt createResearchPrompt createOutlinePrompt
    createScriptPrompt createTonePrompt createEditingPrompt maxConcurrentAgents
    request w = (inr artifacts, w') ->
  String.length (trim (topic request)) <> 0
  /\ (1 <= chapters request <= 10)%Z
  /\ (1 <= durationMin request <= 33)%Z
  /\ OutlineAgent.sections (outline artifacts) <> []
  /\ Forall (fun s => String.length (trim (OutlineAgent.content s)) <> 0)
       (OutlineAgent.sections (outline artifacts))
  /\ (50 <= sectionTarget (outline artifacts) (planningInput request) <= 2000)%Z
  /\ ToneAgent.utterances (toneScript artifacts) <> [].
Proof.
  intros H.
  destruct (generatePodcast_inr _ _ H)
    as (w0 & w1 & w2 & w3 & w4 & w5 & w6 & w7 & w8 & w9 & w10
        & U0 & E1 & U2 & E3 & U4 & E5 & U6 & E7 & U8 & E9 & U10 & E11).
  destruct (planner_accepts _ _ _ E1) as (Ht & Hc & Hd & _).
  destruct (scripts_accepts _ _ _ _ _ E7) as (Hne & _ & Hs & Hb).
  destruct (tone_accepts _ _ _ E9) as (_ & Hu).
  destruct (editor_accepts _ _ _ E11) as (_ & He & _).
  cbn [PlannerAgent.topic PlannerAgent.chapters PlannerAgent.durationMin planningInput]
    in Ht, Hc, Hd.
  cbn [EditorAgent.targetWords planningInput PlannerAgent.targetWords] in He.
  unfold wordsPerMinute in He. rewrite js_round_mult in He.
  repeat split; try assumption; lia.
Qed.

(** X7.  A brief of 34 minutes or more, which the route accepts up to
    120, cannot be finished: its target is above 5000 words, so the
    Editor turns down whatever script it is given, before any model
    call, and the job ends in an error. *)
Theorem long_brief_fails_at_editing (request : Request) :
  (34 <= durationMin request)%Z ->
  (forall script w,
     exists message,
       EditorAgent.execute createEditingPrompt
         {| EditorAgent.script := script;
            EditorAgent.targetWords := PlannerAgent.targetWords (planningInput request);
            EditorAgent.tolerance := tolerancePercent;
            EditorAgent.style := style request;
            EditorAgent.mood := mood request |} w
       = (inl (Error message), w))
  /\ (forall w, exists e w',
        generatePodcast createPlanningPrompt createResearchPrompt createOutlinePrompt
          createScriptPrompt createTonePrompt createEditingPrompt maxConcurrentAgents
          request w = (inl e, w')).
Proof.
  intros Hd. split.
  - intros script w. unfold EditorAgent.execute, EditorAgent.validateInput, bind.
    match goal with |- context [throw_if ?c ?m w] =>
      destruct (throw_if_cases c m w) as [[_ ->] | [_ ->]]; [eexists; reflexivity |] end.
    cbv beta iota. cbn [EditorAgent.targetWords planningInput PlannerAgent.targetWords].
    unfold wordsPerMinute. rewrite js_round_mult.
    assert (Hbig : (5000 <? durationMin request * 150)%Z = true) by (apply Z.ltb_lt; lia).
    rewrite Hbig, !orb_true_r. cbn. eexists; reflexivity.
  - intros w.
    match goal with |- context [generatePodcast ?a ?b ?c ?d ?e ?f ?g ?r ?w0] =>
      destruct (generatePodcast a b c d e f g r w0) as [[e0 | artifacts] w'] eqn:H end.
    + eexists; eexists; reflexivity.
    + exfalso.
      destruct (generatePodcast_inr _ _ H)
        as (w0 & w1 & w2 & w3 & w4 & w5 & w6 & w7 & w8 & w9 & w10
            & _ & _ & _ & _ & _ & _ & _ & _ & _ & _ & _ & E11).
      destruct (editor_accepts _ _ _ E11) as (_ & He & _).
      cbn [EditorAgent.targetWords planningInput PlannerAgent.targetWords] in He.
      unfold wordsPerMinute in He. rewrite js_round_mult in He. lia.
Qed.

(** X8.  When the share of a section is below 50 words or above 2000,
    the scripting stage fails before any model call: the Scripter
    turns down its first input.  It also fails at once on an outline
    without sections. *)
Theorem section_share_out_of_range (outline : OutlineAgent.Outline)
  (input : PlannerAgent.PlanningInput) (w : World) :
  (sectionTarget outline input < 50)%Z \/ (2000 < sectionTarget outline input)%Z ->
  exists message,
    generateScriptsInParallel createScriptPrompt maxConcurrentAgents outline input w
    = (inl (Error message), w).
Proof.
  intros Hrange.
  destruct (OutlineAgent.sections outline) as [| s l] eqn:Es.
  { unfold generateScriptsInParallel, generateScriptsWith, bind. rewrite Es.
    eexists; reflexivity. }
  rewrite scripts_run by (rewrite Es; discriminate).
  pose proof (scriptInputs_target maxConcurrentAgents outline input) as Ht.
  pose proof (scriptInputs_length maxConcurrentAgents outline input) as Hl.
  rewrite Es in Hl.
  destruct (scriptInputs maxConcurrentAgents outline input) as [| i rest]; [discriminate |].
  inversion Ht as [| ? ? Hi _]; subst.
  unfold mapM. cbn [mapM_from]. unfold bind at 1.
  unfold ScriptAgent.execute, ScriptAgent.validateInput, bind.
  match goal with |- context [throw_if ?c ?m w] =>
    destruct (throw_if_cases c m w) as [[_ ->] | [_ ->]]; [eexists; reflexivity |] end.
  cbv beta iota.
  assert (Hout : (ScriptAgent.targetWords i =? 0)%Z
                 || (ScriptAgent.targetWords i <? 50)%Z
                 || (2000 <? ScriptAgent.targetWords i)%Z = true).
  { rewrite Hi. destruct Hrange as [Hlow | Hhigh].
    - assert (E : (sectionTarget outline input <? 50)%Z = true) by (apply Z.ltb_lt; lia).
      rewrite E, orb_true_r. reflexivity.
    - assert (E : (2000 <? sectionTarget outline input)%Z = true) by (apply Z.ltb_lt; lia).
      rewrite E, orb_true_r. reflexivity. }
  rewrite Hout. cbn. eexists; reflexivity.
Qed.

(** X9.  A source that cannot be fetched does not fail the job: the
    research stage then runs the Research agent, exactly as it does
    for a brief without a source. *)
Theorem failed_fetch_falls_back (request : Request) (plan : PlannerAgent.Plan)
  (w : World) (src message : string) :
  source request = Some src ->
  fetcher w src = FetchFailed message ->
  researchStage createResearchPrompt request plan w
  = ResearchAgent.execute createResearchPrompt
      {| ResearchAgent.topic := topic request;
         ResearchAgent.focus := focus request;
         ResearchAgent.plan := PlannerAgent.content plan;
         ResearchAgent.chapters := PlannerAgent.planChapters plan;
         ResearchAgent.source := Some src |} w.
Proof.
  intros Hsrc Hfetch. rewrite <- Hsrc.
  apply PipelineClaims.researchStage_agent.
  unfold noFetchedSource. rewrite Hsrc. right. exists message. exact Hfetch.
Qed.

End Pipeline.

(** X10.  For a brief that the route accepts, the guards of the
    Planner on the number of chapters, the duration and the target
    never fire: the Planner accepts its input exactly when the topic
    is not blank, and the target is 150 words for each minute. *)
Theorem accepted_brief_reaches_planner (request : Request) (w : World) :
  Routes.generateValidation request = true ->
  PlannerAgent.targetWords (planningInput request) = (150 * durationMin request)%Z
  /\ (PlannerAgent.validateInput (planningInput request) w = (inr tt, w)
      <-> String.length (trim (topic request)) <> 0).
Proof.
  unfold Routes.generateValidation. intros H.
  repeat match type of H with _ && _ = true => apply andb_true_iff in H; destruct H as [H ?] end.
  repeat match goal with
         | E : (_ <=? _)%Z = true |- _ => apply Z.leb_le in E
         end.
  unfold Routes.isLength in H. apply andb_true_iff in H as [Hlo _]. apply Nat.leb_le in Hlo.
  unfold Routes.minChapters, Routes.maxChapters, Routes.minDurationMin,
    Routes.maxDurationMin in *.
  assert (Ht : PlannerAgent.targetWords (planningInput request)
               = (150 * durationMin request)%Z).
  { cbn [planningInput PlannerAgent.targetWords]. unfold wordsPerMinute.
    rewrite js_round_mult. lia. }
  split; [exact Ht |].
  unfold PlannerAgent.validateInput, bind. rewrite Ht.
  cbn [PlannerAgent.topic PlannerAgent.chapters PlannerAgent.durationMin planningInput].
  assert (Htruthy : truthy (topic request) = true).
  { unfold truthy. apply negb_true_iff. apply Nat.eqb_neq. lia. }
  rewrite Htruthy. cbn [negb orb].
  destruct (String.length (trim (topic request)) =? 0) eqn:Eb.
  - apply Nat.eqb_eq in Eb. cbn. split; [discriminate | intros Hn; contradiction].
  - apply Nat.eqb_neq in Eb. cbn [throw_if ret].
    replace ((chapters request =? 0)%Z || (chapters request <? 1)%Z
             || (10 <? chapters request)%Z) with false
      by (symmetry; rewrite !orb_false_iff; repeat split;
          [apply Z.eqb_neq | apply Z.ltb_ge | apply Z.ltb_ge]; lia).
    replace ((durationMin request =? 0)%Z || (durationMin request <? 1)%Z
             || (120 <? durationMin request)%Z) with false
      by (symmetry; rewrite !orb_false_iff; repeat split;
          [apply Z.eqb_neq | apply Z.ltb_ge | apply Z.ltb_ge]; lia).
    replace ((150 * durationMin request =? 0)%Z || (150 * durationMin request <? 50)%Z)
      with false
      by (symmetry; rewrite !orb_false_iff; repeat split;
          [apply Z.eqb_neq | apply Z.ltb_ge]; lia).
    cbn. split; [intros _; exact Eb | reflexivity].
Qed.

End PipelineLaws.

(** ** The convergence loops, attempt by attempt *)

Module LoopLaws.
Import Js Runtime Spec Laws.




(** X2.  The prompts of the Scripter's loop when all three attempts
    miss: each of the first two misses appends its corrective
    feedback to the prompt, the third appends nothing, and the call
    after the loop repeats the prompt of the third attempt. *)
Theorem scripter_prompts_when_all_miss (prompt : string) (targetWords : Z) (w : World)
  (t1 t2 t3 p2 p3 : string) :
  p2 = prompt +:+ ScriptAgent.feedback (BaseAgent.countSpokenWords t1) targetWords ->
  p3 = p2 +:+ ScriptAgent.feedback (BaseAgent.countSpokenWords t2) targetWords ->
  backend w (modelCalls w) prompt = Content t1 ->
  backend w (modelCalls w + 1) p2 = Content t2 ->
  backend w (modelCalls w + 2) p3 = Content t3 ->
  misses ScriptAgent.tolerance targetWords (Content t1) ->
  misses ScriptAgent.tolerance targetWords (Content t2) ->
  misses ScriptAgent.tolerance targetWords (Content t3) ->
  exists w',
    ScriptAgent.generateScriptWithWordCount prompt targetWords w
    = (received ScriptAgent.name (backend w (modelCalls w + 3) p3), w')
    /\ sent w' = sent w ++ [prompt; p2; p3; p3].
Proof.
  intros -> -> R1 R2 R3 [x1 [E1 M1]] [x2 [E2 M2]] [x3 [E3 M3]].
  injection E1 as <-. injection E2 as <-. injection E3 as <-.
  unfold ScriptAgent.generateScriptWithWordCount, ScriptAgent.maxAttempts.
  cbn [ScriptAgent.attempts]. unfold ScriptAgent.maxAttempts. cbn [Nat.ltb Nat.leb].
  unfold bind at 1. unfold chatComplete at 1. rewrite R1. cbn [received r_content].
  rewrite M1. cbn [Nat.ltb Nat.leb].
  unfold bind at 1. unfold chatComplete at 1. rewrite LoopFacts.modelCalls_calling.
  cbn [backend calling]. replace (S (modelCalls w)) with (modelCalls w + 1) by lia.
  rewrite R2. cbn [received r_content]. rewrite M2. cbn [Nat.ltb Nat.leb].
  unfold bind at 1. unfold chatComplete at 1.
  unfold modelCalls at 1. cbn [sent calling]. rewrite !length_app. cbn [List.length].
  fold (modelCalls w). replace (modelCalls w + 1 + 1) with (modelCalls w + 2) by lia.
  cbn [backend calling]. rewrite R3. cbn [received r_content]. rewrite M3. cbn [Nat.ltb Nat.leb].
  rewrite LoopFacts.chatComplete_result.
  eexists. split.
  - f_equal. unfold modelCalls at 1. cbn [sent calling backend].
    rewrite !length_app. cbn [List.length]. fold (modelCalls w).
    replace (modelCalls w + 1 + 1 + 1) with (modelCalls w + 3) by lia. reflexivity.
  - cbn [sent calling]. rewrite <- !app_assoc. reflexivity.
Qed.

End LoopLaws.

(** ** Speech synthesis: the grouping of utterances *)

Module TTSLaws.
Import Js Runtime TTSAgent.

Lemma firstn_split {A : Type} (m n : nat) (l : list A) :
  firstn (m + n) l = firstn m l ++ firstn n (skipn m l).
Proof.
  revert l. induction m as [| m IH]; intros l; [reflexivity |].
  destruct l as [| a l]; cbn.
  - rewrite firstn_nil. reflexivity.
  - f_equal. apply IH.
Qed.

Lemma slice_app {A : Type} (a b c : nat) (l : list A) :
  a <= b -> b <= c -> slice a b l ++ slice b c l = slice a c l.
Proof.
  intros Hab Hbc. unfold slice.
  replace (c - a) with ((b - a) + (c - b)) by lia.
  rewrite firstn_split, skipn_skipn.
  replace (b - a + a) with b by lia. reflexivity.
Qed.

Lemma slice_beyond {A : Type} (a b : nat) (l : list A) :
  List.length l <= a -> slice a b l = [].
Proof.
  intros H. unfold slice. rewrite skipn_all2 by exact H. apply firstn_nil.
Qed.

Lemma slice_empty {A : Type} (a b : nat) (l : list A) : b <= a -> slice a b l = [].
Proof. intros H. unfold slice. replace (b - a) with 0 by lia. reflexivity. Qed.

Lemma group_or_nothing {A : Type} (g : list A) :
  concat (if 0 <? List.length g then [g] else []) = g.
Proof.
  destruct g as [| a g]; cbn; [reflexivity |]. rewrite app_nil_r. reflexivity.
Qed.

(** The groups of the iterations [i], ..., [i + remaining - 1] hold
    the utterances from [i * perChapter] on, in order. *)
Lemma chapter_groups_concat {A : Type} (perChapter : nat) (l : list A) (remaining : nat) :
  forall i,
    concat (chapter_groups remaining i perChapter l)
    = slice (Nat.min (i * perChapter) (List.length l))
        (Nat.min ((i + remaining) * perChapter) (List.length l)) l.
Proof.
  induction remaining as [| remaining IH]; intros i; cbn [chapter_groups].
  - rewrite Nat.add_0_r. apply eq_sym, slice_empty. lia.
  - cbv zeta. rewrite concat_app, group_or_nothing, IH.
    replace (i + S remaining) with (S i + remaining) by lia.
    destruct (Nat.le_gt_cases (List.length l) (i * perChapter)) as [Hout | Hin].
    + rewrite !slice_beyond by lia. reflexivity.
    + replace (Nat.min (i * perChapter) (List.length l)) with (i * perChapter) by lia.
      replace (i * perChapter + perChapter) with (S i * perChapter) by lia.
      apply slice_app; nia.
Qed.

Lemma chapter_groups_length {A : Type} (perChapter : nat) (l : list A) (remaining : nat) :
  forall i, List.length (chapter_groups remaining i perChapter l) <= remaining.
Proof.
  induction remaining as [| remaining IH]; intros i; cbn [chapter_groups]; [simpl; lia |].
  cbv zeta. rewrite length_app. specialize (IH (S i)).
  destruct (0 <? _); simpl; lia.
Qed.

Lemma chapter_groups_last {A : Type} (perChapter : nat) (l : list A) (remaining : nat) :
  forall i,
    chapter_groups (S remaining) i perChapter l
    = chapter_groups remaining i perChapter l
      ++ chapter_groups 1 (i + remaining) perChapter l.
Proof.
  induction remaining as [| remaining IH]; intros i.
  - rewrite Nat.add_0_r. reflexivity.
  - change (chapter_groups (S (S remaining)) i perChapter l)
      with ((if 0 <? List.length
                     (slice (i * perChapter)
                        (Nat.min (i * perChapter + perChapter) (List.length l)) l)
             then [slice (i * perChapter)
                     (Nat.min (i * perChapter + perChapter) (List.length l)) l]
             else [])
            ++ chapter_groups (S remaining) (S i) perChapter l).
    rewrite IH. replace (S i + remaining) with (i + S remaining) by lia.
    rewrite app_assoc. reflexivity.
Qed.

Lemma chapter_groups_nil {A : Type} (perChapter remaining : nat) :
  forall i, chapter_groups remaining i perChapter (@nil A) = [].
Proof.
  induction remaining as [| remaining IH]; intros i; cbn [chapter_groups]; [reflexivity |].
  cbv zeta. unfold slice. rewrite skipn_nil, firstn_nil. simpl. apply IH.
Qed.

Lemma ceil_div_covers (n d : nat) : 0 < d -> n <= d * ceil_div n d.
Proof.
  intros Hd. unfold ceil_div.
  pose proof (Nat.div_mod_eq (n + d - 1) d) as E.
  pose proof (Nat.mod_upper_bound (n + d - 1) d ltac:(lia)) as U. lia.
Qed.

Lemma concat_repeat_nil {A : Type} (k : nat) : concat (repeat (@nil A) k) = [].
Proof. induction k; cbn; auto. Qed.

Lemma groups_concat {A : Type} (l : list A) (chapters : nat) :
  1 <= chapters -> concat (groupUtterancesByChapters l chapters) = l.
Proof.
  intros Hc. unfold groupUtterancesByChapters. cbv zeta.
  set (per := ceil_div (List.length l) chapters).
  assert (Hgroups : concat (chapter_groups chapters 0 per l) = l).
  { rewrite chapter_groups_concat. cbn [Nat.mul Nat.add Nat.min].
    pose proof (ceil_div_covers (List.length l) Hc) as Hcov. fold per in Hcov.
    replace (Nat.min (chapters * per) (List.length l)) with (List.length l) by lia.
    unfold slice. rewrite Nat.sub_0_r. cbn [skipn]. apply firstn_all. }
  destruct (_ && _); [| exact Hgroups].
  rewrite concat_app, concat_repeat_nil, app_nil_r. exact Hgroups.
Qed.

Lemma groups_count {A : Type} (l : list A) (chapters : nat) :
  l <> [] -> List.length (groupUtterancesByChapters l chapters) = chapters.
Proof.
  intros Hne. unfold groupUtterancesByChapters. cbv zeta.
  set (per := ceil_div (List.length l) chapters).
  pose proof (chapter_groups_length per l chapters 0) as Hlen.
  assert (Hpos : 0 < List.length l) by (destruct l; [contradiction | cbn; lia]).
  apply Nat.ltb_lt in Hpos. rewrite Hpos, andb_true_r.
  destruct (List.length (chapter_groups chapters 0 per l) <? chapters) eqn:E.
  - rewrite length_app, repeat_length. apply Nat.ltb_lt in E. lia.
  - apply Nat.ltb_ge in E. lia.
Qed.

Lemma last_group_empty {A : Type} (l : list A) (chapters : nat) :
  l <> [] ->
  List.length l <= (chapters - 1) * ceil_div (List.length l) chapters ->
  In [] (groupUtterancesByChapters l chapters).
Proof.
  intros Hne Hlast.
  assert (Hpos : 0 < List.length l) by (destruct l; [contradiction | cbn; lia]).
  assert (Hc : 1 <= chapters) by (destruct chapters; [cbn in Hlast; lia | lia]).
  unfold groupUtterancesByChapters. cbv zeta.
  set (per := ceil_div (List.length l) chapters) in *.
  assert (Hshort : List.length (chapter_groups chapters 0 per l) < chapters).
  { destruct chapters as [| r]; [lia |]. rewrite chapter_groups_last, length_app.
    pose proof (chapter_groups_length per l r 0) as Hr.
    replace (S r - 1) with r in Hlast by lia.
    cbn [chapter_groups Nat.add]. cbv zeta.
    rewrite slice_beyond by exact Hlast. simpl. lia. }
  apply Nat.ltb_lt in Hshort as Hb. apply Nat.ltb_lt in Hpos as Hp.
  rewrite Hb, Hp. cbn [andb]. apply in_or_app. right.
  destruct (chapters - List.length (chapter_groups chapters 0 per l)) as [| k] eqn:E;
    [lia |].
  left. reflexivity.
Qed.

(** X11.  The grouping of the utterances by chapters loses nothing:
    for at least one chapter, the groups put end to end are the
    utterances in their order.  When there are utterances, there are
    exactly as many groups as chapters, empty groups making up the
    number; without utterances there is no group. *)
Theorem grouping_keeps_utterances {A : Type} (l : list A) (chapters : nat) :
  1 <= chapters ->
  concat (groupUtterancesByChapters l chapters) = l
  /\ (l <> [] -> List.length (groupUtterancesByChapters l chapters) = chapters)
  /\ (l = [] -> groupUtterancesByChapters l chapters = []).
Proof.
  intros Hc. split; [| split].
  - apply groups_concat, Hc.
  - apply groups_count.
  - intros ->. unfold groupUtterancesByChapters. cbv zeta.
    simpl List.length. rewrite andb_false_r. apply chapter_groups_nil.
Qed.

Section Synthesis.

Variable Outside : Type.
Variable generateUtteranceAudioFiles :
  list ToneAgent.Utterance -> nat -> T Outside (list UtteranceFile).
Variable concatenateUtteranceAudio : list UtteranceFile -> nat -> T Outside string.

Lemma empty_group_fails (groups : list (list ToneAgent.Utterance)) :
  In [] groups ->
  forall i s,
    exists e s',
      chapters_loop generateUtteranceAudioFiles concatenateUtteranceAudio groups i s
      = (inl e, s').
Proof.
  induction groups as [| g groups IH]; intros Hin i s; [destruct Hin |].
  cbn [chapters_loop].
  destruct g as [| u g].
  - cbn. eexists; eexists; reflexivity.
  - destruct Hin as [Hin | Hin]; [discriminate |].
    cbn [generateChapterAudio is_nil].
    destruct (generateUtteranceAudioFiles (u :: g) (i + 1) s) as [[e | files] s1];
      [eexists; eexists; reflexivity |].
    destruct (concatenateUtteranceAudio files (i + 1) s1) as [[e | path] s2];
      [eexists; eexists; reflexivity |].
    destruct (IH Hin (S i) s2) as (e & s3 & ->). eexists; eexists; reflexivity.
Qed.

Lemma empty_group_stops (input : TTSInput) (s : Outside) :
  In [] (groupUtterancesByChapters (inputUtterances input) (Z.to_nat (chapters input))) ->
  exists e s',
    execute generateUtteranceAudioFiles concatenateUtteranceAudio input s = (inl e, s').
Proof.
  intros Hin. unfold execute.
  destruct (validateInput input) as [e | u]; [eexists; eexists; reflexivity |].
  cbv zeta.
  destruct (empty_group_fails _ Hin 0 s) as (e & s' & ->). eexists; eexists; reflexivity.
Qed.

(** X12.  When the last chapter is left without utterances (there are
    utterances, but the chapters before the last one take them all,
    each taking the number of utterances divided by the number of
    chapters, rounded up), an empty group stands for it and speech
    synthesis fails, whatever the speech service and the audio tool
    do: nine utterances for four chapters, or fewer utterances than
    chapters, are such cases. *)
Theorem empty_chapter_fails_synthesis (input : TTSInput) (s : Outside) :
  inputUtterances input <> [] ->
  List.length (inputUtterances input)
  <= (Z.to_nat (chapters input) - 1)
     * ceil_div (List.length (inputUtterances input)) (Z.to_nat (chapters input)) ->
  In [] (groupUtterancesByChapters (inputUtterances input) (Z.to_nat (chapters input)))
  /\ exists e s',
       execute generateUtteranceAudioFiles concatenateUtteranceAudio input s = (inl e, s').
Proof.
  intros Hne Hlast.
  assert (Hin : In [] (groupUtterancesByChapters (inputUtterances input)
                         (Z.to_nat (chapters input))))
    by (apply last_group_empty; assumption).
  split; [exact Hin |]. apply empty_group_stops, Hin.
Qed.

End Synthesis.

End TTSLaws.

(** ** The two backends of an agent *)

Module BackendLaws.
Import Js Runtime AzureOpenAIService AgentBackend.

Lemma loop_outcome client random :
  forall remaining attempt lastError trace result trace',
    loop client random remaining attempt lastError trace = (result, trace') ->
    (forall message last, result = AzureError message last ->
       message = "Chat completion failed after retries")
    /\ List.length (attempts trace') <= List.length (attempts trace) + remaining.
Proof.
  induction remaining as [| remaining IH];
    intros attempt lastError trace result trace' H; cbn [loop] in H.
  - injection H as <- <-. split; [| lia]. intros message last E. injection E as <- _. reflexivity.
  - assert (Hone : List.length (attempts (trace ++ [Attempt attempt]))
                   = S (List.length (attempts trace))).
    { unfold attempts. rewrite flat_map_app, length_app. simpl. lia. }
    assert (Hsleep : forall d, List.length (attempts ((trace ++ [Attempt attempt]) ++ [Sleep d]))
                               = S (List.length (attempts trace))).
    { intros d. unfold attempts in *. rewrite flat_map_app, length_app, Hone. simpl. lia. }
    destruct (client attempt) as [content | status message].
    + destruct (truthy content).
      * injection H as <- <-. split; [intros m l E; discriminate | lia].
      * destruct (attempt <? maxRetries); apply IH in H as [Hm Hl]; (split; [exact Hm |]);
          rewrite ?Hsleep, ?Hone in Hl; lia.
    + destruct (dontRetry status).
      * injection H as <- <-. split; [| lia]. intros m l E. injection E as <- _. reflexivity.
      * destruct (attempt <? maxRetries); apply IH in H as [Hm Hl]; (split; [exact Hm |]);
          rewrite ?Hsleep, ?Hone in Hl; lia.
Qed.

Lemma completion_outcome client random result trace :
  getChatCompletion client random true = (result, trace) ->
  (forall message last, result = AzureError message last ->
     message = "Chat completion failed after retries")
  /\ List.length (attempts trace) <= 3.
Proof.
  unfold getChatCompletion, maxRetries. intros H. apply loop_outcome in H as [Hm Hl].
  split; [exact Hm | exact Hl].
Qed.

Section Laws.

Variable clients : nat -> nat -> outcome.
Variable randoms : nat -> nat -> Q.

Lemma invoke_outcome (done : traces) :
  List.length (attempts (trace_of clients randoms (List.length done))) <= 3
  /\ ((exists content,
         invoke clients randoms done
         = (inr content, done ++ [trace_of clients randoms (List.length done)])
         /\ fst (getChatCompletion (clients (List.length done))
                  (randoms (List.length done)) true)
            = Returned content)
      \/ (invoke clients randoms done
          = (inl "Chat completion failed after retries",
             done ++ [trace_of clients randoms (List.length done)])
          /\ failed clients randoms (List.length done))).
Proof.
  unfold invoke, trace_of, failed.
  destruct (getChatCompletion (clients (List.length done)) (randoms (List.length done)) true)
    as [result trace] eqn:E.
  destruct (completion_outcome _ _ E) as [Hm Hl].
  split; [exact Hl |].
  destruct result as [content | message last].
  - left. exists content. split; reflexivity.
  - right. pose proof (Hm _ _ eq_refl) as Hmessage. subst message.
    split; [reflexivity |]. eexists; eexists; reflexivity.
Qed.

Ltac invoked :=
  match goal with
  | |- context [invoke ?c ?r ?d] =>
      let Hl := fresh "Hl" in
      let Hc := fresh "Hc" in
      let Hf := fresh "Hf" in
      let content := fresh "content" in
      destruct (invoke_outcome d) as [Hl [(content & -> & Hc) | (-> & Hf)]]
  end.

(** X13.  A model call of an agent goes through [getChatCompletion]
    at most three times, hence attempts the completion at most nine
    times: once for the run of the Foundry client, once more when
    that run fails, and once more from the [catch] block when the
    second one fails too.  Without a configured agent it goes through
    it once.  Every invocation but the last has failed; the answer is
    the content that the last one returned.  A failure means that
    every invocation has failed; it always carries the message of the
    retry loop, never the cause, and with a configured agent it comes
    after two invocations at least. *)
Theorem agent_call_invocations (name : string) (useFoundryAgent : bool)
  (agentId : option string) (isAvailable serviceBuilt : bool) :
  let (result, done) :=
    chatComplete clients randoms name useFoundryAgent agentId isAvailable serviceBuilt in
  1 <= List.length done <= 3
  /\ done = map (trace_of clients randoms) (List.seq 0 (List.length done))
  /\ Forall (fun trace => List.length (attempts trace) <= 3) done
  /\ (useFoundryAgent && configured agentId = false -> List.length done = 1)
  /\ (forall k, S k < List.length done -> failed clients randoms k)
  /\ (forall e, result = inl e ->
        e = AgentError (name +:+ " execution failed: Chat completion failed after retries") name
        /\ (useFoundryAgent && configured agentId = true -> 2 <= List.length done)
        /\ (forall k, k < List.length done -> failed clients randoms k))
  /\ (forall response, result = inr response ->
        fst (getChatCompletion (clients (List.length done - 1))
               (randoms (List.length done - 1)) true)
        = Returned (r_content response)).
Proof.
  unfold chatComplete, chatCompleteWithFoundry, createAndProcessRun, chatCompleteWithOpenAI.
  destruct (useFoundryAgent && configured agentId) eqn:Hmode;
    [destruct isAvailable, serviceBuilt |]; cbn [negb];
    repeat (invoked; cbn [app List.length] in * );
    cbn [List.length app map List.seq Nat.sub];
    (split; [lia |]); (split; [reflexivity |]);
    (split; [repeat (constructor; [assumption |]); constructor |]);
    (split; [first [discriminate | reflexivity] |]);
    (split; [intros k Hk; destruct k as [| [| k]];
             first [lia | assumption] |]);
    (split; [intros e He | intros response Hr]);
    try discriminate;
    try (injection He as <-; split; [reflexivity |];
         split; [first [discriminate | intros _; lia] |];
         intros k Hk; destruct k as [| [| [| k]]]; first [lia | assumption]);
    try (injection Hr as <-; cbn [r_content]; assumption).
Qed.

End Laws.
End BackendLaws.

(** ** The error middleware *)

Module ErrorLaws.
Import Js ErrorHandler Laws.

Lemma number_or_pos (n : option nat) (fallback : nat) :
  1 <= fallback -> 1 <= number_or n fallback.
Proof. intros H. destruct n as [[| k] |]; simpl; lia. Qed.

Lemma number_or_cases (n : option nat) (fallback : nat) :
  number_or n fallback = fallback \/ n = Some (number_or n fallback).
Proof. destruct n as [[| k] |]; simpl; auto. Qed.

Lemma truthy_nonempty (s : string) : truthy s = true -> s <> "".
Proof. intros H ->. discriminate H. Qed.

Lemma string_or_nonempty (s : option string) (fallback : string) :
  fallback <> "" -> string_or s fallback <> "".
Proof.
  intros H. destruct s as [t |]; simpl; [| exact H].
  destruct (truthy t) eqn:E; [apply truthy_nonempty; exact E | exact H].
Qed.

Lemma by_name_sound (n : string) current : sound current -> sound (by_name n current).
Proof.
  intros H. unfold by_name.
  repeat match goal with
         | |- context [String.eqb n ?s] => destruct (String.eqb n s)
         end; try exact H; simpl; repeat split; solve [lia | discriminate].
Qed.

Lemma by_response_sound (r : option nat) current :
  sound current -> sound (by_response r current).
Proof.
  intros H. destruct r as [[| k] |]; simpl; try exact H.
  destruct current as [[status code] message]. destruct H as (_ & Hc & Hm).
  repeat match goal with
         | |- context [Nat.eqb ?a ?b] => destruct (Nat.eqb a b)
         end; simpl; repeat split; solve [lia | discriminate | assumption].
Qed.

Section Laws.

Variable Request : Type.

(** X14.  Whatever the error, the response of the error handler is
    well formed: the HTTP status is the status of the body and is
    positive, code and message are not empty, the details are those
    of the error.  Retry information is given exactly for the
    statuses 429, 503 and 504, and the delay is the one of the error
    or 60, never 0.  The stack and the context are sent only in
    development and only with a status of 500 or more; a status of
    500 or more is logged as an error, one from 400 as a warning,
    one below 400 is not logged. *)
Theorem error_response_well_formed (isDevelopment : bool)
  (contextTime responseTime : string) (err : Err) (req : Request) :
  let h := errorHandler isDevelopment contextTime responseTime err req in
  let b := body h in
  e_status b = httpStatus h
  /\ 1 <= httpStatus h
  /\ e_code b <> ""
  /\ e_message b <> ""
  /\ e_details b = details err
  /\ e_timestamp b = responseTime
  /\ (e_retryable b = true <->
      httpStatus h = 429 \/ httpStatus h = 503 \/ httpStatus h = 504)
  /\ (e_retryable b = true ->
      exists delay, e_retryAfter b = Some delay /\ 1 <= delay
                    /\ (delay = 60 \/ retryAfter err = Some delay))
  /\ (e_retryable b = false -> e_retryAfter b = None)
  /\ (e_stack b <> None \/ e_context b <> None ->
      isDevelopment = true /\ 500 <= httpStatus h)
  /\ (logged h = Some LogError <-> 500 <= httpStatus h)
  /\ (logged h = Some LogWarn <-> 400 <= httpStatus h < 500)
  /\ (logged h = None <-> httpStatus h < 400).
Proof.
  unfold errorHandler.
  set (defaults := (number_or (status err) (number_or (statusCode err) 500),
                    string_or (code err) "INTERNAL_ERROR",
                    if truthy (message err) then message err else "Internal Server Error")).
  assert (Hd : sound defaults).
  { unfold defaults, sound. split; [| split].
    - apply number_or_pos, number_or_pos. lia.
    - apply string_or_nonempty. discriminate.
    - destruct (truthy (message err)) eqn:E; [apply truthy_nonempty; exact E | discriminate]. }
  apply (by_name_sound (name err)), (by_response_sound (responseStatus err)) in Hd.
  destruct (by_response (responseStatus err) (by_name (name err) defaults))
    as [[s c] m]. destruct Hd as (Hs & Hc & Hm).
  cbn [body httpStatus logged e_status e_code e_message e_details e_timestamp
       e_retryable e_retryAfter e_stack e_context].
  repeat (split; [first [reflexivity | assumption] |]).
  split; [| split; [| split; [| split; [| split; [| split]]]]].
  - rewrite !orb_true_iff, !Nat.eqb_eq. tauto.
  - intros ->. exists (number_or (retryAfter err) 60). split; [reflexivity |].
    split; [apply number_or_pos; lia |]. apply number_or_cases.
  - intros ->. reflexivity.
  - destruct isDevelopment; cbn [andb].
    + destruct (500 <=? s) eqn:E.
      * intros _. split; [reflexivity | apply Nat.leb_le; exact E].
      * intros [H | H]; contradiction H; reflexivity.
    + intros [H | H]; contradiction H; reflexivity.
  - destruct (500 <=? s) eqn:E; [apply Nat.leb_le in E | apply Nat.leb_gt in E].
    + split; [intros _; exact E | reflexivity].
    + destruct (400 <=? s); split; first [discriminate | lia].
  - destruct (500 <=? s) eqn:E; [apply Nat.leb_le in E | apply Nat.leb_gt in E].
    + split; [discriminate | lia].
    + destruct (400 <=? s) eqn:E'; [apply Nat.leb_le in E' | apply Nat.leb_gt in E'];
        split; first [discriminate | lia | reflexivity].
  - destruct (500 <=? s) eqn:E; [apply Nat.leb_le in E | apply Nat.leb_gt in E].
    + split; [discriminate | lia].
    + destruct (400 <=? s) eqn:E'; [apply Nat.leb_le in E' | apply Nat.leb_gt in E'];
        split; first [discriminate | lia | reflexivity].
Qed.

(** X15.  A request with validation errors is answered with status
    400, the code VALIDATION_ERROR and the fixed message, and one
    detail for each error of the validator, in the same order; the
    response has neither stack nor retry information, not even in
    development, and is logged as a warning.  Without validation
    errors the middleware hands no error on. *)
Theorem validation_failure_response (errors : list Issue) (stack : option string)
  (isDevelopment : bool) (contextTime responseTime : string) (req : Request) :
  errors <> [] ->
  exists err,
    validateRequest errors stack = Some err
    /\ validateRequest [] stack = None
    /\ let h := errorHandler isDevelopment contextTime responseTime err req in
       httpStatus h = 400
       /\ e_code (body h) = "VALIDATION_ERROR"
       /\ e_message (body h) = "Request validation failed"
       /\ e_details (body h) = Some (map formatted errors)
       /\ e_stack (body h) = None
       /\ e_context (body h) = None
       /\ e_retryAfter (body h) = None
       /\ e_retryable (body h) = false
       /\ logged h = Some LogWarn.
Proof.
  intros Hne. unfold validateRequest.
  destruct errors as [| i errors]; [contradiction Hne; reflexivity |].
  cbn [is_nil]. eexists. split; [reflexivity |]. split; [reflexivity |].
  destruct isDevelopment; repeat split.
Qed.

(** X16.  The message of an error thrown by an agent or by the Azure
    service is not the message of the response: whatever it says, the
    response carries the status 422 and the text AI agent processing
    failed, or the status 502 and the text Azure service temporarily
    unavailable.  Neither response carries retry information.  The
    first never carries the stack or the context of the error; the
    second carries them in development, and only there. *)
Theorem thrown_errors_hide_message (message : string) (stack : option string)
  (isDevelopment : bool) (contextTime responseTime : string) (req : Request) :
  let agent :=
    errorHandler isDevelopment contextTime responseTime (AgentError message stack) req in
  let azure :=
    errorHandler isDevelopment contextTime responseTime (AzureError message stack) req in
  (httpStatus agent = 422
   /\ e_code (body agent) = "AGENT_PROCESSING_ERROR"
   /\ e_message (body agent) = "AI agent processing failed"
   /\ e_details (body agent) = None
   /\ e_stack (body agent) = None
   /\ e_context (body agent) = None
   /\ e_retryAfter (body agent) = None
   /\ logged agent = Some LogWarn)
  /\ (httpStatus azure = 502
      /\ e_code (body azure) = "AZURE_SERVICE_ERROR"
      /\ e_message (body azure) = "Azure service temporarily unavailable"
      /\ e_details (body azure) = None
      /\ e_stack (body azure) = (if isDevelopment then stack else None)
      /\ (e_context (body azure) = None <-> isDevelopment = false)
      /\ e_retryAfter (body azure) = None
      /\ logged azure = Some LogError).
Proof.
  destruct isDevelopment; repeat split; discriminate.
Qed.

End Laws.
End ErrorLaws.

(** ** The estimates of a brief *)

Module BriefLaws.
Import Js Orchestrator ControllerBrief RoundingFacts.

Lemma js_round_div (t c : Z) :
  (0 < c)%Z -> js_round (inject_Z t / inject_Z c) = ((2 * t + c) / (2 * c))%Z.
Proof.
  intros Hc. unfold js_round.
  assert (E : (inject_Z t / inject_Z c + (1 # 2) == (2 * t + c) # (Z.to_pos (2 * c)))%Q).
  { unfold Qeq, Qdiv, Qinv, Qplus, Qmult, inject_Z. destruct c as [| p | p]; try lia.
    cbn [Qnum Qden]. rewrite ?Z2Pos.id by lia. cbn. lia. }
  rewrite E. unfold Qfloor. rewrite Z2Pos.id by lia. reflexivity.
Qed.

(** X17.  For a brief that the route accepts, the estimates of
    [validateBrief] agree with the job: the target is the word target
    that the generation hands to the planner, 150 words for each
    minute; the estimated duration read back from it is the duration
    asked for; and the words of a chapter, times the chapters, miss
    the target by half a word for each chapter at most.  The brief is
    declared valid whatever the warnings. *)
Theorem brief_estimates_agree (request : Request) :
  Routes.generateValidation request = true ->
  let v := validateBrief (topic request) (durationMin request) (chapters request) in
  let e := estimates v in
  valid v = true
  /\ targetWords e = PlannerAgent.targetWords (planningInput request)
  /\ targetWords e = (150 * durationMin request)%Z
  /\ estimatedDuration e = show_Z (durationMin request) +:+ "min"
  /\ processingTime e = show_Z (12 * durationMin request) +:+ "s"
  /\ (2 * Z.abs (chapters request * wordsPerChapter e - targetWords e)
      <= chapters request)%Z.
Proof.
  intros Hv. unfold Routes.generateValidation in Hv.
  repeat (apply andb_true_iff in Hv as [Hv ?]).
  assert (Hc : (1 <= chapters request)%Z)
    by (apply Z.leb_le; unfold Routes.minChapters in *; assumption).
  cbn zeta. unfold validateBrief.
  cbn [estimates valid targetWords wordsPerChapter estimatedDuration processingTime
       planningInput PlannerAgent.targetWords].
  unfold wordsPerMinute.
  rewrite js_round_mult.
  split; [reflexivity |]. split; [reflexivity |]. split; [lia |].
  split.
  { rewrite js_round_quot by lia. reflexivity. }
  split.
  { change 12%Q with (inject_Z 12). rewrite js_round_mult. f_equal. f_equal. lia. }
  rewrite js_round_div by lia.
  set (t := (durationMin request * 150)%Z). set (c := chapters request) in *.
  pose proof (Z.div_mod (2 * t + c) (2 * c) ltac:(lia)) as Hdm.
  pose proof (Z.mod_pos_bound (2 * t + c) (2 * c) ltac:(lia)) as Hb.
  set (q := ((2 * t + c) / (2 * c))%Z) in *.
  lia.
Qed.

End BriefLaws.

(** ** The numbering of the utterances *)

Module ToneLaws.
Import Js Regex Runtime BaseAgent ToneAgent Laws.











End ToneLaws.

(** ** Batches of sections *)

Module BatchLaws.
Import Js Runtime Orchestrator.

Lemma batches_aux_sizes {A : Type} (size : nat) :
  1 <= size ->
  forall fuel (items : list A),
    List.length items <= fuel ->
    Forall (fun batch => 1 <= List.length batch <= size) (batches_aux fuel items size)
    /\ List.length items <= List.length (batches_aux fuel items size) * size
    /\ List.length (batches_aux fuel items size) * size < List.length items + size
    /\ (forall k batch,
          nth_error (batches_aux fuel items size) k = Some batch ->
          S k < List.length (batches_aux fuel items size) ->
          List.length batch = size).
Proof.
  intros Hsize. induction fuel as [| fuel IH]; intros items Hfuel.
  - destruct items; [| simpl in Hfuel; lia]. simpl.
    split; [constructor |]. split; [lia |]. split; [lia |].
    intros k batch Hk. destruct k; discriminate.
  - destruct items as [| a items].
    + simpl. split; [constructor |]. split; [lia |]. split; [lia |].
      intros k batch Hk. destruct k; discriminate.
    + cbn [batches_aux].
      set (rest := skipn size (a :: items)).
      assert (Hrest : List.length rest = List.length (a :: items) - size)
        by apply length_skipn.
      assert (Hfirst : List.length (firstn size (a :: items))
                       = Nat.min size (List.length (a :: items)))
        by apply length_firstn.
      simpl List.length in Hfuel, Hrest, Hfirst.
      destruct (IH rest ltac:(lia)) as (Hall & Hlo & Hhi & Hfull).
      split; [| split; [| split]].
      * constructor; [simpl List.length; lia | exact Hall].
      * simpl List.length. lia.
      * simpl List.length.
        destruct (Nat.le_gt_cases size (S (List.length items))) as [Hle | Hgt]; [lia |].
        assert (E : batches_aux fuel rest size = []).
        { destruct rest; [destruct fuel; reflexivity | simpl in Hrest; lia]. }
        rewrite E. simpl. lia.
      * intros k batch Hk Hlast. destruct k as [| k].
        -- injection Hk as <-. simpl List.length in Hlast.
           destruct (batches_aux fuel rest size) as [| b bs] eqn:E; [simpl in Hlast; lia |].
           assert (Hne : List.length rest <> 0).
           { intros H0. destruct rest; [destruct fuel; discriminate E | discriminate H0]. }
           rewrite Hfirst. lia.
        -- simpl in Hk. simpl List.length in Hlast. apply (Hfull k); [exact Hk | lia].
Qed.

(** X18.  The batches of the scripting stage are the sections in
    their order, cut into slices: put end to end they give the
    sections back, no batch is empty or longer than the batch size,
    every batch but the last is full, and there are no more batches
    than needed. *)
Theorem batches_partition_sections {A : Type} (items : list A) (batchSize : positive) :
  let batches := createBatches items batchSize in
  let size := Pos.to_nat batchSize in
  concat batches = items
  /\ Forall (fun batch => 1 <= List.length batch <= size) batches
  /\ List.length items <= List.length batches * size < List.length items + size
  /\ (forall k batch,
        nth_error batches k = Some batch -> S k < List.length batches ->
        List.length batch = size).
Proof.
  cbv zeta. unfold createBatches.
  destruct (@batches_aux_sizes A (Pos.to_nat batchSize) ltac:(lia)
              (List.length items) items (le_n _)) as (Hall & Hlo & Hhi & Hfull).
  split; [apply ScriptingFacts.createBatches_concat |].
  split; [exact Hall |]. split; [split; [exact Hlo | exact Hhi] | exact Hfull].
Qed.

End BatchLaws.

(** ** Speech synthesis with tools that do not fail *)

Module SynthesisLaws.
Import Js Runtime TTSAgent.

Lemma sum_lengths {A : Type} (groups : list (list A)) :
  list_sum (map (@List.length A) groups) = List.length (concat groups).
Proof.
  unfold list_sum. induction groups as [| g groups IH]; [reflexivity |].
  cbn [map fold_right concat]. rewrite length_app, IH. reflexivity.
Qed.

Section Tools.

Variable Outside : Type.
Variable generateUtteranceAudioFiles :
  list ToneAgent.Utterance -> nat -> T Outside (list UtteranceFile).
Variable concatenateUtteranceAudio : list UtteranceFile -> nat -> T Outside string.

Hypothesis speech_works :
  forall l i s, exists files s', generateUtteranceAudioFiles l i s = (inr files, s').
Hypothesis joining_works :
  forall files i s, exists path s', concatenateUtteranceAudio files i s = (inr path, s').

Lemma chapters_loop_works (groups : list (list ToneAgent.Utterance)) :
  ~ In [] groups ->
  forall i s,
    exists files s',
      chapters_loop generateUtteranceAudioFiles concatenateUtteranceAudio groups i s
      = (inr files, s')
      /\ map (fun file => utterances (audio file)) files = map (@List.length _) groups
      /\ map (fun file => chapter (audio file)) files
         = List.seq (i + 1) (List.length groups).
Proof.
  induction groups as [| g groups IH]; intros Hin i s.
  - exists [], s. repeat split.
  - cbn [chapters_loop]. destruct g as [| u g]; [contradiction Hin; left; reflexivity |].
    cbn [generateChapterAudio is_nil].
    destruct (speech_works (u :: g) (i + 1) s) as (files & s1 & ->).
    destruct (joining_works files (i + 1) s1) as (path & s2 & ->).
    destruct (IH (fun H => Hin (or_intror H)) (S i) s2) as (more & s3 & -> & Hm & Hc).
    eexists; eexists. split; [reflexivity |].
    cbn [map audio utterances chapter List.length List.seq]. rewrite Hm, Hc.
    replace (S i + 1) with (S (i + 1)) by lia. split; reflexivity.
Qed.

(** X19.  When the speech service and the audio tool do not fail,
    speech synthesis of a valid input succeeds as soon as no chapter
    is left without utterances: it then returns one audio file for
    each chapter asked for, numbered from 1, and the files together
    hold every utterance once. *)
Theorem synthesis_covers_utterances (input : TTSInput) (s : Outside) :
  validateInput input = inr tt ->
  inputUtterances input <> [] ->
  ~ In [] (groupUtterancesByChapters (inputUtterances input) (Z.to_nat (chapters input))) ->
  exists result s',
    execute generateUtteranceAudioFiles concatenateUtteranceAudio input s = (inr result, s')
    /\ totalFiles result = Z.to_nat (chapters input)
    /\ chaptersGenerated result = Z.to_nat (chapters input)
    /\ List.length (audioFiles result) = Z.to_nat (chapters input)
    /\ map (fun file => chapter (audio file)) (audioDetails result)
       = List.seq 1 (Z.to_nat (chapters input))
    /\ list_sum (map (fun file => utterances (audio file)) (audioDetails result))
       = totalUtterances result
    /\ totalUtterances result = List.length (inputUtterances input).
Proof.
  intros Hvalid Hne Hin. unfold execute. rewrite Hvalid. cbv zeta.
  assert (Hc : 1 <= Z.to_nat (chapters input)).
  { unfold validateInput in Hvalid.
    destruct (_ || _); [discriminate |].
    destruct ((chapters input =? 0)%Z || (chapters input <? 1)%Z
              || (20 <? chapters input)%Z) eqn:E; [discriminate |].
    rewrite !orb_false_iff in E. destruct E as [[_ E] _]. apply Z.ltb_ge in E. lia. }
  pose proof (TTSLaws.groups_concat (inputUtterances input) Hc) as Hcat.
  pose proof (TTSLaws.groups_count (Z.to_nat (chapters input)) Hne) as Hlen.
  destruct (chapters_loop_works _ Hin 0 s) as (files & s' & -> & Hm & Hn).
  eexists; eexists. split; [reflexivity |].
  cbn [totalFiles chaptersGenerated audioFiles audioDetails totalUtterances].
  assert (Hfiles : List.length files = Z.to_nat (chapters input)).
  { rewrite <- Hlen, <- (length_map (fun file => utterances (audio file)) files), Hm.
    apply length_map. }
  split; [exact Hfiles |]. split; [exact Hlen |].
  split; [rewrite length_map; exact Hfiles |].
  split; [rewrite Hn, Hlen; reflexivity |].
  split; [| reflexivity].
  rewrite Hm, sum_lengths, Hcat. reflexivity.
Qed.

End Tools.
End SynthesisLaws.

(** ** From the text stages to speech synthesis *)

Module AudioLaws.
Import Js Runtime Orchestrator.

Lemma ceil_div_few (n c : nat) : 1 <= n -> n <= c -> TTSAgent.ceil_div n c = 1.
Proof.
  intros Hn Hc. unfold TTSAgent.ceil_div.
  symmetry. apply (Nat.div_unique _ _ _ (n - 1)); lia.
Qed.

Section Job.

Variable createPlanningPrompt : PlannerAgent.PlanningInput -> string.
Variable createResearchPrompt : ResearchAgent.ResearchInput -> string.
Variable createOutlinePrompt : OutlineAgent.OutlineInput -> string.
Variable createScriptPrompt : ScriptAgent.ScriptInput -> string.
Variable createTonePrompt : string -> string -> string -> string.
Variable createEditingPrompt : EditorAgent.EditorInput -> string.
Variable maxConcurrentAgents : positive.
Variable Outside : Type.
Variable generateUtteranceAudioFiles :
  list ToneAgent.Utterance -> nat -> TTSAgent.T Outside (list TTSAgent.UtteranceFile).
Variable concatenateUtteranceAudio :
  list TTSAgent.UtteranceFile -> nat -> TTSAgent.T Outside string.

(** X20.  A job whose text stages succeed still fails at audio
    generation when the tone script has fewer utterances than the
    brief has chapters, and more generally when the chapters before
    the last one take all the utterances: speech synthesis is given
    the utterances of the tone script and the chapters of the brief,
    and turns down the empty chapter, whatever the speech service and
    the audio tool do. *)
Theorem job_fails_at_audio_generation (request : Request) (w : World)
  (artifacts : Artifacts) (w' : World) (s : Outside) :
  generatePodcast createPlanningPrompt createResearchPrompt createOutlinePrompt
    createScriptPrompt createTonePrompt createEditingPrompt maxConcurrentAgents
    request w = (inr artifacts, w') ->
  List.length (ToneAgent.utterances (toneScript artifacts)) < Z.to_nat (chapters request)
  \/ List.length (ToneAgent.utterances (toneScript artifacts))
     <= (Z.to_nat (chapters request) - 1)
        * TTSAgent.ceil_div (List.length (ToneAgent.utterances (toneScript artifacts)))
            (Z.to_nat (chapters request)) ->
  TTSAgent.inputUtterances (AudioStage.ttsInput request artifacts)
  = ToneAgent.utterances (toneScript artifacts)
  /\ TTSAgent.chapters (AudioStage.ttsInput request artifacts) = chapters request
  /\ exists e s',
       TTSAgent.execute generateUtteranceAudioFiles concatenateUtteranceAudio
         (AudioStage.ttsInput request artifacts) s
       = (inl e, s').
Proof.
  intros H Hfew.
  destruct (@PipelineLaws.generatePodcast_inr _ _ _ _ _ _ _ _ _ _ _ H)
    as (w0 & w1 & w2 & w3 & w4 & w5 & w6 & w7 & w8 & w9 & w10
        & _ & _ & _ & _ & _ & _ & _ & _ & _ & E9 & _ & _).
  destruct (@PipelineLaws.tone_accepts _ _ _ _ _ E9) as (_ & Hu).
  split; [reflexivity |]. split; [reflexivity |].
  apply TTSLaws.empty_group_stops.
  cbn [AudioStage.ttsInput TTSAgent.inputUtterances TTSAgent.chapters].
  apply TTSLaws.last_group_empty; [exact Hu |].
  destruct Hfew as [Hlt | Hle]; [| exact Hle].
  assert (Hpos : 1 <= List.length (ToneAgent.utterances (toneScript artifacts))).
  { destruct (ToneAgent.utterances (toneScript artifacts)); [contradiction | simpl; lia]. }
  rewrite ceil_div_few by lia. lia.
Qed.

End Job.
End AudioLaws.

(** ** The further properties at concrete inputs *)

Module MoreWitnesses.
Import Js Runtime Spec Laws.

Lemma bicycle_finishes :
  exists artifacts w',
    Orchestrator.generatePodcast Examples.planningPrompt Examples.researchPrompt
      Examples.outlinePrompt Examples.scriptPrompt Examples.tonePrompt
      Examples.editingPrompt 5 Examples.bicycle
      (fresh Examples.stageBackend unreachable)
    = (inr artifacts, w')
    /\ List.length (ToneAgent.utterances (Orchestrator.toneScript artifacts)) = 2.
Proof.
  eexists; eexists. split; vm_compute; reflexivity.
Qed.


Lemma scripter_prompts_when_all_miss_witness :
  exists p2 p3 w',
    p2 = "SCRIPT" +:+ ScriptAgent.feedback 2 150
    /\ p3 = p2 +:+ ScriptAgent.feedback 2 150
    /\ ScriptAgent.generateScriptWithWordCount "SCRIPT" 150
         (fresh Examples.countingBackend unreachable)
       = (received ScriptAgent.name (Examples.countingBackend 3 p3), w')
    /\ sent w' = ["SCRIPT"; p2; p3; p3].
Proof.
  exists ("SCRIPT" +:+ ScriptAgent.feedback 2 150),
    (("SCRIPT" +:+ ScriptAgent.feedback 2 150) +:+ ScriptAgent.feedback 2 150).
  destruct (@LoopLaws.scripter_prompts_when_all_miss "SCRIPT" 150
              (fresh Examples.countingBackend unreachable)
              "**Host 1:** attempt 1" "**Host 1:** attempt 2" "**Host 1:** attempt 3"
              ("SCRIPT" +:+ ScriptAgent.feedback 2 150)
              (("SCRIPT" +:+ ScriptAgent.feedback 2 150) +:+ ScriptAgent.feedback 2 150))
    as [w' [E S]].
  - vm_compute; reflexivity.
  - vm_compute; reflexivity.
  - vm_compute; reflexivity.
  - vm_compute; reflexivity.
  - vm_compute; reflexivity.
  - eexists. split; [reflexivity | vm_compute; reflexivity].
  - eexists. split; [reflexivity | vm_compute; reflexivity].
  - eexists. split; [reflexivity | vm_compute; reflexivity].
  - exists w'. split; [reflexivity |]. split; [reflexivity |].
    split; [exact E | exact S].
Defined.

Lemma progress_follows_steps_witness :
  exists artifacts w',
    Orchestrator.generatePodcast Examples.planningPrompt Examples.researchPrompt
      Examples.outlinePrompt Examples.scriptPrompt Examples.tonePrompt
      Examples.editingPrompt 5 Examples.bicycle
      (fresh Examples.stageBackend unreachable)
    = (inr artifacts, w')
    /\ progress w' = steps.
Proof.
  destruct bicycle_finishes as [artifacts [w' [E _]]].
  exists artifacts, w'. split; [exact E |].
  destruct (@PipelineLaws.progress_follows_steps Examples.planningPrompt
              Examples.researchPrompt Examples.outlinePrompt Examples.scriptPrompt
              Examples.tonePrompt Examples.editingPrompt 5 Examples.bicycle
              (fresh Examples.stageBackend unreachable) (inr artifacts) w' E)
    as [k [_ [Hp H6]]].
  rewrite (H6 artifacts eq_refl) in Hp. exact Hp.
Defined.

Lemma finished_job_model_calls_witness :
  exists artifacts w',
    Orchestrator.generatePodcast Examples.planningPrompt Examples.researchPrompt
      Examples.outlinePrompt Examples.scriptPrompt Examples.tonePrompt
      Examples.editingPrompt 5 Examples.bicycle
      (fresh Examples.stageBackend unreachable)
    = (inr artifacts, w')
    /\ List.length (Orchestrator.scripts artifacts)
       = List.length (OutlineAgent.sections (Orchestrator.outline artifacts))
    /\ 4 + List.length (OutlineAgent.sections (Orchestrator.outline artifacts))
       <= callsBetween (fresh Examples.stageBackend unreachable) w'
    /\ callsBetween (fresh Examples.stageBackend unreachable) w'
       <= 8 + 4 * List.length (OutlineAgent.sections (Orchestrator.outline artifacts)).
Proof.
  destruct bicycle_finishes as [artifacts [w' [E _]]].
  exists artifacts, w'. split; [exact E |].
  exact (@PipelineLaws.finished_job_model_calls Examples.planningPrompt
           Examples.researchPrompt Examples.outlinePrompt Examples.scriptPrompt
           Examples.tonePrompt Examples.editingPrompt 5 Examples.bicycle
           (fresh Examples.stageBackend unreachable) artifacts w' E).
Defined.

Lemma finished_job_brief_witness :
  exists artifacts w',
    Orchestrator.generatePodcast Examples.planningPrompt Examples.researchPrompt
      Examples.outlinePrompt Examples.scriptPrompt Examples.tonePrompt
      Examples.editingPrompt 5 Examples.bicycle
      (fresh Examples.stageBackend unreachable)
    = (inr artifacts, w')
    /\ (1 <= Orchestrator.durationMin Examples.bicycle <= 33)%Z
    /\ (50 <= sectionTarget (Orchestrator.outline artifacts)
                (Orchestrator.planningInput Examples.bicycle) <= 2000)%Z
    /\ ToneAgent.utterances (Orchestrator.toneScript artifacts) <> [].
Proof.
  destruct bicycle_finishes as [artifacts [w' [E _]]].
  exists artifacts, w'. split; [exact E |].
  destruct (@PipelineLaws.finished_job_brief Examples.planningPrompt
              Examples.researchPrompt Examples.outlinePrompt Examples.scriptPrompt
              Examples.tonePrompt Examples.editingPrompt 5 Examples.bicycle
              (fresh Examples.stageBackend unreachable) artifacts w' E)
    as (_ & _ & Hd & _ & _ & Hs & Hu).
  split; [exact Hd |]. split; [exact Hs | exact Hu].
Defined.

Lemma long_brief_fails_at_editing_witness :
  Routes.generateValidation Cases.hourBrief = true
  /\ (34 <= Orchestrator.durationMin Cases.hourBrief)%Z
  /\ exists e w',
       Orchestrator.generatePodcast Examples.planningPrompt Examples.researchPrompt
         Examples.outlinePrompt Examples.scriptPrompt Examples.tonePrompt
         Examples.editingPrompt 5 Cases.hourBrief
         (fresh Examples.stageBackend unreachable)
       = (inl e, w').
Proof.
  assert (H : (34 <= Orchestrator.durationMin Cases.hourBrief)%Z) by (cbn; lia).
  split; [vm_compute; reflexivity |]. split; [exact H |].
  exact (proj2
    (@PipelineLaws.long_brief_fails_at_editing Examples.planningPrompt
       Examples.researchPrompt Examples.outlinePrompt Examples.scriptPrompt
       Examples.tonePrompt Examples.editingPrompt 5 Cases.hourBrief H)
    (fresh Examples.stageBackend unreachable)).
Defined.

Lemma section_share_out_of_range_witness :
  (sectionTarget Examples.bicycleOutline (Orchestrator.planningInput Cases.minuteBrief)
   < 50)%Z
  /\ exists message,
       Orchestrator.generateScriptsInParallel Examples.scriptPrompt 5
         Examples.bicycleOutline (Orchestrator.planningInput Cases.minuteBrief)
         (fresh Examples.stageBackend unreachable)
       = (inl (Error message), fresh Examples.stageBackend unreachable).
Proof.
  assert (H : (sectionTarget Examples.bicycleOutline
                 (Orchestrator.planningInput Cases.minuteBrief) < 50)%Z)
    by (vm_compute; reflexivity).
  split; [exact H |].
  exact (@PipelineLaws.section_share_out_of_range Examples.scriptPrompt 5
           Examples.bicycleOutline (Orchestrator.planningInput Cases.minuteBrief)
           (fresh Examples.stageBackend unreachable) (or_introl H)).
Defined.

Lemma failed_fetch_falls_back_witness :
  Orchestrator.source Cases.lostSource = Some "notes/missing.md"
  /\ fetcher (fresh Examples.stageBackend Examples.notesFetcher) "notes/missing.md"
     = FetchFailed "not found"
  /\ Orchestrator.researchStage Examples.researchPrompt Cases.lostSource
       Examples.bicyclePlan (fresh Examples.stageBackend Examples.notesFetcher)
     = ResearchAgent.execute Examples.researchPrompt
         {| ResearchAgent.topic := Orchestrator.topic Cases.lostSource;
            ResearchAgent.focus := Orchestrator.focus Cases.lostSource;
            ResearchAgent.plan := PlannerAgent.content Examples.bicyclePlan;
            ResearchAgent.chapters := PlannerAgent.planChapters Examples.bicyclePlan;
            ResearchAgent.source := Some "notes/missing.md" |}
         (fresh Examples.stageBackend Examples.notesFetcher).
Proof.
  assert (H1 : Orchestrator.source Cases.lostSource = Some "notes/missing.md")
    by reflexivity.
  assert (H2 : fetcher (fresh Examples.stageBackend Examples.notesFetcher)
                 "notes/missing.md" = FetchFailed "not found")
    by (vm_compute; reflexivity).
  split; [exact H1 |]. split; [exact H2 |].
  exact (@PipelineLaws.failed_fetch_falls_back Examples.researchPrompt Cases.lostSource
           Examples.bicyclePlan (fresh Examples.stageBackend Examples.notesFetcher)
           "notes/missing.md" "not found" H1 H2).
Defined.

Lemma accepted_brief_reaches_planner_witness :
  Routes.generateValidation Examples.bicycle = true
  /\ PlannerAgent.targetWords (Orchestrator.planningInput Examples.bicycle) = 750%Z.
Proof.
  assert (H : Routes.generateValidation Examples.bicycle = true)
    by (vm_compute; reflexivity).
  split; [exact H |].
  exact (proj1 (@PipelineLaws.accepted_brief_reaches_planner Examples.bicycle
                  (fresh Examples.stageBackend unreachable) H)).
Defined.

Lemma grouping_keeps_utterances_witness :
  1 <= 2
  /\ concat (TTSAgent.groupUtterancesByChapters [1; 2; 3; 4; 5] 2) = [1; 2; 3; 4; 5]
  /\ List.length (TTSAgent.groupUtterancesByChapters [1; 2; 3; 4; 5] 2) = 2.
Proof.
  assert (H : 1 <= 2) by lia.
  split; [exact H |].
  destruct (@TTSLaws.grouping_keeps_utterances nat [1; 2; 3; 4; 5] 2 H) as (Hc & Hl & _).
  split; [exact Hc |]. apply Hl. discriminate.
Defined.

Lemma empty_chapter_fails_synthesis_witness :
  TTSAgent.inputUtterances Cases.threeChapters <> []
  /\ TTSAgent.validateInput Cases.threeChapters = inr tt
  /\ exists e s',
       TTSAgent.execute Cases.speak Cases.joined Cases.threeChapters tt = (inl e, s').
Proof.
  assert (H1 : TTSAgent.inputUtterances Cases.threeChapters <> []) by discriminate.
  split; [exact H1 |]. split; [vm_compute; reflexivity |].
  refine (proj2 (@TTSLaws.empty_chapter_fails_synthesis unit Cases.speak Cases.joined
                   Cases.threeChapters tt H1 _)).
  vm_compute. lia.
Defined.

Lemma validation_failure_response_witness :
  [Cases.topicMissing] <> []
  /\ exists err,
       ErrorHandler.validateRequest [Cases.topicMissing] None = Some err
       /\ ErrorHandler.httpStatus
            (ErrorHandler.errorHandler true "12:00" "12:00" err tt) = 400.
Proof.
  assert (H : [Cases.topicMissing] <> []) by discriminate.
  split; [exact H |].
  destruct (@ErrorLaws.validation_failure_response unit [Cases.topicMissing] None true
              "12:00" "12:00" tt H) as (err & E & _ & S & _).
  exists err. split; [exact E | exact S].
Defined.

Lemma brief_estimates_agree_witness :
  Routes.generateValidation Examples.bicycle = true
  /\ ControllerBrief.targetWords
       (ControllerBrief.estimates
          (ControllerBrief.validateBrief (Orchestrator.topic Examples.bicycle)
             (Orchestrator.durationMin Examples.bicycle)
             (Orchestrator.chapters Examples.bicycle)))
     = PlannerAgent.targetWords (Orchestrator.planningInput Examples.bicycle).
Proof.
  assert (H : Routes.generateValidation Examples.bicycle = true)
    by (vm_compute; reflexivity).
  split; [exact H |].
  exact (proj1 (proj2 (@BriefLaws.brief_estimates_agree Examples.bicycle H))).
Defined.

Lemma synthesis_covers_utterances_witness :
  TTSAgent.validateInput Cases.twoChapters = inr tt
  /\ exists result s',
       TTSAgent.execute Cases.speak Cases.joined Cases.twoChapters tt = (inr result, s')
       /\ TTSAgent.totalFiles result = 2
       /\ TTSAgent.totalUtterances result = 2.
Proof.
  assert (H1 : TTSAgent.validateInput Cases.twoChapters = inr tt)
    by (vm_compute; reflexivity).
  assert (H2 : TTSAgent.inputUtterances Cases.twoChapters <> []) by discriminate.
  assert (H3 : ~ In [] (TTSAgent.groupUtterancesByChapters
                          (TTSAgent.inputUtterances Cases.twoChapters)
                          (Z.to_nat (TTSAgent.chapters Cases.twoChapters)))).
  { vm_compute. intros [H | [H | []]]; discriminate H. }
  split; [exact H1 |].
  destruct (@SynthesisLaws.synthesis_covers_utterances unit Cases.speak Cases.joined
              (fun l i s => ex_intro _ _ (ex_intro _ s eq_refl))
              (fun files i s => ex_intro _ _ (ex_intro _ s eq_refl))
              Cases.twoChapters tt H1 H2 H3)
    as (result & s' & E & Hf & _ & _ & _ & _ & Hu).
  exists result, s'. split; [exact E |]. split; [exact Hf | exact Hu].
Defined.

Lemma job_fails_at_audio_generation_witness :
  exists artifacts w',
    Orchestrator.generatePodcast Examples.planningPrompt Examples.researchPrompt
      Examples.outlinePrompt Examples.scriptPrompt Examples.tonePrompt
      Examples.editingPrompt 5 Examples.bicycle
      (fresh Examples.stageBackend unreachable)
    = (inr artifacts, w')
    /\ List.length (ToneAgent.utterances (Orchestrator.toneScript artifacts))
       < Z.to_nat (Orchestrator.chapters Examples.bicycle)
    /\ exists e s',
         TTSAgent.execute Cases.speak Cases.joined
           (AudioStage.ttsInput Examples.bicycle artifacts) tt
         = (inl e, s').
Proof.
  destruct bicycle_finishes as [artifacts [w' [E Hu]]].
  assert (Hfew : List.length (ToneAgent.utterances (Orchestrator.toneScript artifacts))
                 < Z.to_nat (Orchestrator.chapters Examples.bicycle))
    by (rewrite Hu; vm_compute; lia).
  exists artifacts, w'. split; [exact E |]. split; [exact Hfew |].
  exact (proj2 (proj2
    (@AudioLaws.job_fails_at_audio_generation Examples.planningPrompt
       Examples.researchPrompt Examples.outlinePrompt Examples.scriptPrompt
       Examples.tonePrompt Examples.editingPrompt 5 unit Cases.speak Cases.joined
       Examples.bicycle (fresh Examples.stageBackend unreachable) artifacts w' tt E
       (or_introl Hfew)))).
Defined.

End MoreWitnesses.
